(** * jscom-api: the HTTP client, its configuration and its command layer

    A shallow embedding of [jscom_api/config.py], [jscom_api/client.py],
    [jscom_api/exceptions.py], [jscom_api/models.py] and
    [jscom_api/cli/main.py], followed by the properties of the request
    contract, of the error classification and of the exit codes.

    Python values that travel through the client are JSON values; the
    exceptions are one inductive type; the network, the consoles and the
    session are an explicit world threaded through a state-and-exception
    monad.  A str is held by the bytes of its UTF-8 encoding; the tables
    of the Unicode database are those of CPython 3.11. *)

From Stdlib Require Import ZArith List Bool Lia.
From Stdlib Require Import Strings.String Strings.Ascii.
From Stdlib Require Import Floats.SpecFloat.
From Stdlib Require Import Numbers.DecimalString.
From stdpp Require Import base option strings list gmap.

Local Open Scope Z_scope.

Set Warnings "-register-all".

(** ** Python values *)

Module py.

(** What [json.loads] produces.  A float is held by the text [repr] prints
    for it: the client only prints floats, tests them against zero and
    passes them on.  A dict is the list of its items in insertion order,
    its keys distinct. *)
Inductive value : Type :=
  | JNull
  | JBool (b : bool)
  | JInt (z : Z)
  | JFloat (repr : string)
  | JStr (s : string)
  | JList (l : list value)
  | JObj (items : list (string * value)).

(** The exception classes the program raises, catches or lets through:
    the four of [jscom_api/exceptions.py], those of [requests], of the
    interpreter and of [rich], and [typer.Exit].  Each holds the text
    [str(e)] prints, but for [TimeoutValueError], the [ValueError] of
    [JscomApiClient.__init__], which holds the offending timeout, and
    [KeyError], which holds the key.  [MarkupError] is what a [rich]
    console raises on markup it cannot render. *)
Inductive exn : Type :=
  | AuthenticationError (msg : string)
  | ValidationError (msg : string)
  | ServerError (msg : string)
  | NetworkError (msg : string)
  | RequestException (msg : string)
  | JSONDecodeError (msg : string)
  | TimeoutValueError (timeout : spec_float)
  | KeyError (key : string)
  | TypeError (msg : string)
  | AttributeError (msg : string)
  | NotRenderableError (msg : string)
  | MarkupError (msg : string)
  | Exit (code : Z).

(** [except JscomApiError] *)
Definition is_JscomApiError (e : exn) : bool :=
  match e with
  | AuthenticationError _ | ValidationError _
  | ServerError _ | NetworkError _ => true
  | _ => false
  end.

(** [except ValueError]: [requests]' [JSONDecodeError] is a [ValueError],
    and so is the one [JscomApiClient.__init__] raises. *)
Definition is_ValueError (e : exn) : bool :=
  match e with
  | JSONDecodeError _ | TimeoutValueError _ => true
  | _ => false
  end.

(** The outcome of evaluating an expression: a value or a raised exception. *)
Inductive outcome (A : Type) : Type :=
  | Ok (a : A)
  | Raise (e : exn).
Arguments Ok {A} a.
Arguments Raise {A} e.

Definition obind {A B} (r : outcome A) (k : A -> outcome B) : outcome B :=
  match r with
  | Ok a => k a
  | Raise e => Raise e
  end.

(** *** Strings *)

Definition str_nonempty (s : string) : bool :=
  match s with
  | EmptyString => false
  | String _ _ => true
  end.

(** [c in chars] for a character *)
Fixpoint char_in (c : ascii) (chars : string) : bool :=
  match chars with
  | EmptyString => false
  | String d rest => Ascii.eqb c d || char_in c rest
  end.

(** [s.rstrip(chars)]: drops the longest suffix made of characters of
    [chars]. *)
Fixpoint rstrip (chars : string) (s : string) : string :=
  match s with
  | EmptyString => EmptyString
  | String c rest =>
      match rstrip chars rest with
      | EmptyString => if char_in c chars then EmptyString else String c EmptyString
      | kept => String c kept
      end
  end.

(** [s.endswith(suffix)] for a one-character suffix *)
Fixpoint ends_with_char (c : ascii) (s : string) : bool :=
  match s with
  | EmptyString => false
  | String d EmptyString => Ascii.eqb c d
  | String _ rest => ends_with_char c rest
  end.

Fixpoint is_prefix (p s : string) : bool :=
  match p, s with
  | EmptyString, _ => true
  | String a p', String b s' => Ascii.eqb a b && is_prefix p' s'
  | String _ _, EmptyString => false
  end.

(** [needle in haystack] on two strings *)
Fixpoint is_substring (needle haystack : string) : bool :=
  is_prefix needle haystack ||
  match haystack with
  | EmptyString => false
  | String _ rest => is_substring needle rest
  end.

Fixpoint join (sep : string) (parts : list string) : string :=
  match parts with
  | [] => ""
  | [p] => p
  | p :: rest => p +:+ sep +:+ join sep rest
  end.

(** [str(n)] for an int *)
Definition str_int (z : Z) : string := NilZero.string_of_int (Z.to_int z).

Definition hex_digit (n : N) : ascii :=
  match n with
  | 0%N => "0" | 1%N => "1" | 2%N => "2" | 3%N => "3" | 4%N => "4"
  | 5%N => "5" | 6%N => "6" | 7%N => "7" | 8%N => "8" | 9%N => "9"
  | 10%N => "a" | 11%N => "b" | 12%N => "c" | 13%N => "d" | 14%N => "e"
  | _ => "f"
  end%char.

(** *** Text

    A str is held by the bytes of its UTF-8 encoding. *)

(** The payload of a continuation byte, [10xxxxxx]. *)
Definition continuation (c : ascii) : option N :=
  let n := N_of_ascii c in
  if (128 <=? n)%N && (n <? 192)%N then Some (n - 128)%N else None.

(** The code points of a str.  Only the shortest encoding of a code
    point that is no surrogate is well formed; a byte that belongs to no
    well-formed sequence stands for the lone surrogate [0xDC00 + byte],
    which is how the interpreter decodes the environment
    ([surrogateescape]). *)
Fixpoint code_points (s : string) : list N :=
  match s with
  | EmptyString => []
  | String a rest =>
      let n := N_of_ascii a in
      if (n <? 128)%N then n :: code_points rest
      else
        match
          (if (194 <=? n)%N && (n <? 224)%N then
             match rest with
             | String b r1 =>
                 match continuation b with
                 | Some x => Some ((n - 192) * 64 + x, r1)%N
                 | None => None
                 end
             | _ => None
             end
           else if (224 <=? n)%N && (n <? 240)%N then
             match rest with
             | String b (String c r2) =>
                 match continuation b, continuation c with
                 | Some x, Some y =>
                     let cp := ((n - 224) * 4096 + x * 64 + y)%N in
                     if (cp <? 2048)%N || ((55296 <=? cp)%N && (cp <? 57344)%N)
                     then None else Some (cp, r2)
                 | _, _ => None
                 end
             | _ => None
             end
           else if (240 <=? n)%N && (n <? 245)%N then
             match rest with
             | String b (String c (String d r3)) =>
                 match continuation b, continuation c, continuation d with
                 | Some x, Some y, Some z =>
                     let cp := ((n - 240) * 262144 + x * 4096 + y * 64 + z)%N in
                     if (cp <? 65536)%N || (1114111 <? cp)%N
                     then None else Some (cp, r3)
                 | _, _, _ => None
                 end
             | _ => None
             end
           else None)
        with
        | Some (cp, _) =>
            cp :: code_points
                    (match rest with
                     | String _ r1 =>
                         if (n <? 224)%N then r1
                         else match r1 with
                              | String _ r2 =>
                                  if (n <? 240)%N then r2
                                  else match r2 with
                                       | String _ r3 => r3
                                       | EmptyString => r2
                                       end
                              | EmptyString => r1
                              end
                     | EmptyString => rest
                     end)
        | None => (56320 + n)%N :: code_points rest
        end
  end.

(** The UTF-8 encoding of a code point. *)
Definition encode_utf8 (cp : N) : string :=
  let byte (n : N) := ascii_of_N n in
  if (cp <? 128)%N then String (byte cp) ""
  else if (cp <? 2048)%N then
    String (byte (192 + cp / 64)%N) (String (byte (128 + cp mod 64)%N) "")
  else if (cp <? 65536)%N then
    String (byte (224 + cp / 4096)%N)
      (String (byte (128 + (cp / 64) mod 64)%N)
         (String (byte (128 + cp mod 64)%N) ""))
  else
    String (byte (240 + cp / 262144)%N)
      (String (byte (128 + (cp / 4096) mod 64)%N)
         (String (byte (128 + (cp / 64) mod 64)%N)
            (String (byte (128 + cp mod 64)%N) ""))).

(** The code points from U+0080 up that [str.isprintable] refuses, as
    closed ranges in increasing order (CPython 3.11, Unicode 14.0). *)
Definition unprintable_ranges : list (N * N) :=
  [(128, 160); (173, 173); (888, 889); (896, 899); (907, 907); (909, 909);
   (930, 930); (1328, 1328); (1367, 1368); (1419, 1420); (1424, 1424);
   (1480, 1487); (1515, 1518); (1525, 1541); (1564, 1564); (1757, 1757);
   (1806, 1807); (1867, 1868); (1970, 1983); (2043, 2044); (2094, 2095);
   (2111, 2111); (2140, 2141); (2143, 2143); (2155, 2159); (2191, 2199);
   (2274, 2274); (2436, 2436); (2445, 2446); (2449, 2450); (2473, 2473);
   (2481, 2481); (2483, 2485); (2490, 2491); (2501, 2502); (2505, 2506);
   (2511, 2518); (2520, 2523); (2526, 2526); (2532, 2533); (2559, 2560);
   (2564, 2564); (2571, 2574); (2577, 2578); (2601, 2601); (2609, 2609);
   (2612, 2612); (2615, 2615); (2618, 2619); (2621, 2621); (2627, 2630);
   (2633, 2634); (2638, 2640); (2642, 2648); (2653, 2653); (2655, 2661);
   (2679, 2688); (2692, 2692); (2702, 2702); (2706, 2706); (2729, 2729);
   (2737, 2737); (2740, 2740); (2746, 2747); (2758, 2758); (2762, 2762);
   (2766, 2767); (2769, 2783); (2788, 2789); (2802, 2808); (2816, 2816);
   (2820, 2820); (2829, 2830); (2833, 2834); (2857, 2857); (2865, 2865);
   (2868, 2868); (2874, 2875); (2885, 2886); (2889, 2890); (2894, 2900);
   (2904, 2907); (2910, 2910); (2916, 2917); (2936, 2945); (2948, 2948);
   (2955, 2957); (2961, 2961); (2966, 2968); (2971, 2971); (2973, 2973);
   (2976, 2978); (2981, 2983); (2987, 2989); (3002, 3005); (3011, 3013);
   (3017, 3017); (3022, 3023); (3025, 3030); (3032, 3045); (3067, 3071);
   (3085, 3085); (3089, 3089); (3113, 3113); (3130, 3131); (3141, 3141);
   (3145, 3145); (3150, 3156); (3159, 3159); (3163, 3164); (3166, 3167);
   (3172, 3173); (3184, 3190); (3213, 3213); (3217, 3217); (3241, 3241);
   (3252, 3252); (3258, 3259); (3269, 3269); (3273, 3273); (3278, 3284);
   (3287, 3292); (3295, 3295); (3300, 3301); (3312, 3312); (3315, 3327);
   (3341, 3341); (3345, 3345); (3397, 3397); (3401, 3401); (3408, 3411);
   (3428, 3429); (3456, 3456); (3460, 3460); (3479, 3481); (3506, 3506);
   (3516, 3516); (3518, 3519); (3527, 3529); (3531, 3534); (3541, 3541);
   (3543, 3543); (3552, 3557); (3568, 3569); (3573, 3584); (3643, 3646);
   (3676, 3712); (3715, 3715); (3717, 3717); (3723, 3723); (3748, 3748);
   (3750, 3750); (3774, 3775); (3781, 3781); (3783, 3783); (3790, 3791);
   (3802, 3803); (3808, 3839); (3912, 3912); (3949, 3952); (3992, 3992);
   (4029, 4029); (4045, 4045); (4059, 4095); (4294, 4294); (4296, 4300);
   (4302, 4303); (4681, 4681); (4686, 4687); (4695, 4695); (4697, 4697);
   (4702, 4703); (4745, 4745); (4750, 4751); (4785, 4785); (4790, 4791);
   (4799, 4799); (4801, 4801); (4806, 4807); (4823, 4823); (4881, 4881);
   (4886, 4887); (4955, 4956); (4989, 4991); (5018, 5023); (5110, 5111);
   (5118, 5119); (5760, 5760); (5789, 5791); (5881, 5887); (5910, 5918);
   (5943, 5951); (5972, 5983); (5997, 5997); (6001, 6001); (6004, 6015);
   (6110, 6111); (6122, 6127); (6138, 6143); (6158, 6158); (6170, 6175);
   (6265, 6271); (6315, 6319); (6390, 6399); (6431, 6431); (6444, 6447);
   (6460, 6463); (6465, 6467); (6510, 6511); (6517, 6527); (6572, 6575);
   (6602, 6607); (6619, 6621); (6684, 6685); (6751, 6751); (6781, 6782);
   (6794, 6799); (6810, 6815); (6830, 6831); (6863, 6911); (6989, 6991);
   (7039, 7039); (7156, 7163); (7224, 7226); (7242, 7244); (7305, 7311);
   (7355, 7356); (7368, 7375); (7419, 7423); (7958, 7959); (7966, 7967);
   (8006, 8007); (8014, 8015); (8024, 8024); (8026, 8026); (8028, 8028);
   (8030, 8030); (8062, 8063); (8117, 8117); (8133, 8133); (8148, 8149);
   (8156, 8156); (8176, 8177); (8181, 8181); (8191, 8207); (8232, 8239);
   (8287, 8303); (8306, 8307); (8335, 8335); (8349, 8351); (8385, 8399);
   (8433, 8447); (8588, 8591); (9255, 9279); (9291, 9311); (11124, 11125);
   (11158, 11158); (11508, 11512); (11558, 11558); (11560, 11564); (11566,
   11567); (11624, 11630); (11633, 11646); (11671, 11679); (11687, 11687);
   (11695, 11695); (11703, 11703); (11711, 11711); (11719, 11719); (11727,
   11727); (11735, 11735); (11743, 11743); (11870, 11903); (11930, 11930);
   (12020, 12031); (12246, 12271); (12284, 12288); (12352, 12352); (12439,
   12440); (12544, 12548); (12592, 12592); (12687, 12687); (12772, 12783);
   (12831, 12831); (42125, 42127); (42183, 42191); (42540, 42559); (42744,
   42751); (42955, 42959); (42962, 42962); (42964, 42964); (42970, 42993);
   (43053, 43055); (43066, 43071); (43128, 43135); (43206, 43213); (43226,
   43231); (43348, 43358); (43389, 43391); (43470, 43470); (43482, 43485);
   (43519, 43519); (43575, 43583); (43598, 43599); (43610, 43611); (43715,
   43738); (43767, 43776); (43783, 43784); (43791, 43792); (43799, 43807);
   (43815, 43815); (43823, 43823); (43884, 43887); (44014, 44015); (44026,
   44031); (55204, 55215); (55239, 55242); (55292, 63743); (64110, 64111);
   (64218, 64255); (64263, 64274); (64280, 64284); (64311, 64311); (64317,
   64317); (64319, 64319); (64322, 64322); (64325, 64325); (64451, 64466);
   (64912, 64913); (64968, 64974); (64976, 65007); (65050, 65055); (65107,
   65107); (65127, 65127); (65132, 65135); (65141, 65141); (65277, 65280);
   (65471, 65473); (65480, 65481); (65488, 65489); (65496, 65497); (65501,
   65503); (65511, 65511); (65519, 65531); (65534, 65535); (65548, 65548);
   (65575, 65575); (65595, 65595); (65598, 65598); (65614, 65615); (65630,
   65663); (65787, 65791); (65795, 65798); (65844, 65846); (65935, 65935);
   (65949, 65951); (65953, 65999); (66046, 66175); (66205, 66207); (66257,
   66271); (66300, 66303); (66340, 66348); (66379, 66383); (66427, 66431);
   (66462, 66462); (66500, 66503); (66518, 66559); (66718, 66719); (66730,
   66735); (66772, 66775); (66812, 66815); (66856, 66863); (66916, 66926);
   (66939, 66939); (66955, 66955); (66963, 66963); (66966, 66966); (66978,
   66978); (66994, 66994); (67002, 67002); (67005, 67071); (67383, 67391);
   (67414, 67423); (67432, 67455); (67462, 67462); (67505, 67505); (67515,
   67583); (67590, 67591); (67593, 67593); (67638, 67638); (67641, 67643);
   (67645, 67646); (67670, 67670); (67743, 67750); (67760, 67807); (67827,
   67827); (67830, 67834); (67868, 67870); (67898, 67902); (67904, 67967);
   (68024, 68027); (68048, 68049); (68100, 68100); (68103, 68107); (68116,
   68116); (68120, 68120); (68150, 68151); (68155, 68158); (68169, 68175);
   (68185, 68191); (68256, 68287); (68327, 68330); (68343, 68351); (68406,
   68408); (68438, 68439); (68467, 68471); (68498, 68504); (68509, 68520);
   (68528, 68607); (68681, 68735); (68787, 68799); (68851, 68857); (68904,
   68911); (68922, 69215); (69247, 69247); (69290, 69290); (69294, 69295);
   (69298, 69375); (69416, 69423); (69466, 69487); (69514, 69551); (69580,
   69599); (69623, 69631); (69710, 69713); (69750, 69758); (69821, 69821);
   (69827, 69839); (69865, 69871); (69882, 69887); (69941, 69941); (69960,
   69967); (70007, 70015); (70112, 70112); (70133, 70143); (70162, 70162);
   (70207, 70271); (70279, 70279); (70281, 70281); (70286, 70286); (70302,
   70302); (70314, 70319); (70379, 70383); (70394, 70399); (70404, 70404);
   (70413, 70414); (70417, 70418); (70441, 70441); (70449, 70449); (70452,
   70452); (70458, 70458); (70469, 70470); (70473, 70474); (70478, 70479);
   (70481, 70486); (70488, 70492); (70500, 70501); (70509, 70511); (70517,
   70655); (70748, 70748); (70754, 70783); (70856, 70863); (70874, 71039);
   (71094, 71095); (71134, 71167); (71237, 71247); (71258, 71263); (71277,
   71295); (71354, 71359); (71370, 71423); (71451, 71452); (71468, 71471);
   (71495, 71679); (71740, 71839); (71923, 71934); (71943, 71944); (71946,
   71947); (71956, 71956); (71959, 71959); (71990, 71990); (71993, 71994);
   (72007, 72015); (72026, 72095); (72104, 72105); (72152, 72153); (72165,
   72191); (72264, 72271); (72355, 72367); (72441, 72703); (72713, 72713);
   (72759, 72759); (72774, 72783); (72813, 72815); (72848, 72849); (72872,
   72872); (72887, 72959); (72967, 72967); (72970, 72970); (73015, 73017);
   (73019, 73019); (73022, 73022); (73032, 73039); (73050, 73055); (73062,
   73062); (73065, 73065); (73103, 73103); (73106, 73106); (73113, 73119);
   (73130, 73439); (73465, 73647); (73649, 73663); (73714, 73726); (74650,
   74751); (74863, 74863); (74869, 74879); (75076, 77711); (77811, 77823);
   (78895, 82943); (83527, 92159); (92729, 92735); (92767, 92767); (92778,
   92781); (92863, 92863); (92874, 92879); (92910, 92911); (92918, 92927);
   (92998, 93007); (93018, 93018); (93026, 93026); (93048, 93052); (93072,
   93759); (93851, 93951); (94027, 94030); (94088, 94094); (94112, 94175);
   (94181, 94191); (94194, 94207); (100344, 100351); (101590, 101631);
   (101641, 110575); (110580, 110580); (110588, 110588); (110591, 110591);
   (110883, 110927); (110931, 110947); (110952, 110959); (111356, 113663);
   (113771, 113775); (113789, 113791); (113801, 113807); (113818, 113819);
   (113824, 118527); (118574, 118575); (118599, 118607); (118724, 118783);
   (119030, 119039); (119079, 119080); (119155, 119162); (119275, 119295);
   (119366, 119519); (119540, 119551); (119639, 119647); (119673, 119807);
   (119893, 119893); (119965, 119965); (119968, 119969); (119971, 119972);
   (119975, 119976); (119981, 119981); (119994, 119994); (119996, 119996);
   (120004, 120004); (120070, 120070); (120075, 120076); (120085, 120085);
   (120093, 120093); (120122, 120122); (120127, 120127); (120133, 120133);
   (120135, 120137); (120145, 120145); (120486, 120487); (120780, 120781);
   (121484, 121498); (121504, 121504); (121520, 122623); (122655, 122879);
   (122887, 122887); (122905, 122906); (122914, 122914); (122917, 122917);
   (122923, 123135); (123181, 123183); (123198, 123199); (123210, 123213);
   (123216, 123535); (123567, 123583); (123642, 123646); (123648, 124895);
   (124903, 124903); (124908, 124908); (124911, 124911); (124927, 124927);
   (125125, 125126); (125143, 125183); (125260, 125263); (125274, 125277);
   (125280, 126064); (126133, 126208); (126270, 126463); (126468, 126468);
   (126496, 126496); (126499, 126499); (126501, 126502); (126504, 126504);
   (126515, 126515); (126520, 126520); (126522, 126522); (126524, 126529);
   (126531, 126534); (126536, 126536); (126538, 126538); (126540, 126540);
   (126544, 126544); (126547, 126547); (126549, 126550); (126552, 126552);
   (126554, 126554); (126556, 126556); (126558, 126558); (126560, 126560);
   (126563, 126563); (126565, 126566); (126571, 126571); (126579, 126579);
   (126584, 126584); (126589, 126589); (126591, 126591); (126602, 126602);
   (126620, 126624); (126628, 126628); (126634, 126634); (126652, 126703);
   (126706, 126975); (127020, 127023); (127124, 127135); (127151, 127152);
   (127168, 127168); (127184, 127184); (127222, 127231); (127406, 127461);
   (127491, 127503); (127548, 127551); (127561, 127567); (127570, 127583);
   (127590, 127743); (128728, 128732); (128749, 128751); (128765, 128767);
   (128884, 128895); (128985, 128991); (129004, 129007); (129009, 129023);
   (129036, 129039); (129096, 129103); (129114, 129119); (129160, 129167);
   (129198, 129199); (129202, 129279); (129620, 129631); (129646, 129647);
   (129653, 129655); (129661, 129663); (129671, 129679); (129709, 129711);
   (129723, 129727); (129734, 129743); (129754, 129759); (129768, 129775);
   (129783, 129791); (129939, 129939); (129995, 130031); (130042, 131071);
   (173792, 173823); (177977, 177983); (178206, 178207); (183970, 183983);
   (191457, 194559); (195102, 196607); (201547, 917759); (918000, 1114111)]%N.

Definition in_ranges (cp : N) (ranges : list (N * N)) : bool :=
  existsb (fun range => (fst range <=? cp)%N && (cp <=? snd range)%N) ranges.

(** [n] in hexadecimal, on [digits] digits *)
Fixpoint hex (digits : nat) (n : N) : string :=
  match digits with
  | O => ""
  | S k => hex k (n / 16)%N +:+ String (hex_digit (n mod 16)%N) ""
  end.

(** One code point of [repr(s)], for the quote in use: the quote and the
    backslash are escaped, and so is every code point that is not
    printable. *)
Definition repr_char (quote : ascii) (cp : N) : string :=
  let backslash := "\"%char in
  if (cp <? 128)%N then
    let c := ascii_of_N cp in
    if Ascii.eqb c quote || Ascii.eqb c backslash
    then String backslash (String c "")
    else if N.eqb cp 9 then "\t"
    else if N.eqb cp 10 then "\n"
    else if N.eqb cp 13 then "\r"
    else if N.ltb cp 32 || N.eqb cp 127 then String backslash ("x" +:+ hex 2 cp)
    else String c ""
  else if in_ranges cp unprintable_ranges then
    if (cp <? 256)%N then String backslash ("x" +:+ hex 2 cp)
    else if (cp <? 65536)%N then String backslash ("u" +:+ hex 4 cp)
    else String backslash ("U" +:+ hex 8 cp)
  else encode_utf8 cp.

Fixpoint repr_chars (quote : ascii) (cps : list N) : string :=
  match cps with
  | [] => EmptyString
  | cp :: rest => repr_char quote cp +:+ repr_chars quote rest
  end.

(** The double quote character *)
Definition double_quote : ascii := ascii_of_N 34.

(** [repr(s)] for a str: single quotes, unless the text has a single quote
    and no double quote. *)
Definition repr_str (s : string) : string :=
  let quote :=
    if char_in "'"%char s && negb (char_in double_quote s)
    then double_quote else "'"%char in
  String quote (repr_chars quote (code_points s)) +:+ String quote "".

(** *** Builtins on values *)

(** [repr(v)] *)
Fixpoint repr (v : value) : string :=
  match v with
  | JNull => "None"
  | JBool true => "True"
  | JBool false => "False"
  | JInt z => str_int z
  | JFloat r => r
  | JStr s => repr_str s
  | JList l => "[" +:+ join ", " (map repr l) +:+ "]"
  | JObj items =>
      "{" +:+ join ", "
                (map (fun kv => match kv with
                                | (k, x) => repr_str k +:+ ": " +:+ repr x
                                end) items) +:+ "}"
  end.

(** [str(v)], also what an f-string field [{v}] prints *)
Definition str (v : value) : string :=
  match v with
  | JStr s => s
  | _ => repr v
  end.

(** [bool(v)] *)
Definition truthy (v : value) : bool :=
  match v with
  | JNull => false
  | JBool b => b
  | JInt z => negb (Z.eqb z 0)
  | JFloat r => negb (String.eqb r "0.0" || String.eqb r "-0.0")
  | JStr s => str_nonempty s
  | JList l => match l with [] => false | _ => true end
  | JObj items => match items with [] => false | _ => true end
  end.

(** [type(v).__name__] *)
Definition type_name (v : value) : string :=
  match v with
  | JNull => "NoneType"
  | JBool _ => "bool"
  | JInt _ => "int"
  | JFloat _ => "float"
  | JStr _ => "str"
  | JList _ => "list"
  | JObj _ => "dict"
  end.

(** [d.get(key)] on the items of a dict *)
Fixpoint lookup_key (key : string) (items : list (string * value)) : option value :=
  match items with
  | [] => None
  | (k, x) :: rest => if String.eqb k key then Some x else lookup_key key rest
  end.

(** [key in container] for a str key: a key test on a dict, an element
    test on a list, a substring test on a str, and a [TypeError] on
    everything else (the interpreter's wording is CPython 3.11's). *)
Definition contains (key : string) (container : value) : outcome bool :=
  match container with
  | JObj items =>
      Ok (match lookup_key key items with Some _ => true | None => false end)
  | JList l =>
      Ok (existsb (fun x => match x with
                            | JStr s => String.eqb s key
                            | _ => false
                            end) l)
  | JStr s => Ok (is_substring key s)
  | other =>
      Raise (TypeError ("argument of type '" +:+ type_name other
                          +:+ "' is not iterable"))
  end.

(** [container[key]] for a str key *)
Definition getitem (container : value) (key : string) : outcome value :=
  match container with
  | JObj items =>
      match lookup_key key items with
      | Some x => Ok x
      | None => Raise (KeyError key)
      end
  | JList _ => Raise (TypeError "list indices must be integers or slices, not str")
  | JStr _ => Raise (TypeError "string indices must be integers, not 'str'")
  | other =>
      Raise (TypeError ("'" +:+ type_name other +:+ "' object is not subscriptable"))
  end.

(** [v.items()] *)
Definition items_of (v : value) : outcome (list (string * value)) :=
  match v with
  | JObj items => Ok items
  | other =>
      Raise (AttributeError ("'" +:+ type_name other
                               +:+ "' object has no attribute 'items'"))
  end.

(** [d.get(key, default)]: only a dict has the method. *)
Definition dict_get (d : value) (key : string) (default : value) : outcome value :=
  match d with
  | JObj items =>
      Ok (match lookup_key key items with
          | Some x => x
          | None => default
          end)
  | other =>
      Raise (AttributeError ("'" +:+ type_name other
                               +:+ "' object has no attribute 'get'"))
  end.

(** [v != expected] for a value and an optional str, that is a str or
    [None]: a str equals a str of the same text only, [None] equals
    [None] only. *)
Definition differs (v : value) (expected : option string) : bool :=
  match v, expected with
  | JStr s, Some t => negb (String.eqb s t)
  | JNull, None => false
  | _, _ => true
  end.

(** [a or b] on two optional strings: [a] when it is truthy, else [b]. *)
Definition or_else (a b : option string) : option string :=
  match a with
  | Some s => if str_nonempty s then a else b
  | None => b
  end.

Definition truthy_opt (a : option string) : bool :=
  match a with
  | Some s => str_nonempty s
  | None => false
  end.

(** *** Floats *)

(** A Python float is an IEEE 754 binary64 number. *)
Definition prec : Z := 53.
Definition emax : Z := 1024.

(** The float nearest to [m * 10^e] (ties to even), signed by [neg]. *)
Definition float_of_decimal (neg : bool) (m e : Z) : spec_float :=
  if m <=? 0 then S754_zero neg
  else if 0 <=? e then
    binary_normalize prec emax (cond_Zopp neg (m * 10 ^ e)) 0 neg
  else
    let '(q, e2, loc) := SFdiv_core_binary prec emax m 0 (10 ^ (- e)) 0 in
    binary_round_aux prec emax neg q e2 loc.

(** [x <= 0] for a float [x]: false on NaN. *)
Definition float_le_0 (x : spec_float) : bool := SFleb x (S754_zero false).

(** [0 < x] for a float [x]: false on NaN. *)
Definition float_gt_0 (x : spec_float) : bool := SFltb (S754_zero false) x.

Definition is_digit (c : ascii) : bool :=
  let n := N_of_ascii c in (48 <=? n)%N && (n <=? 57)%N.

Definition digit_value (c : ascii) : Z := Z.of_N (N_of_ascii c) - 48.

(** What [float] strips at both ends: the white space of the C locale. *)
Definition is_space (c : ascii) : bool :=
  let n := N_of_ascii c in
  ((9 <=? n)%N && (n <=? 13)%N) || (n =? 32)%N.

Definition lower (c : ascii) : ascii :=
  let n := N_of_ascii c in
  if (65 <=? n)%N && (n <=? 90)%N then ascii_of_N (n + 32) else c.

Fixpoint lower_str (s : string) : string :=
  match s with
  | EmptyString => EmptyString
  | String c rest => String (lower c) (lower_str rest)
  end.

(** Underscores may only stand between two digits; they are dropped
    before anything else is looked at.  [prev] is the character before. *)
Fixpoint drop_underscores (prev : ascii) (s : string) : option string :=
  match s with
  | EmptyString => if Ascii.eqb prev "_" then None else Some EmptyString
  | String c rest =>
      if Ascii.eqb c "_" then
        if is_digit prev then drop_underscores c rest else None
      else if Ascii.eqb prev "_" && negb (is_digit c) then None
      else option_map (String c) (drop_underscores c rest)
  end.

Fixpoint lstrip_space (s : string) : string :=
  match s with
  | String c rest => if is_space c then lstrip_space rest else s
  | EmptyString => EmptyString
  end.

Fixpoint rstrip_space (s : string) : string :=
  match s with
  | EmptyString => EmptyString
  | String c rest =>
      match rstrip_space rest with
      | EmptyString => if is_space c then EmptyString else String c EmptyString
      | kept => String c kept
      end
  end.

(** A run of digits: its value on top of [acc], its length on top of
    [count], and what follows it. *)
Fixpoint span_digits (s : string) (acc count : Z) : Z * Z * string :=
  match s with
  | String c rest =>
      if is_digit c then span_digits rest (10 * acc + digit_value c) (count + 1)
      else (acc, count, s)
  | EmptyString => (acc, count, s)
  end.

Definition split_sign (s : string) : bool * string :=
  match s with
  | String "-" rest => (true, rest)
  | String "+" rest => (false, rest)
  | _ => (false, s)
  end.

(** digits [. digits] [e|E [sign] digits], with a digit before the
    exponent: the mantissa as an integer and the power of ten. *)
Definition parse_decimal (s : string) : option (Z * Z) :=
  let '(int_part, n_int, after_int) := span_digits s 0 0 in
  let '(mantissa, n_frac, after_frac) :=
    match after_int with
    | String "." rest => span_digits rest int_part 0
    | _ => (int_part, 0, after_int)
    end in
  if n_int + n_frac =? 0 then None
  else
    match after_frac with
    | EmptyString => Some (mantissa, - n_frac)
    | String c after_e =>
        if Ascii.eqb (lower c) "e" then
          let '(exp_neg, exp_digits) := split_sign after_e in
          let '(exp_abs, n_exp, after_exp) := span_digits exp_digits 0 0 in
          if (0 <? n_exp) && negb (str_nonempty after_exp)
          then Some (mantissa, cond_Zopp exp_neg exp_abs - n_frac)
          else None
        else None
    end.

(** [float] on text that is ASCII: [None] is a [ValueError]. *)
Definition float_of_ascii (s : string) : option spec_float :=
  match drop_underscores "000" s with
  | None => None
  | Some cleaned =>
      let '(neg, body) := split_sign (rstrip_space (lstrip_space cleaned)) in
      let word := lower_str body in
      if String.eqb word "inf" || String.eqb word "infinity"
      then Some (S754_infinity neg)
      else if String.eqb word "nan" then Some S754_nan
      else
        match parse_decimal body with
        | Some (m, e) => Some (float_of_decimal neg m e)
        | None => None
        end
  end.

(** The first code point of every run of ten decimal digits above ASCII
    (CPython 3.11, Unicode 14.0). *)
Definition decimal_runs : list N :=
  [1632; 1776; 1984; 2406; 2534; 2662; 2790; 2918; 3046; 3174; 3302; 3430;
   3558; 3664; 3792; 3872; 4160; 4240; 6112; 6160; 6470; 6608; 6784; 6800;
   6992; 7088; 7232; 7248; 42528; 43216; 43264; 43472; 43504; 43600; 44016;
   65296; 66720; 68912; 69734; 69872; 69942; 70096; 70384; 70736; 70864;
   71248; 71360; 71472; 71904; 72016; 72784; 73040; 73120; 92768; 92864;
   93008; 120782; 120792; 120802; 120812; 120822; 123200; 123632; 125264;
   130032]%N.

(** The white space above ASCII, as [str.isspace] has it. *)
Definition unicode_spaces : list N :=
  [133; 160; 5760; 8192; 8193; 8194; 8195; 8196; 8197; 8198; 8199; 8200;
   8201; 8202; 8232; 8233; 8239; 8287; 12288]%N.

(** The value of a decimal digit above ASCII. *)
Definition decimal_digit (cp : N) : option N :=
  match find (fun start => (start <=? cp)%N && (cp <? start + 10)%N) decimal_runs with
  | Some start => Some (cp - start)%N
  | None => None
  end.

(** What [float] makes of a str before it parses it: a code point of
    ASCII is kept, white space above ASCII becomes a space, and a decimal
    digit above ASCII the ASCII digit of its value.  Any other code point
    makes the conversion fail. *)
Fixpoint to_ascii_digits_and_spaces (cps : list N) : option string :=
  match cps with
  | [] => Some EmptyString
  | cp :: rest =>
      match
        (if (cp <? 128)%N then Some (ascii_of_N cp)
         else if existsb (N.eqb cp) unicode_spaces then Some " "%char
         else option_map (fun d => ascii_of_N (48 + d)%N) (decimal_digit cp))
      with
      | Some c => option_map (String c) (to_ascii_digits_and_spaces rest)
      | None => None
      end
  end.

(** [float(s)] for a str: [None] is a [ValueError]. *)
Definition float_of_str (s : string) : option spec_float :=
  match to_ascii_digits_and_spaces (code_points s) with
  | Some text => float_of_ascii text
  | None => None
  end.

End py.


(** ** jscom_api/config.py *)

Module config.

Record Config : Type := {
  base_url : string;
  auth_token : option string;
  timeout : spec_float
}.

(** The float [30.0] *)
Definition thirty_seconds : spec_float :=
  Eval cbv in py.float_of_decimal false 30 0.

(** [Config()]: the dataclass defaults *)
Definition default_config : Config := {|
  base_url := "https://api.johnsosoka.com";
  auth_token := None;
  timeout := thirty_seconds
|}.

(** [os.getenv(name)] on the process environment *)
Definition getenv (environ : gmap string string) (name : string) : option string :=
  environ !! name.

Definition load_config (environ : gmap string string)
    (base_url auth_token : option string) (timeout : option spec_float) : Config :=
  let resolved_base_url :=
    match py.or_else (py.or_else base_url (getenv environ "JSCOM_API_BASE_URL"))
                     (Some default_config.(config.base_url)) with
    | Some s => s
    | None => default_config.(config.base_url)
    end in
  let resolved_auth_token :=
    py.or_else auth_token (getenv environ "JSCOM_API_TOKEN") in
  let resolved_timeout :=
    match timeout with
    | Some t => t
    | None =>
        let env_timeout := getenv environ "JSCOM_API_TIMEOUT" in
        if py.truthy_opt env_timeout then
          match py.float_of_str (default "" env_timeout) with
          | Some parsed => parsed
          | None => default_config.(config.timeout)
          end
        else default_config.(config.timeout)
    end in
  {| base_url := resolved_base_url;
     auth_token := resolved_auth_token;
     timeout := resolved_timeout |}.

End config.

(** ** jscom_api/models.py *)

Module models.

Record IpResponse : Type := { ip : py.value }.

Record DnsUpdateResponse : Type := {
  message : py.value;
  change_info : py.value
}.

End models.

(** ** The world outside: network, consoles, session *)

Module http.

Inductive Method : Type := GET | POST.

(** The arguments of one [Session.get] or [Session.post] call. *)
Record Request : Type := {
  method : Method;
  url : string;
  headers : gmap string string;
  json : option py.value;
  timeout : spec_float
}.

(** What the client reads of a [requests.Response].  Parsing belongs to
    [requests], so a response comes with what [response.json()] does on
    it: [inl msg] for the [ValueError] of a body that does not parse,
    [inr v] for the parsed value. *)
Record Response : Type := {
  status_code : Z;
  text : string;
  body_json : string + py.value
}.

Definition Response_json (response : Response) : py.outcome py.value :=
  match body_json response with
  | inl msg => py.Raise (py.JSONDecodeError msg)
  | inr v => py.Ok v
  end.

End http.

Module console.

(** One call on a [rich] console, by what it is given.  [Text s] is a
    literal of the source, markup and all.  [Markup before value after]
    is an f-string with one field: [value] is the text the field
    interpolates, [before] and [after] are the literal around it.
    [TextExc before e] is the f-string made of the literal [before]
    followed by [str(e)].  [Object v] is a value that is no str, printed
    as it is.  The cells of a table are strs; its headers are literals. *)
Inductive Line : Type :=
  | Text (s : string)
  | Markup (before value after : string)
  | TextExc (before : string) (e : py.exn)
  | Object (v : py.value)
  | PrintJson (doc : py.value)
  | PrintTable (columns : list string) (rows : list (list string)).

(** [s] holds the two characters that open a closing tag of the markup. *)
Definition closes (s : string) : bool := py.is_substring "[/" s.

(** [str(e)] may hold them: the text of [typer.Exit] is empty, the one
    of the [ValueError] of the constructor is a literal and a float, the
    one of a [KeyError] is the [repr] of the key. *)
Definition exc_closes (e : py.exn) : bool :=
  match e with
  | py.Exit _ | py.TimeoutValueError _ => false
  | py.KeyError key => closes (py.repr_str key)
  | py.AuthenticationError msg | py.ValidationError msg | py.ServerError msg
  | py.NetworkError msg | py.RequestException msg | py.JSONDecodeError msg
  | py.TypeError msg | py.AttributeError msg | py.NotRenderableError msg
  | py.MarkupError msg => closes msg
  end.

(** The calls a console can refuse.  [rich] parses the markup of every
    str it prints and raises [MarkupError] on a closing tag that closes
    nothing.  The literals of the source are balanced, each of them ends
    or begins next to the interpolated text with a character that is part
    of no tag, and a closing tag starts with the two characters [closes]
    looks for: a call is refused only for what its interpolated text
    brings, and only when that text holds these two characters.  A value
    that is no str and a JSON document are not parsed for markup. *)
Definition refusable (line : Line) : bool :=
  match line with
  | Text _ => false
  | Markup _ value _ => closes value
  | TextExc _ e => exc_closes e
  | Object _ => false
  | PrintJson _ => false
  | PrintTable _ rows => existsb (existsb closes) rows
  end.

(** What the console answers to a call, [rich] being what the library
    does with each line: [Some msg] when [MarkupError(msg)] is raised,
    and nothing is printed then. *)
Definition refusal (rich : Line -> option string) (line : Line) : option string :=
  if refusable line then rich line else None.

Definition rendered (rich : Line -> option string) (line : Line) : bool :=
  match refusal rich line with
  | Some _ => false
  | None => true
  end.

(** What a call returns: nothing, or the refusal of the line. *)
Definition check (rich : Line -> option string) (line : Line) : py.outcome unit :=
  match refusal rich line with
  | Some msg => py.Raise (py.MarkupError msg)
  | None => py.Ok tt
  end.

End console.

Module world.

(** [network] is the far end, which answers a request by what the
    request is: [inl cause] when the transport fails with a
    [RequestException], [inr response] otherwise.  [sent] is every request
    issued so far, oldest first; [stdout] and [stderr] are the two
    consoles, each the list of the calls it rendered; [closed] says that
    the session was closed; [rich] is the markup parser of the consoles:
    [Some msg] on a line it refuses with [MarkupError(msg)]. *)
Record World : Type := {
  network : http.Request -> string + http.Response;
  sent : list http.Request;
  stdout : list console.Line;
  stderr : list console.Line;
  closed : bool;
  rich : console.Line -> option string
}.

Definition M (A : Type) : Type := World -> py.outcome A * World.

Definition ret {A} (a : A) : M A := fun w => (py.Ok a, w).

Definition raise {A} (e : py.exn) : M A := fun w => (py.Raise e, w).

Definition lift {A} (r : py.outcome A) : M A := fun w => (r, w).

Definition bind {A B} (m : M A) (k : A -> M B) : M B :=
  fun w =>
    match m w with
    | (py.Ok a, w') => k a w'
    | (py.Raise e, w') => (py.Raise e, w')
    end.

(** [try: body / except ...: handler]: [handler e] is [None] when no
    clause matches [e]. *)
Definition try_except {A} (body : M A) (handler : py.exn -> option (M A)) : M A :=
  fun w =>
    match body w with
    | (py.Ok a, w') => (py.Ok a, w')
    | (py.Raise e, w') =>
        match handler e with
        | Some h => h w'
        | None => (py.Raise e, w')
        end
    end.

(** [with ...: body], whose exit runs [cleanup] on every path and lets
    the exception through. *)
Definition finally {A} (body : M A) (cleanup : M unit) : M A :=
  fun w =>
    let '(r, w') := body w in
    match cleanup w' with
    | (py.Ok _, w'') => (r, w'')
    | (py.Raise e, w'') => (py.Raise e, w'')
    end.

(** [if c: m] *)
Definition when (c : bool) (m : M unit) : M unit :=
  if c then m else ret tt.

(** [session.request(...)]: the request is issued, and the far end
    answers or the transport fails. *)
Definition send (request : http.Request) : M http.Response :=
  fun w =>
    (match network w request with
     | inl cause => py.Raise (py.RequestException cause)
     | inr response => py.Ok response
     end,
     {| network := network w; sent := sent w ++ [request];
        stdout := stdout w; stderr := stderr w; closed := closed w;
        rich := rich w |}).

(** [console.print(...)]: a line that is refused is not printed. *)
Definition print (line : console.Line) : M unit :=
  fun w =>
    (console.check (rich w) line,
     {| network := network w; sent := sent w;
        stdout := match console.refusal (rich w) line with
                  | Some _ => stdout w
                  | None => stdout w ++ [line]
                  end;
        stderr := stderr w; closed := closed w; rich := rich w |}).

(** [err_console.print(...)] *)
Definition err_print (line : console.Line) : M unit :=
  fun w =>
    (console.check (rich w) line,
     {| network := network w; sent := sent w; stdout := stdout w;
        stderr := match console.refusal (rich w) line with
                  | Some _ => stderr w
                  | None => stderr w ++ [line]
                  end;
        closed := closed w; rich := rich w |}).

(** [session.close()] *)
Definition close_session : M unit :=
  fun w =>
    (py.Ok tt, {| network := network w; sent := sent w;
                  stdout := stdout w; stderr := stderr w; closed := true;
                  rich := rich w |}).

End world.

Declare Scope py_scope.
Delimit Scope py_scope with py.
Notation "x <- m ;; k" := (world.bind m (fun x => k))
  (at level 100, m at next level, right associativity) : py_scope.
Notation "m ;; k" := (world.bind m (fun _ => k))
  (at level 100, right associativity) : py_scope.

(** ** jscom_api/client.py *)

Module client.

Import world.
Local Open Scope py_scope.

(** The attributes [__init__] sets; the session is part of the world. *)
Record JscomApiClient : Type := {
  base_url : string;
  auth_token : option string;
  timeout : spec_float
}.

(** [JscomApiClient(base_url, auth_token, timeout)] *)
Definition __init__ (base_url : string) (auth_token : option string)
    (timeout : spec_float) : py.outcome JscomApiClient :=
  if py.float_le_0 timeout then py.Raise (py.TimeoutValueError timeout)
  else py.Ok {| base_url := py.rstrip "/" base_url;
                auth_token := auth_token;
                timeout := timeout |}.

Definition _parse_error_response (self : JscomApiClient)
    (response : http.Response) : py.outcome string :=
  let body : py.outcome string :=
    py.obind (http.Response_json response) (fun error_data =>
    py.obind (py.contains "error" error_data) (fun has_error =>
    if has_error then
      py.obind (py.contains "message" error_data) (fun has_message =>
      if has_message then
        py.obind (py.getitem error_data "error") (fun error =>
        py.obind (py.getitem error_data "message") (fun message =>
        py.Ok (py.str error +:+ ": " +:+ py.str message)))
      else
        py.obind (py.getitem error_data "error") (fun error =>
        py.Ok (py.str error)))
    else py.Ok (py.str error_data))) in
  match body with
  | py.Raise e =>
      if py.is_ValueError e then
        py.Ok (if py.str_nonempty (http.text response)
               then http.text response
               else "HTTP " +:+ py.str_int (http.status_code response))
      else py.Raise e
  | py.Ok s => py.Ok s
  end.

(** [except RequestException as e: raise NetworkError(...)] *)
Definition on_RequestException {A} (e : py.exn) : option (M A) :=
  match e with
  | py.RequestException cause =>
      Some (raise (py.NetworkError ("Failed to connect to API: " +:+ cause)))
  | _ => None
  end.

(** [except ValueError as e: raise NetworkError(...)], around
    [response.json()], whose only [ValueError] is the decoding error. *)
Definition on_ValueError {A} (e : py.exn) : option (M A) :=
  match e with
  | py.JSONDecodeError msg =>
      Some (raise (py.NetworkError ("Invalid JSON response: " +:+ msg)))
  | _ => None
  end.

(** [except KeyError as e: raise ValidationError(...)]; [str(e)] is the
    [repr] of the key. *)
Definition on_KeyError {A} (e : py.exn) : option (M A) :=
  match e with
  | py.KeyError key =>
      Some (raise (py.ValidationError
                     ("API response missing required field: " +:+ py.repr_str key)))
  | _ => None
  end.

Definition get_my_ip (self : JscomApiClient) : M models.IpResponse :=
  let url := self.(base_url) +:+ "/v1/ip/my" in
  response <- try_except
                (send {| http.method := http.GET; http.url := url;
                         http.headers := ∅; http.json := None;
                         http.timeout := self.(timeout) |})
                on_RequestException ;;
  when (500 <=? http.status_code response)
    (error_data <- lift (_parse_error_response self response) ;;
     raise (py.ServerError ("Server error: " +:+ error_data))) ;;
  when (negb (http.status_code response =? 200))
    (error_data <- lift (_parse_error_response self response) ;;
     raise (py.NetworkError
              ("Unexpected status " +:+ py.str_int (http.status_code response)
                 +:+ ": " +:+ error_data))) ;;
  data <- try_except (lift (http.Response_json response)) on_ValueError ;;
  try_except
    (ip <- lift (py.getitem data "ip") ;;
     ret {| models.ip := ip |})
    on_KeyError.

(** The headers [update_dns] builds. *)
Definition update_dns_headers (self : JscomApiClient) : gmap string string :=
  let headers : gmap string string := {[ "Content-Type" := "application/json" ]} in
  if py.truthy_opt self.(auth_token)
  then <[ "x-auth-token" := default "" self.(auth_token) ]> headers
  else headers.

Definition update_dns (self : JscomApiClient) (domain : string) (ip : py.value)
    : M models.DnsUpdateResponse :=
  let url := self.(base_url) +:+ "/v1/dns/update" in
  let headers := update_dns_headers self in
  let payload := py.JObj [("domain", py.JStr domain); ("ip", ip)] in
  response <- try_except
                (send {| http.method := http.POST; http.url := url;
                         http.headers := headers; http.json := Some payload;
                         http.timeout := self.(timeout) |})
                on_RequestException ;;
  when (http.status_code response =? 403)
    (error_data <- lift (_parse_error_response self response) ;;
     raise (py.AuthenticationError ("Authentication failed: " +:+ error_data))) ;;
  when (http.status_code response =? 400)
    (error_data <- lift (_parse_error_response self response) ;;
     raise (py.ValidationError ("Validation error: " +:+ error_data))) ;;
  when (500 <=? http.status_code response)
    (error_data <- lift (_parse_error_response self response) ;;
     raise (py.ServerError ("Server error: " +:+ error_data))) ;;
  when (negb (http.status_code response =? 200))
    (error_data <- lift (_parse_error_response self response) ;;
     raise (py.NetworkError
              ("Unexpected status " +:+ py.str_int (http.status_code response)
                 +:+ ": " +:+ error_data))) ;;
  data <- try_except (lift (http.Response_json response)) on_ValueError ;;
  try_except
    (message <- lift (py.getitem data "message") ;;
     change_info <- lift (py.getitem data "change_info") ;;
     ret {| models.message := message; models.change_info := change_info |})
    on_KeyError.

Definition close (self : JscomApiClient) : M unit := close_session.

(** [with JscomApiClient(...) as client: body] *)
Definition with_client {A} (base_url : string) (auth_token : option string)
    (timeout : spec_float) (body : JscomApiClient -> M A) : M A :=
  self <- lift (__init__ base_url auth_token timeout) ;;
  finally (body self) (close self).

End client.

(** ** jscom_api/cli/main.py *)

Module cli.

Import world.
Local Open Scope py_scope.

(** The global options [--base-url] and [--token]. *)
Record State : Type := {
  base_url : option string;
  token : option string
}.

(** The line feed of ["\n"] *)
Definition nl : string := String (ascii_of_N 10) "".

(** What [Table.add_row] makes of a cell: a str is kept, [None] is an
    empty cell, anything else is refused. *)
Definition table_cell (v : py.value) : py.outcome string :=
  match v with
  | py.JStr s => py.Ok s
  | py.JNull => py.Ok ""
  | other =>
      py.Raise (py.NotRenderableError
                  ("unable to render " +:+ py.type_name other
                     +:+ "; a string or other renderable object is required"))
  end.

(** What [console.print(result.ip)] is given: a str, parsed for markup,
    or a value that is no str. *)
Definition quiet_line (ip : py.value) : console.Line :=
  match ip with
  | py.JStr s => console.Markup "" s ""
  | other => console.Object other
  end.

(** The line of an [except] clause: [label], then [str(e)]. *)
Definition error_line (label msg : string) : console.Line :=
  console.Markup ("[red]" +:+ label +:+ ":[/red] ") msg "".

(** The [except] clauses of the [ip] command, in their order. *)
Definition ip_handlers (e : py.exn) : option (M unit) :=
  match e with
  | py.NetworkError msg =>
      Some (err_print (error_line "Network error" msg) ;;
            raise (py.Exit 1))
  | py.ServerError msg =>
      Some (err_print (error_line "Server error" msg) ;;
            raise (py.Exit 1))
  | other =>
      if py.is_JscomApiError other then
        Some (err_print (console.TextExc "[red]API error:[/red] " other) ;;
              raise (py.Exit 1))
      else
        Some (err_print (console.TextExc "[red]Unexpected error:[/red] " other) ;;
              raise (py.Exit 1))
  end.

(** The [ip] command *)
Definition ip (state : State) (environ : gmap string string)
    (json_output quiet : bool) : M unit :=
  try_except
    (let config :=
       config.load_config environ state.(base_url) state.(token) None in
     client.with_client config.(config.base_url) config.(config.auth_token)
       config.(config.timeout) (fun client =>
       result <- client.get_my_ip client ;;
       if quiet then print (quiet_line result.(models.ip))
       else if json_output then
         print (console.PrintJson (py.JObj [("ip", result.(models.ip))]))
       else
         cell <- lift (table_cell result.(models.ip)) ;;
         print (console.PrintTable ["Your Public IP"] [[cell]])))
    ip_handlers.

(** The lines of [dns update] that interpolate a value. *)
Definition current_ip_line (ip : py.value) : console.Line :=
  console.Markup "[cyan]Current IP:[/cyan] " (py.str ip) "".

Definition updating_line (domain : string) : console.Line :=
  console.Markup "[cyan]Updating DNS record for " domain "...[/cyan]".

Definition success_line (message : py.value) : console.Line :=
  console.Markup "[green]Success![/green] " (py.str message) "".

Definition change_table (items : list (string * py.value)) : console.Line :=
  console.PrintTable ["Key"; "Value"]
    (map (fun kv => [fst kv; py.str (snd kv)]) items).

Definition authentication_line (msg : string) : console.Line :=
  console.Markup "[red]Authentication failed:[/red] " msg
    (nl +:+ "[yellow]Hint:[/yellow] Set JSCOM_API_TOKEN env var or use --token option").

(** The [try] block of [dns update] *)
Definition dns_update_try (state : State) (environ : gmap string string)
    (domain : string) (ip_address : option string) (use_current_ip : bool)
    : M unit :=
  let config :=
    config.load_config environ state.(base_url) state.(token) None in
  client.with_client config.(config.base_url) config.(config.auth_token)
    config.(config.timeout) (fun client =>
    let target_ip :=
      match ip_address with
      | Some s => py.JStr s
      | None => py.JNull
      end in
    target_ip <-
      (if use_current_ip then
         print (console.Text "[cyan]Fetching current public IP...[/cyan]") ;;
         ip_result <- client.get_my_ip client ;;
         print (current_ip_line ip_result.(models.ip)) ;;
         ret ip_result.(models.ip)
       else ret target_ip) ;;
    when (negb (py.truthy target_ip))
      (err_print (console.Text "[red]Error:[/red] No IP address available") ;;
       raise (py.Exit 1)) ;;
    print (updating_line domain) ;;
    result <- client.update_dns client domain target_ip ;;
    print (success_line result.(models.message)) ;;
    when (py.truthy result.(models.change_info))
      (print (console.Text (nl +:+ "[cyan]Change Info:[/cyan]")) ;;
       items <- lift (py.items_of result.(models.change_info)) ;;
       print (change_table items))).

(** The [except] clauses of [dns update], in their order.  The exception
    a clause raises while it prints leaves the command as it is. *)
Definition dns_update_handlers (e : py.exn) : option (M unit) :=
  match e with
  | py.AuthenticationError msg =>
      Some (err_print (authentication_line msg) ;;
            raise (py.Exit 2))
  | py.ValidationError msg =>
      Some (err_print (error_line "Validation error" msg) ;;
            raise (py.Exit 1))
  | py.NetworkError msg =>
      Some (err_print (error_line "Network error" msg) ;;
            raise (py.Exit 1))
  | py.ServerError msg =>
      Some (err_print (error_line "Server error" msg) ;;
            raise (py.Exit 1))
  | other =>
      if py.is_JscomApiError other then
        Some (err_print (console.TextExc "[red]API error:[/red] " other) ;;
              raise (py.Exit 1))
      else
        Some (err_print (console.TextExc "[red]Unexpected error:[/red] " other) ;;
              raise (py.Exit 1))
  end.

Definition mutually_exclusive_message : string :=
  "[red]Error:[/red] --ip and --use-current-ip are mutually exclusive. Provide one or the other.".

Definition one_required_message : string :=
  "[red]Error:[/red] Either --ip or --use-current-ip must be provided.".

(** The [dns update] command *)
Definition dns_update (state : State) (environ : gmap string string)
    (domain : string) (ip_address : option string) (use_current_ip : bool)
    : M unit :=
  when (py.truthy_opt ip_address && use_current_ip)
    (err_print (console.Text mutually_exclusive_message) ;;
     raise (py.Exit 1)) ;;
  when (negb (py.truthy_opt ip_address) && negb use_current_ip)
    (err_print (console.Text one_required_message) ;;
     raise (py.Exit 1)) ;;
  try_except (dns_update_try state environ domain ip_address use_current_ip)
    dns_update_handlers.

(** The exit code of the process for what a command did: [0] when it
    returns, the code of [typer.Exit], and [1] for an exception that
    reaches the interpreter. *)
Definition exit_code (r : py.outcome unit) : Z :=
  match r with
  | py.Ok _ => 0
  | py.Raise (py.Exit code) => code
  | py.Raise _ => 1
  end.

(** [__version__] of [jscom_api/__init__.py] *)
Definition __version__ : string := "0.1.0".

(** The [version] command: [typer.Exit()] has code 0. *)
Definition version : M unit :=
  print (console.Text ("jscom-api version " +:+ __version__)) ;;
  raise (py.Exit 0).

End cli.

(** ** lambdas/src: the two handlers behind the API *)

Module aws.

(** The dict a handler returns to the gateway.  [body] is the document
    [json.dumps] serialises, held as the value; [headers] is absent when
    the dict has no such key. *)
Record Response : Type := {
  statusCode : Z;
  headers : option (gmap string string);
  body : py.value
}.

(** One [change_resource_record_sets] call: its two keyword arguments. *)
Record ChangeCall : Type := {
  HostedZoneId : string;
  ChangeBatch : py.value
}.

End aws.

Module my_ip_lambda.

Definition lambda_handler (event : py.value) : py.outcome aws.Response :=
  py.obind (py.dict_get event "requestContext" (py.JObj [])) (fun request_context =>
  py.obind (py.dict_get request_context "http" (py.JObj [])) (fun http =>
  py.obind (py.dict_get http "sourceIp" (py.JStr "IP not found")) (fun ip_address =>
  py.Ok {| aws.statusCode := 200;
           aws.headers := Some {[ "Content-Type" := "application/json" ]};
           aws.body := py.JObj [("ip", ip_address)] |}))).

End my_ip_lambda.

Module update_dns_lambda.

(** A response with no headers. *)
Definition respond (status : Z) (document : py.value) : aws.Response :=
  {| aws.statusCode := status; aws.headers := None; aws.body := document |}.

(** [json.loads(body)] under [except Exception]: [None] is any failure.
    Only a str is parsed, by [loads], which stands for the parser of the
    [json] module; any other value is a [TypeError]. *)
Definition json_loads (loads : string -> option py.value) (body : py.value)
    : option py.value :=
  match body with
  | py.JStr s => loads s
  | _ => None
  end.

(** The [ChangeBatch] of the upsert. *)
Definition change_batch (domain new_ip : py.value) : py.value :=
  py.JObj
    [("Comment", py.JStr "Auto-updated by update_dns_lambda");
     ("Changes",
      py.JList
        [py.JObj
           [("Action", py.JStr "UPSERT");
            ("ResourceRecordSet",
             py.JObj
               [("Name", domain);
                ("Type", py.JStr "A");
                ("TTL", py.JInt 300);
                ("ResourceRecords", py.JList [py.JObj [("Value", new_ip)]])])]])].

(** The handler, with the calls it made on Route 53.  [environ] is the
    environment of the function; [route53] is the service: [inl msg] when
    the call raises an exception whose [str] is [msg], [inr response]
    when it returns, the response as [default=str] serialises it.  An
    exception that leaves the handler is raised before any call. *)
Definition lambda_handler (loads : string -> option py.value)
    (environ : gmap string string)
    (route53 : aws.ChangeCall -> string + py.value) (event : py.value)
    : py.outcome (aws.Response * list aws.ChangeCall) :=
  let expected_token := environ !! "AUTH_TOKEN" in
  let hosted_zone_id := environ !! "HOSTED_ZONE_ID" in
  py.obind (py.dict_get event "headers" (py.JObj [])) (fun headers =>
  py.obind (py.dict_get headers "x-auth-token" py.JNull) (fun auth_token =>
  if py.differs auth_token expected_token then
    py.Ok (respond 403 (py.JObj [("error", py.JStr "Unauthorized")]), [])
  else
    py.obind (py.dict_get event "body" py.JNull) (fun body =>
    match (if py.truthy body then json_loads loads body
           else Some (py.JObj [])) with
    | None =>
        py.Ok (respond 400 (py.JObj [("error", py.JStr "Invalid JSON payload")]),
               [])
    | Some data =>
        py.obind (py.dict_get data "domain" py.JNull) (fun domain =>
        py.obind (py.dict_get data "ip" py.JNull) (fun new_ip =>
        if negb (py.truthy domain) || negb (py.truthy new_ip) then
          py.Ok (respond 400
                   (py.JObj [("error",
                              py.JStr "Missing 'domain' or 'ip' parameter")]),
                 [])
        else if negb (py.truthy_opt hosted_zone_id) then
          py.Ok (respond 500
                   (py.JObj [("error", py.JStr "Hosted zone ID not configured")]),
                 [])
        else
          let call := {| aws.HostedZoneId := default "" hosted_zone_id;
                         aws.ChangeBatch := change_batch domain new_ip |} in
          match route53 call with
          | inl msg =>
              py.Ok (respond 500
                       (py.JObj [("error", py.JStr "Failed to update DNS record");
                                 ("message", py.JStr msg)]),
                     [call])
          | inr response =>
              py.Ok (respond 200
                       (py.JObj [("message", py.JStr "DNS record updated");
                                 ("change_info", response)]),
                     [call])
          end))
    end))).

End update_dns_lambda.

(** ** The resolver of the specification *)

Module resolver.

(** [resolve]: [load_config] followed by the constructor of the client,
    as both commands compose them; the result holds the effective
    base URL, token and timeout. *)
Definition resolve (environ : gmap string string)
    (base_url auth_token : option string) (timeout : option spec_float)
    : py.outcome client.JscomApiClient :=
  let config := config.load_config environ base_url auth_token timeout in
  client.__init__ config.(config.base_url) config.(config.auth_token)
    config.(config.timeout).

(** The first of [explicit] and [env] that is a non-empty string. *)
Definition first_nonempty (explicit env : option string) : option string :=
  match explicit with
  | Some (String c s) => Some (String c s)
  | _ =>
      match env with
      | Some (String c s) => Some (String c s)
      | _ => None
      end
  end.

(** The base URL by precedence: a non-empty explicit argument, else a
    non-empty environment variable, else the literal. *)
Definition base_url_reference (environ : gmap string string)
    (explicit : option string) : string :=
  default "https://api.johnsosoka.com"
    (first_nonempty explicit (environ !! "JSCOM_API_BASE_URL")).

(** The token by precedence: a non-empty explicit argument, else the
    environment variable as it is set (even empty), else absent. *)
Definition auth_token_reference (environ : gmap string string)
    (explicit : option string) : option string :=
  match explicit with
  | Some (String c s) => Some (String c s)
  | _ => environ !! "JSCOM_API_TOKEN"
  end.

(** The timeout by precedence: the explicit argument, else the environment
    variable when [float] parses it, else 30 seconds. *)
Definition timeout_reference (environ : gmap string string)
    (explicit : option spec_float) : spec_float :=
  match explicit with
  | Some t => t
  | None =>
      match environ !! "JSCOM_API_TIMEOUT" with
      | Some s =>
          match py.float_of_str s with
          | Some parsed => parsed
          | None => config.thirty_seconds
          end
      | None => config.thirty_seconds
      end
  end.

(** [n] slashes *)
Fixpoint slashes (n : nat) : string :=
  match n with
  | O => ""
  | S k => String "/" (slashes k)
  end.

End resolver.

(** ** The contract of the two remote operations *)

Module contract.

(** The request of [get_my_ip]: no body, no header. *)
Definition get_request (self : client.JscomApiClient) : http.Request :=
  {| http.method := http.GET;
     http.url := client.base_url self +:+ "/v1/ip/my";
     http.headers := ∅;
     http.json := None;
     http.timeout := client.timeout self |}.

(** The request of [update_dns]. *)
Definition post_request (self : client.JscomApiClient) (domain : string)
    (ip : py.value) : http.Request :=
  {| http.method := http.POST;
     http.url := client.base_url self +:+ "/v1/dns/update";
     http.headers := client.update_dns_headers self;
     http.json := Some (py.JObj [("domain", py.JStr domain); ("ip", ip)]);
     http.timeout := client.timeout self |}.

(** An error whose detail is built from the parsed error body; what the
    parser raises, if it does, takes its place. *)
Definition error_from_body {A} (self : client.JscomApiClient)
    (response : http.Response) (error : string -> py.exn) : py.outcome A :=
  match client._parse_error_response self response with
  | py.Ok error_data => py.Raise (error error_data)
  | py.Raise e => py.Raise e
  end.

(** A [KeyError] becomes the validation error that names the field. *)
Definition missing_field {A} (r : py.outcome A) : py.outcome A :=
  match r with
  | py.Raise (py.KeyError key) =>
      py.Raise (py.ValidationError
                  ("API response missing required field: " +:+ py.repr_str key))
  | other => other
  end.

(** The body-shape checks of [get_my_ip] on a status 200. *)
Definition get_my_ip_body (response : http.Response)
    : py.outcome models.IpResponse :=
  match http.body_json response with
  | inl msg => py.Raise (py.NetworkError ("Invalid JSON response: " +:+ msg))
  | inr data =>
      missing_field
        (py.obind (py.getitem data "ip") (fun ip => py.Ok {| models.ip := ip |}))
  end.

(** The body-shape checks of [update_dns] on a status 200. *)
Definition update_dns_body (response : http.Response)
    : py.outcome models.DnsUpdateResponse :=
  match http.body_json response with
  | inl msg => py.Raise (py.NetworkError ("Invalid JSON response: " +:+ msg))
  | inr data =>
      missing_field
        (py.obind (py.getitem data "message") (fun message =>
         py.obind (py.getitem data "change_info") (fun change_info =>
         py.Ok {| models.message := message;
                  models.change_info := change_info |})))
  end.

(** The ladder of [get_my_ip] on a response, as ordered guards. *)
Definition get_my_ip_response (self : client.JscomApiClient)
    (response : http.Response) : py.outcome models.IpResponse :=
  let status := http.status_code response in
  if 500 <=? status then
    error_from_body self response (fun d => py.ServerError ("Server error: " +:+ d))
  else if negb (status =? 200) then
    error_from_body self response
      (fun d => py.NetworkError
                  ("Unexpected status " +:+ py.str_int status +:+ ": " +:+ d))
  else get_my_ip_body response.

(** The ladder of [update_dns] on a response, as ordered guards. *)
Definition update_dns_response (self : client.JscomApiClient)
    (response : http.Response) : py.outcome models.DnsUpdateResponse :=
  let status := http.status_code response in
  if status =? 403 then
    error_from_body self response
      (fun d => py.AuthenticationError ("Authentication failed: " +:+ d))
  else if status =? 400 then
    error_from_body self response
      (fun d => py.ValidationError ("Validation error: " +:+ d))
  else if 500 <=? status then
    error_from_body self response (fun d => py.ServerError ("Server error: " +:+ d))
  else if negb (status =? 200) then
    error_from_body self response
      (fun d => py.NetworkError
                  ("Unexpected status " +:+ py.str_int status +:+ ": " +:+ d))
  else update_dns_body response.

(** Transport failure first, then the ladder. *)
Definition on_answer {A} (ladder : http.Response -> py.outcome A)
    (answer : string + http.Response) : py.outcome A :=
  match answer with
  | inl cause => py.Raise (py.NetworkError ("Failed to connect to API: " +:+ cause))
  | inr response => ladder response
  end.

(** The four typed errors of the client. *)
Definition typed_error {A} (r : py.outcome A) : bool :=
  match r with
  | py.Ok _ => false
  | py.Raise e => py.is_JscomApiError e
  end.

(** A body that does not parse, or that parses to an object. *)
Definition object_or_unparseable (response : http.Response) : bool :=
  match http.body_json response with
  | inl _ => true
  | inr (py.JObj _) => true
  | inr _ => false
  end.

End contract.

(** ** The contract of the [dns update] command *)

Module command.

(** The requests of a [dns update] that passed its argument check, for
    the client [c], the far end [network] and the consoles [rich]: with
    [--use-current-ip] the GET, then the POST with the fetched IP when the
    GET gave a usable one and the two lines printed in between were
    rendered; with [--ip] the POST alone, when the line printed before it
    was rendered. *)
Definition requests (c : client.JscomApiClient) (domain : string)
    (ip_address : option string) (use_current_ip : bool)
    (network : http.Request -> string + http.Response)
    (rich : console.Line -> option string) : list http.Request :=
  if use_current_ip then
    contract.get_request c ::
      match contract.on_answer (contract.get_my_ip_response c)
              (network (contract.get_request c)) with
      | py.Ok result =>
          if console.rendered rich (cli.current_ip_line (models.ip result))
             && py.truthy (models.ip result)
             && console.rendered rich (cli.updating_line domain)
          then [contract.post_request c domain (models.ip result)]
          else []
      | py.Raise _ => []
      end
  else if console.rendered rich (cli.updating_line domain)
       then [contract.post_request c domain (py.JStr (default "" ip_address))]
       else [].

(** The command stopped at its argument check: exit code 1, the one
    message on the error console, nothing else printed and no request
    issued. *)
Definition rejected (run : py.outcome unit * world.World) (w : world.World)
    (message : string) : Prop :=
  fst run = py.Raise (py.Exit 1)
  /\ cli.exit_code (fst run) = 1
  /\ world.stderr (snd run) = world.stderr w ++ [console.Text message]
  /\ world.stdout (snd run) = world.stdout w
  /\ world.sent (snd run) = world.sent w.

End command.

(** ** Shapes of bodies and answers *)

Module shape.

(** The bodies on which the error-body parser returns: one that does not
    parse, an object, a list that does not hold the str [error], a str
    that does not contain it. *)
Definition parser_returns (response : http.Response) : bool :=
  match http.body_json response with
  | inl _ => true
  | inr (py.JObj _) => true
  | inr (py.JList l) =>
      negb (existsb (fun x => match x with
                              | py.JStr s => String.eqb s "error"
                              | _ => false
                              end) l)
  | inr (py.JStr s) => negb (py.is_substring "error" s)
  | inr _ => false
  end.

(** An answer that is a transport failure, or a response whose body does
    not parse or parses to an object. *)
Definition well_formed (answer : string + http.Response) : bool :=
  match answer with
  | inl _ => true
  | inr response => contract.object_or_unparseable response
  end.

(** The class and the prefix of the error [update_dns] raises on a status
    that is not 200. *)
Definition update_dns_error (status : Z) (error_data : string) : py.exn :=
  if status =? 403 then
    py.AuthenticationError ("Authentication failed: " +:+ error_data)
  else if status =? 400 then
    py.ValidationError ("Validation error: " +:+ error_data)
  else if 500 <=? status then
    py.ServerError ("Server error: " +:+ error_data)
  else
    py.NetworkError ("Unexpected status " +:+ py.str_int status +:+ ": "
                       +:+ error_data).

(** The class and the prefix of the error [get_my_ip] raises on a status
    that is not 200. *)
Definition get_my_ip_error (status : Z) (error_data : string) : py.exn :=
  if 500 <=? status then
    py.ServerError ("Server error: " +:+ error_data)
  else
    py.NetworkError ("Unexpected status " +:+ py.str_int status +:+ ": "
                       +:+ error_data).

(** A response of the client that carries what a handler returned: the
    same status, and a body that parses to the handler's document. *)
Definition carries (response : http.Response) (returned : aws.Response) : Prop :=
  http.status_code response = aws.statusCode returned
  /\ http.body_json response = inr (aws.body returned).

End shape.

(** ** The course of a [dns update] that passed its argument check *)

Module flow.

(** The IP the command goes on with: the fetched one with
    [--use-current-ip], once it is printed, the given one otherwise. *)
Definition target (c : client.JscomApiClient) (ip_address : option string)
    (use_current_ip : bool)
    (network : http.Request -> string + http.Response)
    (rich : console.Line -> option string) : py.outcome py.value :=
  if use_current_ip then
    py.obind (contract.on_answer (contract.get_my_ip_response c)
                (network (contract.get_request c)))
             (fun ip_result =>
    py.obind (console.check rich (cli.current_ip_line (models.ip ip_result)))
             (fun _ => py.Ok (models.ip ip_result)))
  else py.Ok (py.JStr (default "" ip_address)).

(** What the body of the [with] block ends in. *)
Definition outcome (c : client.JscomApiClient) (domain : string)
    (ip_address : option string) (use_current_ip : bool)
    (network : http.Request -> string + http.Response)
    (rich : console.Line -> option string) : py.outcome unit :=
  py.obind (target c ip_address use_current_ip network rich) (fun target_ip =>
  if py.truthy target_ip then
    py.obind (console.check rich (cli.updating_line domain)) (fun _ =>
    py.obind (contract.on_answer (contract.update_dns_response c)
                (network (contract.post_request c domain target_ip)))
             (fun result =>
    py.obind (console.check rich (cli.success_line (models.message result)))
             (fun _ =>
    if py.truthy (models.change_info result) then
      py.obind (py.items_of (models.change_info result)) (fun items =>
      console.check rich (cli.change_table items))
    else py.Ok tt)))
  else py.Raise (py.Exit 1)).

(** The line the [except] clause of [dns update] prints for [e], and the
    code it exits with. *)
Definition clause_line (e : py.exn) : console.Line :=
  match e with
  | py.AuthenticationError msg => cli.authentication_line msg
  | py.ValidationError msg => cli.error_line "Validation error" msg
  | py.NetworkError msg => cli.error_line "Network error" msg
  | py.ServerError msg => cli.error_line "Server error" msg
  | other => console.TextExc "[red]Unexpected error:[/red] " other
  end.

Definition clause_code (e : py.exn) : Z :=
  match e with
  | py.AuthenticationError _ => 2
  | _ => 1
  end.

(** The line the [except] clause of [ip] prints for [e]. *)
Definition ip_clause_line (e : py.exn) : console.Line :=
  match e with
  | py.NetworkError msg => cli.error_line "Network error" msg
  | py.ServerError msg => cli.error_line "Server error" msg
  | py.AuthenticationError _ | py.ValidationError _ =>
      console.TextExc "[red]API error:[/red] " e
  | other => console.TextExc "[red]Unexpected error:[/red] " other
  end.

(** What a clause that prints [line] and exits with [code] does. *)
Definition clause (line : console.Line) (code : Z) (w : world.World)
    : py.outcome unit * world.World :=
  (match console.refusal (world.rich w) line with
   | Some refused => py.Raise (py.MarkupError refused)
   | None => py.Raise (py.Exit code)
   end,
   {| world.network := world.network w; world.sent := world.sent w;
      world.stdout := world.stdout w;
      world.stderr := match console.refusal (world.rich w) line with
                      | Some _ => world.stderr w
                      | None => world.stderr w ++ [line]
                      end;
      world.closed := world.closed w;
      world.rich := world.rich w |}).

End flow.

(** ** The fixtures of the scenarios *)

Module scenario.

(** The float [10.0] *)
Definition ten_seconds : spec_float :=
  Eval cbv in py.float_of_decimal false 10 0.

(** The client of the test suite *)
Definition test_client : client.JscomApiClient :=
  {| client.base_url := "https://api.test.com";
     client.auth_token := Some "test-token-12345";
     client.timeout := ten_seconds |}.

(** A far end that answers every request the same way, and consoles
    that take every line. *)
Definition answering (answer : string + http.Response) : world.World :=
  {| world.network := fun _ => answer;
     world.sent := []; world.stdout := []; world.stderr := [];
     world.closed := false; world.rich := fun _ => None |}.

Definition json_response (status : Z) (text : string) (body : py.value)
    : string + http.Response :=
  inr {| http.status_code := status; http.text := text;
         http.body_json := inr body |}.

Definition text_response (status : Z) (text : string) : string + http.Response :=
  inr {| http.status_code := status; http.text := text;
         http.body_json := inl "Expecting value: line 1 column 1 (char 0)" |}.

Definition no_options : cli.State :=
  {| cli.base_url := Some "https://api.test.com"; cli.token := None |}.

(** Where [needle] first stands in [s], counted from [from]. *)
Fixpoint index_of (needle s : string) (from : Z) : option Z :=
  if py.is_prefix needle s then Some from
  else match s with
       | EmptyString => None
       | String _ rest => index_of needle rest (from + 1)
       end.

(** What [rich] says of a closing tag that closes nothing. *)
Definition unmatched (tag : string) (position : Z) : string :=
  "closing tag '" +:+ tag +:+ "' at position " +:+ py.str_int position
    +:+ " doesn't match any open tag".

(** Consoles, for scenarios in whose lines no tag named [x] is opened:
    a line whose interpolated text holds the closing tag [[/x]] is
    refused where the tag stands, and every other line is taken. *)
Definition rich_without_x (line : console.Line) : option string :=
  match line with
  | console.Markup before value _ =>
      option_map (unmatched "[/x]")
        (index_of "[/x]" value (Z.of_nat (String.length before)))
  | console.TextExc before (py.MarkupError msg) =>
      option_map (unmatched "[/x]")
        (index_of "[/x]" msg (Z.of_nat (String.length before)))
  | _ => None
  end.

(** A far end that answers every request the same way, in front of
    these consoles. *)
Definition answering_without_x (answer : string + http.Response) : world.World :=
  {| world.network := fun _ => answer;
     world.sent := []; world.stdout := []; world.stderr := [];
     world.closed := false; world.rich := rich_without_x |}.

End scenario.

(** * Properties *)

(** ** Strings *)

Lemma append_cons (c : ascii) (s t : string) :
  String c s +:+ t = String c (s +:+ t).
Proof. reflexivity. Qed.

Lemma append_nil_l (t : string) : "" +:+ t = t.
Proof. reflexivity. Qed.

(** What [rstrip] returns ends in none of the stripped characters. *)
Lemma rstrip_ends_with (c : ascii) (chars s : string) :
  py.char_in c chars = true ->
  py.ends_with_char c (py.rstrip chars s) = false.
Proof.
  intros Hc. induction s as [|a rest IH]; simpl; [reflexivity|].
  destruct (py.rstrip chars rest) as [|k kept] eqn:Hrest.
  - destruct (py.char_in a chars) eqn:Ha; simpl; [reflexivity|].
    destruct (Ascii.eqb_spec c a) as [->|Hne]; [congruence | reflexivity].
  - exact IH.
Qed.

(** What [rstrip] removes: slashes at the end, and nothing else. *)
Lemma rstrip_slash_suffix (s : string) :
  exists n, s = py.rstrip "/" s +:+ resolver.slashes n.
Proof.
  induction s as [|a rest [n IH]]; simpl.
  - exists O. reflexivity.
  - destruct (py.rstrip "/" rest) as [|k kept] eqn:Hrest.
    + rewrite append_nil_l in IH.
      destruct (Ascii.eqb_spec a "/") as [->|Hne]; simpl.
      * exists (S n). rewrite append_nil_l. simpl. now rewrite <- IH.
      * exists n. rewrite append_cons, append_nil_l. now rewrite <- IH.
    + exists n. rewrite append_cons. now rewrite <- IH.
Qed.

(** One or many trailing slashes collapse alike. *)
Lemma rstrip_slashes (s : string) (n : nat) :
  py.rstrip "/" (s +:+ resolver.slashes n) = py.rstrip "/" s.
Proof.
  assert (Hs : forall k, py.rstrip "/" (resolver.slashes k) = "").
  { induction k as [|k IH]; simpl; [reflexivity | now rewrite IH]. }
  induction s as [|a rest IH].
  - rewrite append_nil_l. apply Hs.
  - rewrite append_cons. simpl. now rewrite IH.
Qed.

Lemma rstrip_fixed (s : string) :
  py.ends_with_char "/" s = false -> py.rstrip "/" s = s.
Proof.
  induction s as [|a rest IH]; [reflexivity|].
  destruct rest as [|b rest'].
  - cbn [py.rstrip py.ends_with_char py.char_in]. intros H.
    rewrite Ascii.eqb_sym, H. reflexivity.
  - intros H. cbn [py.ends_with_char] in H.
    change (py.rstrip "/" (String a (String b rest'))) with
      (match py.rstrip "/" (String b rest') with
       | "" => if py.char_in a "/" then "" else String a ""
       | kept => String a kept
       end).
    rewrite (IH H). reflexivity.
Qed.

(** Stripping is idempotent. *)
Lemma rstrip_idempotent (s : string) :
  py.rstrip "/" (py.rstrip "/" s) = py.rstrip "/" s.
Proof. apply rstrip_fixed, rstrip_ends_with. reflexivity. Qed.

(** ** Configuration *)

Section Resolve.

Variable environ : gmap string string.
Variables base_url auth_token : option string.
Variable timeout : option spec_float.

Lemma load_config_base_url :
  config.base_url (config.load_config environ base_url auth_token timeout)
  = resolver.base_url_reference environ base_url.
Proof.
  unfold config.load_config, resolver.base_url_reference, config.getenv.
  cbn [config.base_url].
  destruct base_url as [[|c s]|];
    destruct (environ !! "JSCOM_API_BASE_URL") as [[|d u]|]; reflexivity.
Qed.

Lemma load_config_auth_token :
  config.auth_token (config.load_config environ base_url auth_token timeout)
  = resolver.auth_token_reference environ auth_token.
Proof.
  unfold config.load_config, resolver.auth_token_reference, config.getenv.
  cbn [config.auth_token].
  destruct auth_token as [[|c s]|]; reflexivity.
Qed.

Lemma load_config_timeout :
  config.timeout (config.load_config environ base_url auth_token timeout)
  = resolver.timeout_reference environ timeout.
Proof.
  unfold config.load_config, resolver.timeout_reference, config.getenv.
  cbn [config.timeout].
  destruct timeout as [t|]; [reflexivity|].
  destruct (environ !! "JSCOM_API_TIMEOUT") as [[|c s]|]; reflexivity.
Qed.

(** What [resolve] does, in one equation. *)
Lemma resolve_eq :
  resolver.resolve environ base_url auth_token timeout =
  let chosen := resolver.timeout_reference environ timeout in
  if py.float_le_0 chosen then py.Raise (py.TimeoutValueError chosen)
  else py.Ok {|
    client.base_url := py.rstrip "/" (resolver.base_url_reference environ base_url);
    client.auth_token := resolver.auth_token_reference environ auth_token;
    client.timeout := chosen |}.
Proof.
  unfold resolver.resolve, client.__init__.
  rewrite load_config_base_url, load_config_auth_token, load_config_timeout.
  reflexivity.
Qed.

(** What [resolve] returns when it returns. *)
Lemma resolve_ok (c : client.JscomApiClient) :
  resolver.resolve environ base_url auth_token timeout = py.Ok c ->
  c = {| client.base_url :=
           py.rstrip "/"
             (config.base_url
                (config.load_config environ base_url auth_token timeout));
         client.auth_token :=
           config.auth_token
             (config.load_config environ base_url auth_token timeout);
         client.timeout :=
           config.timeout
             (config.load_config environ base_url auth_token timeout) |}.
Proof.
  unfold resolver.resolve, client.__init__.
  destruct (py.float_le_0 _); [discriminate|].
  intros H. injection H as <-. reflexivity.
Qed.

End Resolve.

(** C3 (as amended).  The timeout of [resolve] is the one of the
    reference definition [resolver.timeout_reference]: the explicit
    argument when one is supplied; otherwise the value [float] parses
    from the timeout variable; otherwise, when the variable is unset,
    empty or not parseable as a number, the default of 30 seconds, used
    silently.  [resolve] fails with the construction error exactly when
    the timeout so chosen is [<= 0], whether it was supplied explicitly
    or parsed from the environment; the default itself never fails. *)
Theorem resolve_timeout_by_precedence
    (environ : gmap string string) (base_url auth_token : option string)
    (timeout : option spec_float) :
  py.obind (resolver.resolve environ base_url auth_token timeout)
           (fun c => py.Ok (client.timeout c))
  = (let chosen := resolver.timeout_reference environ timeout in
     if py.float_le_0 chosen then py.Raise (py.TimeoutValueError chosen)
     else py.Ok chosen)
  /\ py.float_le_0 config.thirty_seconds = false.
Proof.
  split; [|reflexivity].
  rewrite resolve_eq. cbv zeta.
  destruct (py.float_le_0 _); reflexivity.
Qed.

(** C3, counterexample.  With no explicit timeout and the timeout
    variable set to [-5], which [float] parses to a number that is not
    positive, [resolve] does not fall back to 30 seconds: it fails with
    the construction error. *)
Lemma resolve_env_timeout_minus_5_fails :
  let environ : gmap string string := {[ "JSCOM_API_TIMEOUT" := "-5" ]} in
  let minus_5 := S754_finite true 5629499534213120 (-50) in
  py.float_of_str "-5" = Some minus_5
  /\ py.float_gt_0 minus_5 = false
  /\ resolver.resolve environ None None None
     = py.Raise (py.TimeoutValueError minus_5).
Proof. vm_compute. repeat split. Qed.

(** C4 (as amended).  Each field is resolved on its own, by precedence.
    Base URL: the explicit argument when it is a non-empty string, else
    the environment variable when it is set and non-empty, else the
    literal.  Token: the explicit argument when it is a non-empty string,
    else the environment variable as it is set, else absent.  Timeout:
    the explicit argument whenever one is supplied, else the environment
    variable when [float] parses it, else 30 seconds.  [resolve] hands
    these three to the client, the base URL without its trailing
    slashes, unless the timeout is [<= 0]. *)
Theorem resolve_fields_by_precedence
    (environ : gmap string string) (base_url auth_token : option string)
    (timeout : option spec_float) :
  let cfg := config.load_config environ base_url auth_token timeout in
  config.base_url cfg = resolver.base_url_reference environ base_url
  /\ config.auth_token cfg = resolver.auth_token_reference environ auth_token
  /\ config.timeout cfg = resolver.timeout_reference environ timeout
  /\ resolver.resolve environ base_url auth_token timeout
     = (if py.float_le_0 (config.timeout cfg)
        then py.Raise (py.TimeoutValueError (config.timeout cfg))
        else py.Ok {| client.base_url := py.rstrip "/" (config.base_url cfg);
                      client.auth_token := config.auth_token cfg;
                      client.timeout := config.timeout cfg |}).
Proof.
  cbv zeta. rewrite resolve_eq, load_config_base_url, load_config_auth_token,
    load_config_timeout. repeat split.
Qed.

(** C4, counterexample.  An explicit base URL that is the empty string
    does not override the environment variable: the variable is used. *)
Lemma resolve_empty_explicit_base_url_uses_env :
  let environ : gmap string string :=
    {[ "JSCOM_API_BASE_URL" := "https://env.example.com" ]} in
  exists c,
    resolver.resolve environ (Some "") None None = py.Ok c
    /\ client.base_url c = "https://env.example.com"
    /\ client.base_url c <> py.rstrip "/" "".
Proof.
  eexists. split; [vm_compute; reflexivity|]. split; [reflexivity|discriminate].
Qed.

(** C5.  Whatever the explicit argument and the environment are, the
    base URL [resolve] returns is the chosen one with every trailing
    slash removed: it does not end in a slash, the chosen URL is the
    returned one followed by slashes only, and a chosen URL that is [u]
    followed by any number of slashes, [u] not ending in one, gives back
    [u]. *)
Theorem resolve_base_url_has_no_trailing_slash
    (environ : gmap string string) (base_url auth_token : option string)
    (timeout : option spec_float) (c : client.JscomApiClient) :
  resolver.resolve environ base_url auth_token timeout = py.Ok c ->
  let chosen :=
    config.base_url (config.load_config environ base_url auth_token timeout) in
  py.ends_with_char "/" (client.base_url c) = false
  /\ client.base_url c = py.rstrip "/" chosen
  /\ (exists n, chosen = client.base_url c +:+ resolver.slashes n)
  /\ forall u n,
       chosen = u +:+ resolver.slashes n ->
       py.ends_with_char "/" u = false ->
       client.base_url c = u.
Proof.
  intros H. apply resolve_ok in H.
  set (chosen := config.base_url _) in *. rewrite H. clearbody chosen.
  cbn [client.base_url].
  split; [apply rstrip_ends_with; reflexivity|].
  split; [reflexivity|].
  split; [apply rstrip_slash_suffix|].
  intros u n -> Hu. rewrite rstrip_slashes. now apply rstrip_fixed.
Qed.

(** C5 at the base URL [https://api.test.com///], given explicitly. *)
Lemma resolve_base_url_has_no_trailing_slash_witness :
  let c := {| client.base_url := "https://api.test.com";
              client.auth_token := None;
              client.timeout := config.thirty_seconds |} in
  let chosen :=
    config.base_url
      (config.load_config ∅ (Some "https://api.test.com///") None None) in
  py.ends_with_char "/" (client.base_url c) = false
  /\ client.base_url c = py.rstrip "/" chosen
  /\ (exists n, chosen = client.base_url c +:+ resolver.slashes n)
  /\ forall u n,
       chosen = u +:+ resolver.slashes n ->
       py.ends_with_char "/" u = false ->
       client.base_url c = u.
Proof.
  apply (resolve_base_url_has_no_trailing_slash ∅ (Some "https://api.test.com///")
           None None).
  vm_compute. reflexivity.
Defined.

(** ** The world *)

Lemma send_sent (request : http.Request) (w : world.World) :
  world.sent (snd (world.send request w)) = world.sent w ++ [request].
Proof. reflexivity. Qed.

(** ** The client *)

Section Client.

Variable self : client.JscomApiClient.

(** [get_my_ip] issues its one request and classifies the answer. *)
Lemma get_my_ip_eq (w : world.World) :
  client.get_my_ip self w =
  (contract.on_answer (contract.get_my_ip_response self)
     (world.network w (contract.get_request self)),
   snd (world.send (contract.get_request self) w)).
Proof.
  unfold client.get_my_ip, world.bind, world.try_except, world.send,
    world.when, world.lift, world.raise, world.ret.
  fold (contract.get_request self).
  destruct (world.network w (contract.get_request self)) as [cause|r];
    cbn [snd client.on_RequestException contract.on_answer]; [reflexivity|].
  unfold contract.get_my_ip_response, contract.get_my_ip_body,
    contract.error_from_body. cbv zeta.
  destruct (500 <=? http.status_code r).
  { destruct (client._parse_error_response self r); reflexivity. }
  destruct (negb (http.status_code r =? 200)).
  { destruct (client._parse_error_response self r); reflexivity. }
  unfold http.Response_json.
  destruct (http.body_json r) as [msg|data]; cbn; [reflexivity|].
  destruct (py.getitem data "ip") as [ip|[]]; reflexivity.
Qed.

(** [update_dns] issues its one request and classifies the answer. *)
Lemma update_dns_eq (domain : string) (ip : py.value) (w : world.World) :
  client.update_dns self domain ip w =
  (contract.on_answer (contract.update_dns_response self)
     (world.network w (contract.post_request self domain ip)),
   snd (world.send (contract.post_request self domain ip) w)).
Proof.
  unfold client.update_dns, world.bind, world.try_except, world.send,
    world.when, world.lift, world.raise, world.ret.
  fold (contract.post_request self domain ip).
  destruct (world.network w (contract.post_request self domain ip)) as [cause|r];
    cbn [snd client.on_RequestException contract.on_answer]; [reflexivity|].
  unfold contract.update_dns_response, contract.update_dns_body,
    contract.error_from_body. cbv zeta.
  destruct (http.status_code r =? 403).
  { destruct (client._parse_error_response self r); reflexivity. }
  destruct (http.status_code r =? 400).
  { destruct (client._parse_error_response self r); reflexivity. }
  destruct (500 <=? http.status_code r).
  { destruct (client._parse_error_response self r); reflexivity. }
  destruct (negb (http.status_code r =? 200)).
  { destruct (client._parse_error_response self r); reflexivity. }
  unfold http.Response_json.
  destruct (http.body_json r) as [msg|data]; cbn; [reflexivity|].
  destruct (py.getitem data "message") as [message|[]]; cbn; try reflexivity.
  destruct (py.getitem data "change_info") as [info|[]]; reflexivity.
Qed.

End Client.

(** ** The error-body parser *)

Section Parser.

Variable self : client.JscomApiClient.
Variable response : http.Response.

(** A body that does not parse: the raw text, or the status when the
    text is empty. *)
Lemma parse_error_response_unparseable (msg : string) :
  http.body_json response = inl msg ->
  client._parse_error_response self response =
  py.Ok (if py.str_nonempty (http.text response) then http.text response
         else "HTTP " +:+ py.str_int (http.status_code response)).
Proof.
  intros H. unfold client._parse_error_response, http.Response_json.
  rewrite H. reflexivity.
Qed.

(** A body that parses to an object: the three rules. *)
Lemma parse_error_response_object (items : list (string * py.value)) :
  http.body_json response = inr (py.JObj items) ->
  client._parse_error_response self response =
  py.Ok match py.lookup_key "error" items, py.lookup_key "message" items with
        | Some error, Some message => py.str error +:+ ": " +:+ py.str message
        | Some error, None => py.str error
        | None, _ => py.str (py.JObj items)
        end.
Proof.
  intros H. unfold client._parse_error_response, http.Response_json.
  rewrite H. cbn [py.obind py.contains py.getitem].
  destruct (py.lookup_key "error" items) as [error|]; [|reflexivity].
  cbn [py.obind].
  destruct (py.lookup_key "message" items) as [message|]; reflexivity.
Qed.

Lemma parse_error_response_returns :
  contract.object_or_unparseable response = true ->
  exists error_data, client._parse_error_response self response = py.Ok error_data.
Proof.
  unfold contract.object_or_unparseable.
  destruct (http.body_json response) as [msg|data] eqn:H.
  - intros _. eexists. apply (parse_error_response_unparseable msg H).
  - destruct data; try discriminate. intros _. eexists.
    apply (parse_error_response_object _ H).
Qed.

End Parser.

(** C2, the code at the failing inputs.  On an error response whose body
    is the JSON number [5], or [null], or the list [["error"]], the
    parser returns no string: a [TypeError] leaves it, since only
    [ValueError] is caught. *)
Theorem parse_error_response_raises_on_non_object_body :
  let parse text body :=
    client._parse_error_response scenario.test_client
      {| http.status_code := 500; http.text := text;
         http.body_json := inr body |} in
  parse "5" (py.JInt 5)
  = py.Raise (py.TypeError "argument of type 'int' is not iterable")
  /\ parse "null" py.JNull
     = py.Raise (py.TypeError "argument of type 'NoneType' is not iterable")
  /\ parse ("[" +:+ String py.double_quote "error" +:+ String py.double_quote "]")
       (py.JList [py.JStr "error"])
     = py.Raise (py.TypeError "list indices must be integers or slices, not str").
Proof. repeat split. Qed.

(** ** The status ladder *)

Section Ladder.

Variable self : client.JscomApiClient.
Variable response : http.Response.
Hypothesis body_ok : contract.object_or_unparseable response = true.

(** On a body that does not parse or that is an object, the ladder of
    [update_dns] ends in a result or in one of the four typed errors,
    chosen by the status alone until the status is 200. *)
Lemma update_dns_response_ladder :
  exists error_data,
    client._parse_error_response self response = py.Ok error_data
    /\ contract.update_dns_response self response =
       let status := http.status_code response in
       if status =? 403 then
         py.Raise (py.AuthenticationError ("Authentication failed: " +:+ error_data))
       else if status =? 400 then
         py.Raise (py.ValidationError ("Validation error: " +:+ error_data))
       else if 500 <=? status then
         py.Raise (py.ServerError ("Server error: " +:+ error_data))
       else if negb (status =? 200) then
         py.Raise (py.NetworkError
                     ("Unexpected status " +:+ py.str_int status +:+ ": "
                        +:+ error_data))
       else contract.update_dns_body response.
Proof.
  destruct (parse_error_response_returns self response body_ok) as [d Hd].
  exists d. split; [exact Hd|].
  unfold contract.update_dns_response, contract.error_from_body. cbv zeta.
  rewrite Hd. reflexivity.
Qed.

Lemma get_my_ip_response_ladder :
  exists error_data,
    client._parse_error_response self response = py.Ok error_data
    /\ contract.get_my_ip_response self response =
       let status := http.status_code response in
       if 500 <=? status then
         py.Raise (py.ServerError ("Server error: " +:+ error_data))
       else if negb (status =? 200) then
         py.Raise (py.NetworkError
                     ("Unexpected status " +:+ py.str_int status +:+ ": "
                        +:+ error_data))
       else contract.get_my_ip_body response.
Proof.
  destruct (parse_error_response_returns self response body_ok) as [d Hd].
  exists d. split; [exact Hd|].
  unfold contract.get_my_ip_response, contract.error_from_body. cbv zeta.
  rewrite Hd. reflexivity.
Qed.

(** On such a body every failure is one of the four typed errors. *)
Lemma update_dns_response_typed :
  match contract.update_dns_response self response with
  | py.Ok _ => True
  | py.Raise e => py.is_JscomApiError e = true
  end.
Proof.
  destruct (parse_error_response_returns self response body_ok) as [d Hd].
  unfold contract.update_dns_response, contract.error_from_body. cbv zeta.
  rewrite Hd.
  repeat (match goal with |- context [if ?b then _ else _] => destruct b end;
          try reflexivity).
  revert body_ok. unfold contract.object_or_unparseable, contract.update_dns_body.
  destruct (http.body_json response) as [msg|[]]; try discriminate;
    intros _; [reflexivity|].
  cbn [py.getitem py.obind].
  destruct (py.lookup_key "message" items); [|reflexivity].
  cbn [py.obind].
  destruct (py.lookup_key "change_info" items); [exact I|reflexivity].
Qed.

Lemma get_my_ip_response_typed :
  match contract.get_my_ip_response self response with
  | py.Ok _ => True
  | py.Raise e => py.is_JscomApiError e = true
  end.
Proof.
  destruct (parse_error_response_returns self response body_ok) as [d Hd].
  unfold contract.get_my_ip_response, contract.error_from_body. cbv zeta.
  rewrite Hd.
  repeat (match goal with |- context [if ?b then _ else _] => destruct b end;
          try reflexivity).
  revert body_ok. unfold contract.object_or_unparseable, contract.get_my_ip_body.
  destruct (http.body_json response) as [msg|[]]; try discriminate;
    intros _; [reflexivity|].
  cbn [py.getitem py.obind].
  destruct (py.lookup_key "ip" items); [exact I|reflexivity].
Qed.

End Ladder.

(** A 403 whose body does not parse, or parses to an object, is an
    Authentication error whatever else the body holds. *)
Lemma update_dns_403_is_authentication
    (self : client.JscomApiClient) (domain : string) (ip : py.value)
    (w : world.World) (response : http.Response) :
  world.network w (contract.post_request self domain ip) = inr response ->
  http.status_code response = 403 ->
  contract.object_or_unparseable response = true ->
  exists error_data,
    client._parse_error_response self response = py.Ok error_data
    /\ fst (client.update_dns self domain ip w)
       = py.Raise (py.AuthenticationError
                     ("Authentication failed: " +:+ error_data)).
Proof.
  intros Hnet Hstatus Hbody.
  destruct (update_dns_response_ladder self response Hbody) as (d & Hd & Hladder).
  exists d. split; [exact Hd|].
  rewrite update_dns_eq, Hnet. cbn [fst contract.on_answer].
  rewrite Hladder, Hstatus. reflexivity.
Qed.

(** C1, the code at the failing input.  The far end answers the POST
    with status 403 and the body [5], a JSON number.  [update_dns] raises
    no Authentication error: the [TypeError] of the error-body parser
    leaves it.  The same body under status 400, 500 or 404 does the same
    on its rung. *)
Theorem update_dns_403_number_body_raises_TypeError :
  let run status :=
    fst (client.update_dns scenario.test_client "mc.example.com."
           (py.JStr "203.0.113.42")
           (scenario.answering (scenario.json_response status "5" (py.JInt 5)))) in
  run 403 = py.Raise (py.TypeError "argument of type 'int' is not iterable")
  /\ run 400 = run 403 /\ run 500 = run 403 /\ run 404 = run 403.
Proof. repeat split. Qed.

(** C6, the code at the failing inputs.  A status 200 whose body is the
    JSON list [[]] makes [get_my_ip] raise a [TypeError], and so does the
    JSON number [5] for [update_dns]: only [KeyError] is caught around the
    field lookups.  A status 500 whose body is [null] makes both raise
    the [TypeError] of the error-body parser.  None of these is one of the
    four typed errors. *)
Theorem client_lets_TypeError_escape :
  let get status text body :=
    fst (client.get_my_ip scenario.test_client
           (scenario.answering (scenario.json_response status text body))) in
  let post status text body :=
    fst (client.update_dns scenario.test_client "mc.example.com."
           (py.JStr "203.0.113.42")
           (scenario.answering (scenario.json_response status text body))) in
  get 200 "[]" (py.JList [])
  = py.Raise (py.TypeError "list indices must be integers or slices, not str")
  /\ post 200 "5" (py.JInt 5)
     = py.Raise (py.TypeError "'int' object is not subscriptable")
  /\ get 500 "null" py.JNull
     = py.Raise (py.TypeError "argument of type 'NoneType' is not iterable")
  /\ post 500 "null" py.JNull
     = py.Raise (py.TypeError "argument of type 'NoneType' is not iterable")
  /\ forall msg, py.is_JscomApiError (py.TypeError msg) = false.
Proof. repeat split. Qed.

(** ** The request of [update_dns] *)

Lemma update_dns_headers_content_type (self : client.JscomApiClient) :
  client.update_dns_headers self !! "Content-Type" = Some "application/json".
Proof.
  unfold client.update_dns_headers.
  destruct (py.truthy_opt (client.auth_token self)).
  - rewrite lookup_insert_ne by discriminate. apply lookup_singleton_eq.
  - apply lookup_singleton_eq.
Qed.

Lemma update_dns_headers_token (self : client.JscomApiClient) :
  client.update_dns_headers self !! "x-auth-token" =
  match client.auth_token self with
  | Some (String c t) => Some (String c t)
  | _ => None
  end.
Proof.
  unfold client.update_dns_headers.
  destruct (client.auth_token self) as [[|c t]|]; cbn [py.truthy_opt py.str_nonempty].
  - apply lookup_singleton_ne. discriminate.
  - apply lookup_insert_eq.
  - apply lookup_singleton_ne. discriminate.
Qed.

Lemma update_dns_headers_names (self : client.JscomApiClient) (name : string) :
  is_Some (client.update_dns_headers self !! name) ->
  name = "Content-Type" \/ name = "x-auth-token".
Proof.
  unfold client.update_dns_headers.
  destruct (py.truthy_opt (client.auth_token self)).
  - destruct (decide (name = "x-auth-token")) as [->|Hne]; [now right|].
    rewrite lookup_insert_ne by congruence.
    destruct (decide (name = "Content-Type")) as [->|Hne']; [now left|].
    rewrite lookup_singleton_ne by congruence. intros []; discriminate.
  - destruct (decide (name = "Content-Type")) as [->|Hne']; [now left|].
    rewrite lookup_singleton_ne by congruence. intros []; discriminate.
Qed.

(** C8.  [update_dns(domain, ip)] issues exactly one request: a POST to
    the base URL followed by [/v1/dns/update], whose JSON body is the
    object with the two keys [domain] and [ip] and nothing else, with the
    header [Content-Type: application/json], and with the header
    [x-auth-token] equal to the token when a token is configured, that is
    when it is a non-empty string, and absent otherwise: it is never sent
    empty, and no third header is set. *)
Theorem update_dns_request
    (self : client.JscomApiClient) (domain : string) (ip : py.value)
    (w : world.World) :
  exists request,
    world.sent (snd (client.update_dns self domain ip w))
    = world.sent w ++ [request]
    /\ http.method request = http.POST
    /\ http.url request = client.base_url self +:+ "/v1/dns/update"
    /\ http.json request
       = Some (py.JObj [("domain", py.JStr domain); ("ip", ip)])
    /\ http.timeout request = client.timeout self
    /\ http.headers request !! "Content-Type" = Some "application/json"
    /\ http.headers request !! "x-auth-token"
       = match client.auth_token self with
         | Some (String c t) => Some (String c t)
         | _ => None
         end
    /\ http.headers request !! "x-auth-token" <> Some ""
    /\ forall name, is_Some (http.headers request !! name) ->
                    name = "Content-Type" \/ name = "x-auth-token".
Proof.
  exists (contract.post_request self domain ip).
  rewrite update_dns_eq. cbn [snd].
  split; [apply send_sent|].
  cbn [contract.post_request http.method http.url http.json http.timeout
         http.headers].
  repeat split.
  - apply update_dns_headers_content_type.
  - apply update_dns_headers_token.
  - rewrite update_dns_headers_token.
    destruct (client.auth_token self) as [[|c t]|]; discriminate.
  - apply update_dns_headers_names.
Qed.

(** ** The [dns update] command *)

Ltac run_world :=
  unfold world.bind, world.when, world.ret, world.raise, world.lift,
    world.try_except, world.finally, world.print, world.err_print,
    world.close_session, client.close, world.send;
  cbv beta iota;
  cbn [fst snd world.network world.sent world.stdout world.stderr world.closed
         world.rich].

(** A literal of the source is never refused. *)
Lemma refusal_Text (rich : console.Line -> option string) (s : string) :
  console.refusal rich (console.Text s) = None.
Proof. reflexivity. Qed.

(** One step of a run: the next test the run depends on is decided. *)
Ltac world_step :=
  match goal with
  | |- context [console.refusal ?r (console.Text ?s)] =>
      change (console.refusal r (console.Text s)) with (@None string)
  | H : console.refusal ?r ?l = _ |- context [console.refusal ?r ?l] =>
      rewrite H
  | H : contract.on_answer ?l ?a = _ |- context [contract.on_answer ?l ?a] =>
      rewrite H
  | H : py.truthy ?v = _ |- context [py.truthy ?v] => rewrite H
  | |- context [match console.refusal ?r ?l with _ => _ end] =>
      let H := fresh "Hrefusal" in destruct (console.refusal r l) eqn:H
  | |- context [match contract.on_answer ?l ?a with _ => _ end] =>
      let H := fresh "Hanswer" in destruct (contract.on_answer l a) eqn:H
  | |- context [if py.truthy ?v then _ else _] =>
      let H := fresh "Htruthy" in destruct (py.truthy v) eqn:H
  | |- context [if negb (py.truthy ?v) then _ else _] =>
      let H := fresh "Htruthy" in destruct (py.truthy v) eqn:H; cbn [negb]
  | |- context [match py.items_of ?v with _ => _ end] =>
      let H := fresh "Hitems" in destruct (py.items_of v) eqn:H
  | |- context [match cli.table_cell ?v with _ => _ end] =>
      let H := fresh "Hcell" in destruct (cli.table_cell v) eqn:H
  end.

Ltac world_cases :=
  unfold console.check, console.rendered;
  repeat first
    [ progress run_world
    | progress (unfold console.check, console.rendered)
    | progress (cbn [py.obind andb negb])
    | rewrite get_my_ip_eq
    | rewrite update_dns_eq
    | world_step ].

(** A clause prints its line and exits with its code; when the console
    refuses the line, what leaves the clause is the refusal, and nothing
    is printed. *)
Lemma clause_eq (line : console.Line) (code : Z) (w : world.World) :
  world.bind (world.err_print line) (fun _ => world.raise (py.Exit code)) w
  = flow.clause line code w.
Proof.
  unfold flow.clause. run_world. unfold console.check.
  destruct (console.refusal (world.rich w) line); reflexivity.
Qed.

(** Every exception of the [try] block meets a clause, which prints on
    the error console and exits: with code 2 for an Authentication error,
    with code 1 for any other. *)
Lemma dns_update_handlers_exit (e : py.exn) (w : world.World) :
  exists h,
    cli.dns_update_handlers e = Some h
    /\ h w = flow.clause (flow.clause_line e) (flow.clause_code e) w.
Proof. destruct e; eexists; (split; [reflexivity|]); apply clause_eq. Qed.

Lemma dns_update_handlers_sent (m : world.M unit) (w : world.World) :
  world.sent (snd (world.try_except m cli.dns_update_handlers w))
  = world.sent (snd (m w)).
Proof.
  unfold world.try_except. destruct (m w) as [[a|e] w']; [reflexivity|].
  destruct (dns_update_handlers_exit e w') as (h & -> & ->).
  reflexivity.
Qed.

(** Under the [except] clauses the exit code follows what the [try]
    block raised and whether the line of the Authentication clause was
    rendered; the session stays as the block left it. *)
Lemma dns_update_handlers_code (m : world.M unit) (w : world.World) :
  cli.exit_code (fst (world.try_except m cli.dns_update_handlers w))
  = match fst (m w) with
    | py.Ok _ => 0
    | py.Raise (py.AuthenticationError msg) =>
        if console.rendered (world.rich (snd (m w))) (cli.authentication_line msg)
        then 2 else 1
    | py.Raise _ => 1
    end
  /\ world.closed (snd (world.try_except m cli.dns_update_handlers w))
     = world.closed (snd (m w)).
Proof.
  unfold world.try_except. destruct (m w) as [[[]|e] w']; [now split|].
  destruct (dns_update_handlers_exit e w') as (h & -> & ->).
  unfold flow.clause, console.rendered. cbn [fst snd world.closed].
  destruct e; cbn [flow.clause_line flow.clause_code];
    match goal with
    | |- context [console.refusal ?r ?l] => destruct (console.refusal r l)
    end; now split.
Qed.

Section DnsUpdate.

Variable state : cli.State.
Variable environ : gmap string string.
Variable domain : string.

(** Both arguments: the command stops at the first check. *)
Lemma dns_update_both (ip_address : option string) (w : world.World) :
  py.truthy_opt ip_address = true ->
  command.rejected (cli.dns_update state environ domain ip_address true w) w
    cli.mutually_exclusive_message.
Proof.
  intros H. unfold cli.dns_update, command.rejected. rewrite H.
  repeat split.
Qed.

(** Neither argument: the command stops at the second check. *)
Lemma dns_update_neither (ip_address : option string) (w : world.World) :
  py.truthy_opt ip_address = false ->
  command.rejected (cli.dns_update state environ domain ip_address false w) w
    cli.one_required_message.
Proof.
  intros H. unfold cli.dns_update, command.rejected. rewrite H.
  repeat split.
Qed.

(** Exactly one argument: the command is its [try] block under its
    [except] clauses. *)
Lemma dns_update_proceeds (ip_address : option string) (use_current_ip : bool)
    (w : world.World) :
  py.truthy_opt ip_address = negb use_current_ip ->
  cli.dns_update state environ domain ip_address use_current_ip w
  = world.try_except
      (cli.dns_update_try state environ domain ip_address use_current_ip)
      cli.dns_update_handlers w.
Proof.
  intros H. unfold cli.dns_update. rewrite H.
  destruct use_current_ip; reflexivity.
Qed.

(** The [try] block after the argument check: it ends as [flow.outcome]
    says, with the session closed and the requests of
    [command.requests] issued, or it fails at the construction of the
    client and touches nothing.  The far end and the consoles stay what
    they are. *)
Lemma dns_update_try_eq (ip_address : option string) (use_current_ip : bool)
    (w : world.World) :
  py.truthy_opt ip_address = negb use_current_ip ->
  let run := cli.dns_update_try state environ domain ip_address use_current_ip w in
  world.rich (snd run) = world.rich w
  /\ match resolver.resolve environ (cli.base_url state) (cli.token state) None with
     | py.Ok c =>
         fst run = flow.outcome c domain ip_address use_current_ip
                     (world.network w) (world.rich w)
         /\ world.closed (snd run) = true
         /\ world.sent (snd run)
            = world.sent w ++
              command.requests c domain ip_address use_current_ip
                (world.network w) (world.rich w)
     | py.Raise e => run = (py.Raise e, w)
     end.
Proof.
  intros Hip. cbv zeta.
  unfold resolver.resolve, cli.dns_update_try, client.with_client,
    flow.outcome, flow.target, command.requests.
  run_world.
  destruct (client.__init__ _ _ _) as [c|e]; run_world; [|now split].
  destruct use_current_ip.
  - world_cases; rewrite <- ?app_assoc; repeat split; reflexivity.
  - destruct ip_address as [[|a s]|]; try discriminate Hip.
    change (default "" (Some (String a s))) with (String a s).
    cbn [py.truthy py.str_nonempty negb py.obind].
    world_cases; rewrite <- ?app_assoc, ?app_nil_r; repeat split; reflexivity.
Qed.

Lemma dns_update_sent (ip_address : option string) (use_current_ip : bool)
    (w : world.World) :
  py.truthy_opt ip_address = negb use_current_ip ->
  world.sent (snd (cli.dns_update state environ domain ip_address
                     use_current_ip w))
  = world.sent w ++
     match resolver.resolve environ (cli.base_url state) (cli.token state) None with
     | py.Ok c =>
         command.requests c domain ip_address use_current_ip
           (world.network w) (world.rich w)
     | py.Raise _ => []
     end.
Proof.
  intros Hip. rewrite (dns_update_proceeds _ _ _ Hip), dns_update_handlers_sent.
  destruct (dns_update_try_eq _ _ w Hip) as (_ & Htry).
  destruct (resolver.resolve _ _ _ _); [apply Htry|].
  rewrite Htry. cbn [snd]. now rewrite app_nil_r.
Qed.

End DnsUpdate.

(** The exit code of [dns update]: 1 when the argument check fails;
    otherwise 0 when the [try] block ends without an error, 1 when it
    raises anything but an Authentication error, and for an
    Authentication error 2 when the line of its clause is rendered and 1
    when the console refuses it. *)
Lemma dns_update_exit_code_cases
    (state : cli.State) (environ : gmap string string) (domain : string)
    (ip_address : option string) (use_current_ip : bool) (w : world.World) :
  cli.exit_code
    (fst (cli.dns_update state environ domain ip_address use_current_ip w))
  = if py.truthy_opt ip_address && use_current_ip then 1
    else if negb (py.truthy_opt ip_address) && negb use_current_ip then 1
    else match fst (cli.dns_update_try state environ domain ip_address
                      use_current_ip w) with
         | py.Ok _ => 0
         | py.Raise (py.AuthenticationError msg) =>
             if console.rendered (world.rich w) (cli.authentication_line msg)
             then 2 else 1
         | py.Raise _ => 1
         end.
Proof.
  destruct (py.truthy_opt ip_address) eqn:Hip; destruct use_current_ip;
    cbn [andb negb].
  - now destruct (dns_update_both state environ domain _ w Hip) as (_ & ? & _).
  - assert (Hpass : py.truthy_opt ip_address = negb false) by exact Hip.
    rewrite (dns_update_proceeds _ _ _ _ _ _ Hpass).
    destruct (dns_update_handlers_code
                (cli.dns_update_try state environ domain ip_address false) w)
      as (-> & _).
    now destruct (dns_update_try_eq state environ domain _ _ w Hpass) as (-> & _).
  - assert (Hpass : py.truthy_opt ip_address = negb true) by exact Hip.
    rewrite (dns_update_proceeds _ _ _ _ _ _ Hpass).
    destruct (dns_update_handlers_code
                (cli.dns_update_try state environ domain ip_address true) w)
      as (-> & _).
    now destruct (dns_update_try_eq state environ domain _ _ w Hpass) as (-> & _).
  - now destruct (dns_update_neither state environ domain _ w Hip) as (_ & ? & _).
Qed.

(** C7, the code where it fails the claim.  The [try] block of a
    [dns update] that passed its argument check raises an Authentication
    error, and the console refuses the line the clause of that error
    prints, its text holding a closing tag that closes nothing.  The
    [MarkupError] of the console leaves the clause before
    [typer.Exit(code=2)] is raised: the command ends on that exception,
    with exit code 1, not 2, and the clause has printed nothing. *)
Theorem dns_update_authentication_error_exits_1_when_refused
    (state : cli.State) (environ : gmap string string) (domain : string)
    (ip_address : option string) (use_current_ip : bool) (w : world.World)
    (msg refused : string) :
  py.truthy_opt ip_address = negb use_current_ip ->
  fst (cli.dns_update_try state environ domain ip_address use_current_ip w)
  = py.Raise (py.AuthenticationError msg) ->
  console.refusal (world.rich w) (cli.authentication_line msg) = Some refused ->
  let run := cli.dns_update state environ domain ip_address use_current_ip w in
  fst run = py.Raise (py.MarkupError refused)
  /\ cli.exit_code (fst run) = 1
  /\ cli.exit_code (fst run) <> 2
  /\ world.stderr (snd run)
     = world.stderr (snd (cli.dns_update_try state environ domain ip_address
                            use_current_ip w)).
Proof.
  intros Hpass Hraise Hrefused. cbv zeta.
  rewrite (dns_update_proceeds _ _ _ _ _ _ Hpass).
  destruct (dns_update_try_eq state environ domain _ _ w Hpass) as (Hrich & _).
  unfold world.try_except.
  destruct (cli.dns_update_try state environ domain ip_address use_current_ip w)
    as [r w'].
  cbn [fst snd] in *. subst r.
  destruct (dns_update_handlers_exit (py.AuthenticationError msg) w')
    as (h & -> & ->).
  unfold flow.clause. cbn [flow.clause_line flow.clause_code fst snd world.stderr].
  rewrite Hrich, Hrefused. repeat split. discriminate.
Qed.

(** C7 at the failing input: the far end answers the POST with status
    403 and the body [{"error": "[/x]"}]. *)
Lemma dns_update_authentication_error_exits_1_when_refused_witness :
  let w :=
    scenario.answering_without_x
      (scenario.json_response 403 "{...}" (py.JObj [("error", py.JStr "[/x]")])) in
  let try :=
    cli.dns_update_try scenario.no_options ∅ "mc.example.com." (Some "1.2.3.4")
      false w in
  let run :=
    cli.dns_update scenario.no_options ∅ "mc.example.com." (Some "1.2.3.4")
      false w in
  fst try = py.Raise (py.AuthenticationError "Authentication failed: [/x]")
  /\ fst run = py.Raise (py.MarkupError (scenario.unmatched "[/x]" 57))
  /\ cli.exit_code (fst run) = 1
  /\ cli.exit_code (fst run) <> 2
  /\ world.stderr (snd run) = world.stderr (snd try).
Proof.
  split; [reflexivity|].
  apply (dns_update_authentication_error_exits_1_when_refused
           scenario.no_options ∅ "mc.example.com." (Some "1.2.3.4") false
           (scenario.answering_without_x
              (scenario.json_response 403 "{...}"
                 (py.JObj [("error", py.JStr "[/x]")])))
           "Authentication failed: [/x]" (scenario.unmatched "[/x]" 57));
    reflexivity.
Defined.




(** ** The scenarios of the specification and of the test suite *)

Example get_my_ip_success :
  fst (client.get_my_ip scenario.test_client
         (scenario.answering
            (scenario.json_response 200 "{...}"
               (py.JObj [("ip", py.JStr "203.0.113.42")]))))
  = py.Ok {| models.ip := py.JStr "203.0.113.42" |}.
Proof. reflexivity. Qed.

Example ip_quiet_prints_the_ip :
  let run :=
    cli.ip scenario.no_options ∅ false true
      (scenario.answering
         (scenario.json_response 200 "{...}"
            (py.JObj [("ip", py.JStr "203.0.113.42")]))) in
  fst run = py.Ok tt
  /\ world.stdout (snd run) = [console.Markup "" "203.0.113.42" ""]
  /\ world.closed (snd run) = true.
Proof. repeat split. Qed.

Example update_dns_forbidden :
  let far_end :=
    scenario.answering
      (scenario.json_response 403 "{...}"
         (py.JObj [("error", py.JStr "Forbidden");
                   ("message", py.JStr "Invalid token")])) in
  fst (client.update_dns scenario.test_client "mc.example.com."
         (py.JStr "203.0.113.42") far_end)
  = py.Raise (py.AuthenticationError
                "Authentication failed: Forbidden: Invalid token")
  /\ cli.exit_code
       (fst (cli.dns_update scenario.no_options ∅ "mc.example.com."
               (Some "203.0.113.42") false far_end)) = 2.
Proof. split; reflexivity. Qed.

Example update_dns_html_on_200 :
  fst (client.update_dns scenario.test_client "mc.example.com."
         (py.JStr "203.0.113.42")
         (scenario.answering
            (scenario.text_response 200 "<html>Server Error</html>")))
  = py.Raise (py.NetworkError
                "Invalid JSON response: Expecting value: line 1 column 1 (char 0)").
Proof. reflexivity. Qed.

Example get_my_ip_empty_body_on_500 :
  fst (client.get_my_ip scenario.test_client
         (scenario.answering (scenario.text_response 500 "")))
  = py.Raise (py.ServerError "Server error: HTTP 500").
Proof. reflexivity. Qed.

Example get_my_ip_missing_field :
  fst (client.get_my_ip scenario.test_client
         (scenario.answering
            (scenario.json_response 200 "{...}"
               (py.JObj [("address", py.JStr "203.0.113.42")]))))
  = py.Raise (py.ValidationError "API response missing required field: 'ip'").
Proof. reflexivity. Qed.

Example timeout_variable_not_a_number :
  config.timeout
    (config.load_config {[ "JSCOM_API_TIMEOUT" := "soon" ]} None None None)
  = config.thirty_seconds.
Proof. reflexivity. Qed.

(** What [float] makes of the timeout variable.  A control character
    that [str.strip] would drop is no white space for it, so the default
    is used; a digit or a space above ASCII is taken for what it stands
    for. *)
Example timeout_variable_texts :
  let file_separator := String (ascii_of_N 28) "" in
  let no_break_space := String (ascii_of_N 194) (String (ascii_of_N 160) "") in
  let fullwidth_5 :=
    String (ascii_of_N 239) (String (ascii_of_N 188) (String (ascii_of_N 149) "")) in
  py.float_of_str (file_separator +:+ "-5") = None
  /\ py.float_of_str fullwidth_5 = Some (py.float_of_decimal false 5 0)
  /\ py.float_of_str (no_break_space +:+ "-5")
     = Some (py.float_of_decimal true 5 0)
  /\ config.timeout
       (config.load_config {[ "JSCOM_API_TIMEOUT" := file_separator +:+ "-5" ]}
          None None None)
     = config.thirty_seconds
  /\ resolver.resolve {[ "JSCOM_API_TIMEOUT" := no_break_space +:+ "-5" ]}
       None None None
     = py.Raise (py.TimeoutValueError (py.float_of_decimal true 5 0)).
Proof. vm_compute. repeat split. Qed.

(** The [str] of an object escapes what is not printable. *)
Example str_of_an_object_escapes :
  let no_break_space := String (ascii_of_N 194) (String (ascii_of_N 160) "") in
  py.str (py.JObj [("detail", py.JStr ("a" +:+ no_break_space +:+ "b"))])
  = "{'detail': 'a\xa0b'}".
Proof. vm_compute. reflexivity. Qed.

Example dns_update_with_current_ip :
  let far_end :=
    {| world.network := fun request =>
         match http.method request with
         | http.GET =>
             scenario.json_response 200 "{...}"
               (py.JObj [("ip", py.JStr "203.0.113.42")])
         | http.POST =>
             scenario.json_response 200 "{...}"
               (py.JObj [("message", py.JStr "DNS record updated");
                         ("change_info",
                          py.JObj [("Id", py.JStr "/change/C123");
                                   ("Status", py.JStr "PENDING")])])
         end;
       world.sent := []; world.stdout := []; world.stderr := [];
       world.closed := false; world.rich := fun _ => None |} in
  let run :=
    cli.dns_update scenario.no_options ∅ "mc.example.com." None true far_end in
  cli.exit_code (fst run) = 0
  /\ map http.method (world.sent (snd run)) = [http.GET; http.POST]
  /\ map http.json (world.sent (snd run))
     = [None;
        Some (py.JObj [("domain", py.JStr "mc.example.com.");
                       ("ip", py.JStr "203.0.113.42")])]
  /\ last (world.stdout (snd run))
     = Some (console.PrintTable ["Key"; "Value"]
               [["Id"; "/change/C123"]; ["Status"; "PENDING"]]).
Proof. repeat split. Qed.

(** A domain that holds a closing tag: the line that announces the
    update is refused, so is the line of the clause that catches the
    refusal, and the command ends on that second [MarkupError], with
    exit code 1, nothing printed and no request issued. *)
Example dns_update_domain_with_closing_tag :
  let run :=
    cli.dns_update scenario.no_options ∅ "[/x]" (Some "1.2.3.4") false
      (scenario.answering_without_x
         (scenario.json_response 200 "{...}"
            (py.JObj [("message", py.JStr "DNS record updated");
                      ("change_info", py.JObj [])]))) in
  fst run
  = py.Raise (py.MarkupError
                (scenario.unmatched "[/x]" 42))
  /\ cli.exit_code (fst run) = 1
  /\ world.sent (snd run) = []
  /\ world.stdout (snd run) = []
  /\ world.stderr (snd run) = []
  /\ world.closed (snd run) = true.
Proof. vm_compute. repeat split. Qed.

(** * More of the code *)

(** ** The two operations of the client *)

(** X1.  [get_my_ip] issues exactly one request: a GET to the base URL
    followed by [/v1/ip/my], with the timeout of the client, no body and
    no header at all, so the token is not sent even when one is
    configured. *)
Theorem get_my_ip_request (self : client.JscomApiClient) (w : world.World) :
  exists request,
    world.sent (snd (client.get_my_ip self w)) = world.sent w ++ [request]
    /\ http.method request = http.GET
    /\ http.url request = client.base_url self +:+ "/v1/ip/my"
    /\ http.json request = None
    /\ http.timeout request = client.timeout self
    /\ forall name, http.headers request !! name = None.
Proof.
  exists (contract.get_request self). rewrite get_my_ip_eq.
  repeat split.
Qed.

(** X2.  [update_dns] returns a result exactly when the far end answers
    with status 200 and a body that parses to an object holding both
    [message] and [change_info]; the result holds these two values as
    they came, unchecked. *)
Theorem update_dns_succeeds_iff
    (self : client.JscomApiClient) (domain : string) (ip : py.value)
    (w : world.World) (result : models.DnsUpdateResponse) :
  fst (client.update_dns self domain ip w) = py.Ok result
  <-> exists response items,
        world.network w (contract.post_request self domain ip) = inr response
        /\ http.status_code response = 200
        /\ http.body_json response = inr (py.JObj items)
        /\ py.lookup_key "message" items = Some (models.message result)
        /\ py.lookup_key "change_info" items = Some (models.change_info result).
Proof.
  rewrite update_dns_eq. cbn [fst]. split.
  - destruct (world.network w _) as [cause|response]; cbn [contract.on_answer];
      [discriminate|].
    unfold contract.update_dns_response, contract.error_from_body. cbv zeta.
    destruct (http.status_code response =? 403) eqn:H403.
    { destruct (client._parse_error_response self response); discriminate. }
    destruct (http.status_code response =? 400) eqn:H400.
    { destruct (client._parse_error_response self response); discriminate. }
    destruct (500 <=? http.status_code response) eqn:H500.
    { destruct (client._parse_error_response self response); discriminate. }
    destruct (http.status_code response =? 200) eqn:H200; cbn [negb].
    2:{ destruct (client._parse_error_response self response); discriminate. }
    unfold contract.update_dns_body.
    destruct (http.body_json response) as [msg|data] eqn:Hbody; [discriminate|].
    destruct data; try discriminate.
    cbn [py.getitem py.obind].
    destruct (py.lookup_key "message" items) as [message|] eqn:Hm;
      [|discriminate].
    cbn [py.obind].
    destruct (py.lookup_key "change_info" items) as [info|] eqn:Hc;
      [|discriminate].
    cbn [contract.missing_field]. intros [= <-].
    exists response, items. apply Z.eqb_eq in H200. repeat split; assumption.
  - intros (response & items & -> & Hstatus & Hbody & Hm & Hc).
    cbn [contract.on_answer].
    unfold contract.update_dns_response, contract.update_dns_body.
    rewrite Hstatus, Hbody. cbn [Z.eqb Z.leb Z.compare Pos.compare Pos.compare_cont negb
                                   py.getitem py.obind].
    cbn. rewrite Hm. cbn. rewrite Hc. destruct result; reflexivity.
Qed.

(** X3.  [get_my_ip] returns a result exactly when the far end answers
    with status 200 and a body that parses to an object holding [ip]; the
    result holds that value as it came, a str or not. *)
Theorem get_my_ip_succeeds_iff
    (self : client.JscomApiClient) (w : world.World)
    (result : models.IpResponse) :
  fst (client.get_my_ip self w) = py.Ok result
  <-> exists response items,
        world.network w (contract.get_request self) = inr response
        /\ http.status_code response = 200
        /\ http.body_json response = inr (py.JObj items)
        /\ py.lookup_key "ip" items = Some (models.ip result).
Proof.
  rewrite get_my_ip_eq. cbn [fst]. split.
  - destruct (world.network w _) as [cause|response]; cbn [contract.on_answer];
      [discriminate|].
    unfold contract.get_my_ip_response, contract.error_from_body. cbv zeta.
    destruct (500 <=? http.status_code response) eqn:H500.
    { destruct (client._parse_error_response self response); discriminate. }
    destruct (http.status_code response =? 200) eqn:H200; cbn [negb].
    2:{ destruct (client._parse_error_response self response); discriminate. }
    unfold contract.get_my_ip_body.
    destruct (http.body_json response) as [msg|data] eqn:Hbody; [discriminate|].
    destruct data; try discriminate.
    cbn [py.getitem py.obind].
    destruct (py.lookup_key "ip" items) as [ip|] eqn:Hip; [|discriminate].
    cbn [py.obind contract.missing_field]. intros [= <-].
    exists response, items. apply Z.eqb_eq in H200. repeat split; assumption.
  - intros (response & items & -> & Hstatus & Hbody & Hip).
    cbn [contract.on_answer].
    unfold contract.get_my_ip_response, contract.get_my_ip_body.
    rewrite Hstatus, Hbody. cbn. rewrite Hip. destruct result; reflexivity.
Qed.

(** X4.  On a status that is not 200 and a body that does not parse or
    parses to an object, [update_dns] raises the error of the first rung
    the status meets: Authentication on 403, Validation on 400, Server
    from 500 up, Network on any other, each with the parsed error body
    behind its prefix. *)
Theorem update_dns_error_by_status
    (self : client.JscomApiClient) (domain : string) (ip : py.value)
    (w : world.World) (response : http.Response) :
  world.network w (contract.post_request self domain ip) = inr response ->
  contract.object_or_unparseable response = true ->
  http.status_code response <> 200 ->
  exists error_data,
    client._parse_error_response self response = py.Ok error_data
    /\ fst (client.update_dns self domain ip w)
       = py.Raise (shape.update_dns_error (http.status_code response) error_data).
Proof.
  intros Hnet Hbody Hstatus.
  destruct (update_dns_response_ladder self response Hbody) as (d & Hd & Hladder).
  exists d. split; [exact Hd|].
  rewrite update_dns_eq, Hnet. cbn [fst contract.on_answer].
  rewrite Hladder. unfold shape.update_dns_error. cbv zeta.
  destruct (http.status_code response =? 403); [reflexivity|].
  destruct (http.status_code response =? 400); [reflexivity|].
  destruct (500 <=? http.status_code response); [reflexivity|].
  destruct (Z.eqb_spec (http.status_code response) 200); [contradiction|].
  reflexivity.
Qed.

(** X4 at a 404 whose body is plain text. *)
Lemma update_dns_error_by_status_witness :
  exists error_data,
    client._parse_error_response scenario.test_client
      {| http.status_code := 404; http.text := "Not Found";
         http.body_json := inl "Expecting value: line 1 column 1 (char 0)" |}
    = py.Ok error_data
    /\ fst (client.update_dns scenario.test_client "mc.example.com."
              (py.JStr "203.0.113.42")
              (scenario.answering (scenario.text_response 404 "Not Found")))
       = py.Raise (shape.update_dns_error 404 error_data).
Proof.
  apply (update_dns_error_by_status scenario.test_client "mc.example.com."
           (py.JStr "203.0.113.42")
           (scenario.answering (scenario.text_response 404 "Not Found"))
           {| http.status_code := 404; http.text := "Not Found";
              http.body_json := inl "Expecting value: line 1 column 1 (char 0)" |});
    [reflexivity | reflexivity | simpl; lia].
Defined.

(** X5.  On a status that is not 200 and a body that does not parse or
    parses to an object, [get_my_ip] raises a Server error from 500 up
    and a Network error on any other status: a 403 or a 400 on the GET is
    a Network error, not an Authentication or Validation error. *)
Theorem get_my_ip_error_by_status
    (self : client.JscomApiClient) (w : world.World)
    (response : http.Response) :
  world.network w (contract.get_request self) = inr response ->
  contract.object_or_unparseable response = true ->
  http.status_code response <> 200 ->
  exists error_data,
    client._parse_error_response self response = py.Ok error_data
    /\ fst (client.get_my_ip self w)
       = py.Raise (shape.get_my_ip_error (http.status_code response) error_data).
Proof.
  intros Hnet Hbody Hstatus.
  destruct (get_my_ip_response_ladder self response Hbody) as (d & Hd & Hladder).
  exists d. split; [exact Hd|].
  rewrite get_my_ip_eq, Hnet. cbn [fst contract.on_answer].
  rewrite Hladder. unfold shape.get_my_ip_error. cbv zeta.
  destruct (500 <=? http.status_code response); [reflexivity|].
  destruct (Z.eqb_spec (http.status_code response) 200); [contradiction|].
  reflexivity.
Qed.

(** X5 at a 403 whose body is an object. *)
Lemma get_my_ip_error_by_status_witness :
  exists error_data,
    client._parse_error_response scenario.test_client
      {| http.status_code := 403; http.text := "{...}";
         http.body_json := inr (py.JObj [("error", py.JStr "Forbidden")]) |}
    = py.Ok error_data
    /\ fst (client.get_my_ip scenario.test_client
              (scenario.answering
                 (scenario.json_response 403 "{...}"
                    (py.JObj [("error", py.JStr "Forbidden")]))))
       = py.Raise (shape.get_my_ip_error 403 error_data).
Proof.
  apply (get_my_ip_error_by_status scenario.test_client
           (scenario.answering
              (scenario.json_response 403 "{...}"
                 (py.JObj [("error", py.JStr "Forbidden")])))
           {| http.status_code := 403; http.text := "{...}";
              http.body_json := inr (py.JObj [("error", py.JStr "Forbidden")]) |});
    [reflexivity | reflexivity | simpl; lia].
Defined.

(** X6.  When the transport fails, each operation raises a Network error
    that quotes the cause, and has issued its request once: nothing is
    retried. *)
Theorem transport_failure_is_network_error
    (self : client.JscomApiClient) (domain : string) (ip : py.value)
    (w : world.World) (get_cause post_cause : string) :
  world.network w (contract.get_request self) = inl get_cause ->
  world.network w (contract.post_request self domain ip) = inl post_cause ->
  client.get_my_ip self w
  = (py.Raise (py.NetworkError ("Failed to connect to API: " +:+ get_cause)),
     snd (world.send (contract.get_request self) w))
  /\ client.update_dns self domain ip w
     = (py.Raise (py.NetworkError ("Failed to connect to API: " +:+ post_cause)),
        snd (world.send (contract.post_request self domain ip) w))
  /\ length (world.sent (snd (client.get_my_ip self w)))
     = S (length (world.sent w))
  /\ length (world.sent (snd (client.update_dns self domain ip w)))
     = S (length (world.sent w)).
Proof.
  intros Hget Hpost. rewrite get_my_ip_eq, update_dns_eq, Hget, Hpost.
  cbn [contract.on_answer snd world.send world.sent].
  repeat split; try reflexivity; rewrite length_app; cbn [length]; lia.
Qed.

(** X6 at a far end that refuses every connection. *)
Lemma transport_failure_is_network_error_witness :
  let w := scenario.answering (inl "connection refused") in
  let self := scenario.test_client in
  client.get_my_ip self w
  = (py.Raise (py.NetworkError ("Failed to connect to API: " +:+ "connection refused")),
     snd (world.send (contract.get_request self) w))
  /\ client.update_dns self "mc.example.com." (py.JStr "203.0.113.42") w
     = (py.Raise (py.NetworkError ("Failed to connect to API: " +:+ "connection refused")),
        snd (world.send (contract.post_request self "mc.example.com."
                           (py.JStr "203.0.113.42")) w))
  /\ length (world.sent (snd (client.get_my_ip self w)))
     = S (length (world.sent w))
  /\ length (world.sent (snd (client.update_dns self "mc.example.com."
                                (py.JStr "203.0.113.42") w)))
     = S (length (world.sent w)).
Proof.
  apply (transport_failure_is_network_error scenario.test_client
           "mc.example.com." (py.JStr "203.0.113.42")
           (scenario.answering (inl "connection refused"))
           "connection refused" "connection refused"); reflexivity.
Defined.

(** ** The error-body parser, where it returns *)

(** X7.  The rules of the error-body parser.  A body that does not parse
    gives the raw text, or [HTTP] and the status when the text is empty.
    A body that parses to an object gives [error: message] when it holds
    both keys, [str(error)] when it holds [error] alone, and the [str] of
    the whole object when it holds no [error], whether or not it holds
    [message]. *)
Theorem parse_error_response_rules
    (self : client.JscomApiClient) (status : Z) (text : string) :
  (forall msg,
     client._parse_error_response self
       {| http.status_code := status; http.text := text;
          http.body_json := inl msg |}
     = py.Ok (match text with
              | "" => "HTTP " +:+ py.str_int status
              | _ => text
              end))
  /\ forall items,
       client._parse_error_response self
         {| http.status_code := status; http.text := text;
            http.body_json := inr (py.JObj items) |}
       = py.Ok match py.lookup_key "error" items, py.lookup_key "message" items with
               | Some error, Some message =>
                   py.str error +:+ ": " +:+ py.str message
               | Some error, None => py.str error
               | None, _ => py.str (py.JObj items)
               end.
Proof.
  split.
  - intros msg. erewrite parse_error_response_unparseable by reflexivity.
    destruct text; reflexivity.
  - intros items. now erewrite parse_error_response_object by reflexivity.
Qed.

(** Where the error-body parser returns and where it raises. *)
Lemma parse_error_response_returns_iff_aux
    (self : client.JscomApiClient) (response : http.Response) :
  if shape.parser_returns response
  then exists error_data,
         client._parse_error_response self response = py.Ok error_data
  else exists msg,
         client._parse_error_response self response
         = py.Raise (py.TypeError msg).
Proof.
  unfold shape.parser_returns.
  destruct (http.body_json response) as [msg|data] eqn:Hbody.
  { eexists. apply (parse_error_response_unparseable self response msg Hbody). }
  destruct data as [|b|z|r|s|l|items];
    try (eexists; apply (parse_error_response_object self response _ Hbody));
    unfold client._parse_error_response, http.Response_json; rewrite Hbody;
    cbn [py.obind py.contains]; try (eexists; reflexivity).
  - destruct (py.is_substring "error" s); cbn [negb py.obind];
      [|eexists; reflexivity].
    destruct (py.is_substring "message" s); eexists; reflexivity.
  - destruct (existsb _ l); cbn [negb py.obind]; [|eexists; reflexivity].
    destruct (existsb _ l); eexists; reflexivity.
Qed.


(** X8.  The error-body parser returns a string on exactly these bodies:
    one that does not parse, an object, a list that does not hold the str
    [error], a str that does not contain [error].  On every other body,
    be it a number, a boolean, [null], a list that holds [error] or a str
    that contains it, a [TypeError] leaves the parser. *)
Theorem parse_error_response_returns_iff
    (self : client.JscomApiClient) (response : http.Response) :
  if shape.parser_returns response
  then exists error_data,
         client._parse_error_response self response = py.Ok error_data
  else exists msg,
         client._parse_error_response self response
         = py.Raise (py.TypeError msg).
Proof. apply parse_error_response_returns_iff_aux. Qed.

(** X9.  On a status 200 whose body is an object, [update_dns] looks up
    [message] first: when it is missing the Validation error names
    [message], whatever else is missing; when [change_info] alone is
    missing the error names [change_info]; otherwise the two values are
    the result. *)
Theorem update_dns_missing_field
    (self : client.JscomApiClient) (domain : string) (ip : py.value)
    (w : world.World) (response : http.Response)
    (items : list (string * py.value)) :
  world.network w (contract.post_request self domain ip) = inr response ->
  http.status_code response = 200 ->
  http.body_json response = inr (py.JObj items) ->
  fst (client.update_dns self domain ip w)
  = match py.lookup_key "message" items, py.lookup_key "change_info" items with
    | None, _ =>
        py.Raise (py.ValidationError
                    "API response missing required field: 'message'")
    | Some _, None =>
        py.Raise (py.ValidationError
                    "API response missing required field: 'change_info'")
    | Some message, Some change_info =>
        py.Ok {| models.message := message;
                 models.change_info := change_info |}
    end.
Proof.
  intros Hnet Hstatus Hbody. rewrite update_dns_eq, Hnet.
  cbn [fst contract.on_answer].
  unfold contract.update_dns_response, contract.update_dns_body.
  rewrite Hstatus, Hbody. cbn.
  destruct (py.lookup_key "message" items); [|reflexivity]. cbn.
  destruct (py.lookup_key "change_info" items); reflexivity.
Qed.

(** X9 at a body that holds neither field. *)
Lemma update_dns_missing_field_witness :
  fst (client.update_dns scenario.test_client "mc.example.com."
         (py.JStr "203.0.113.42")
         (scenario.answering
            (scenario.json_response 200 "{...}" (py.JObj [("ok", py.JBool true)]))))
  = match py.lookup_key "message" [("ok", py.JBool true)],
          py.lookup_key "change_info" [("ok", py.JBool true)] with
    | None, _ =>
        py.Raise (py.ValidationError
                    "API response missing required field: 'message'")
    | Some _, None =>
        py.Raise (py.ValidationError
                    "API response missing required field: 'change_info'")
    | Some message, Some change_info =>
        py.Ok {| models.message := message;
                 models.change_info := change_info |}
    end.
Proof.
  apply (update_dns_missing_field scenario.test_client "mc.example.com."
           (py.JStr "203.0.113.42")
           (scenario.answering
              (scenario.json_response 200 "{...}"
                 (py.JObj [("ok", py.JBool true)])))
           {| http.status_code := 200; http.text := "{...}";
              http.body_json := inr (py.JObj [("ok", py.JBool true)]) |});
    reflexivity.
Defined.

(** X10.  When the far end answers with a transport failure, or with a
    body that does not parse or parses to an object, whatever the status,
    each operation returns a result or raises one of the four typed
    errors, and nothing else. *)
Theorem client_errors_are_typed
    (self : client.JscomApiClient) (domain : string) (ip : py.value)
    (w : world.World) :
  shape.well_formed (world.network w (contract.get_request self)) = true ->
  shape.well_formed (world.network w (contract.post_request self domain ip)) = true ->
  match fst (client.get_my_ip self w) with
  | py.Ok _ => True
  | py.Raise e => py.is_JscomApiError e = true
  end
  /\ match fst (client.update_dns self domain ip w) with
     | py.Ok _ => True
     | py.Raise e => py.is_JscomApiError e = true
     end.
Proof.
  intros Hget Hpost. rewrite get_my_ip_eq, update_dns_eq. cbn [fst].
  unfold shape.well_formed in *. split.
  - destruct (world.network w (contract.get_request self)) as [cause|r];
      [reflexivity|]. now apply get_my_ip_response_typed.
  - destruct (world.network w (contract.post_request self domain ip))
      as [cause|r]; [reflexivity|]. now apply update_dns_response_typed.
Qed.

(** X10 at a far end that answers 502 with an HTML page. *)
Lemma client_errors_are_typed_witness :
  let w := scenario.answering (scenario.text_response 502 "<html>Bad Gateway</html>") in
  match fst (client.get_my_ip scenario.test_client w) with
  | py.Ok _ => True
  | py.Raise e => py.is_JscomApiError e = true
  end
  /\ match fst (client.update_dns scenario.test_client "mc.example.com."
                  (py.JStr "203.0.113.42") w) with
     | py.Ok _ => True
     | py.Raise e => py.is_JscomApiError e = true
     end.
Proof.
  apply (client_errors_are_typed scenario.test_client "mc.example.com."
           (py.JStr "203.0.113.42")
           (scenario.answering
              (scenario.text_response 502 "<html>Bad Gateway</html>")));
    reflexivity.
Defined.

(** X11.  Constructing a client from the attributes of a constructed
    client gives the same client back: the base URL is already stripped
    and the timeout already accepted. *)
Theorem client_init_is_idempotent
    (base_url : string) (auth_token : option string) (timeout : spec_float)
    (c : client.JscomApiClient) :
  client.__init__ base_url auth_token timeout = py.Ok c ->
  client.__init__ (client.base_url c) (client.auth_token c) (client.timeout c)
  = py.Ok c.
Proof.
  unfold client.__init__.
  destruct (py.float_le_0 timeout) eqn:Ht; [discriminate|].
  intros [= <-]. cbn [client.base_url client.auth_token client.timeout].
  rewrite Ht, rstrip_idempotent. reflexivity.
Qed.

(** X11 at the base URL [https://api.test.com//]. *)
Lemma client_init_is_idempotent_witness :
  let c := {| client.base_url := "https://api.test.com";
              client.auth_token := Some "test-token-12345";
              client.timeout := scenario.ten_seconds |} in
  client.__init__ (client.base_url c) (client.auth_token c) (client.timeout c)
  = py.Ok c.
Proof.
  apply (client_init_is_idempotent "https://api.test.com//"
           (Some "test-token-12345") scenario.ten_seconds).
  reflexivity.
Defined.

(** ** Where the errors of the client come from *)

(** The error-body parser raises nothing but a [TypeError]. *)
Lemma parse_error_response_raises_TypeError
    (self : client.JscomApiClient) (response : http.Response) (e : py.exn) :
  client._parse_error_response self response = py.Raise e ->
  exists msg, e = py.TypeError msg.
Proof.
  intros H.
  pose proof (parse_error_response_returns_iff_aux self response) as Haux.
  destruct (shape.parser_returns response).
  - destruct Haux as [d Hd]. congruence.
  - destruct Haux as [msg Hmsg]. exists msg. congruence.
Qed.

(** A lookup in a parsed body raises a [KeyError] or a [TypeError]. *)
Lemma getitem_raises (data : py.value) (key : string) (e : py.exn) :
  py.getitem data key = py.Raise e ->
  e = py.KeyError key \/ exists msg, e = py.TypeError msg.
Proof.
  destruct data; cbn [py.getitem]; try (intros [= <-]; right; eexists; reflexivity).
  destruct (py.lookup_key key items); [discriminate|].
  intros [= <-]. now left.
Qed.

(** A result of the ladder of [update_dns] comes from a 200 whose body
    is an object with both fields. *)
Lemma update_dns_response_ok (self : client.JscomApiClient)
    (answer : string + http.Response) (result : models.DnsUpdateResponse) :
  contract.on_answer (contract.update_dns_response self) answer = py.Ok result ->
  exists response items,
    answer = inr response
    /\ http.status_code response = 200
    /\ http.body_json response = inr (py.JObj items)
    /\ py.lookup_key "message" items = Some (models.message result)
    /\ py.lookup_key "change_info" items = Some (models.change_info result).
Proof.
  destruct answer as [cause|response]; cbn [contract.on_answer]; [discriminate|].
  unfold contract.update_dns_response, contract.error_from_body. cbv zeta.
  destruct (http.status_code response =? 403).
  { destruct (client._parse_error_response self response); discriminate. }
  destruct (http.status_code response =? 400).
  { destruct (client._parse_error_response self response); discriminate. }
  destruct (500 <=? http.status_code response).
  { destruct (client._parse_error_response self response); discriminate. }
  destruct (http.status_code response =? 200) eqn:H200; cbn [negb].
  2:{ destruct (client._parse_error_response self response); discriminate. }
  unfold contract.update_dns_body.
  destruct (http.body_json response) as [msg|data] eqn:Hbody; [discriminate|].
  destruct data; try discriminate.
  cbn [py.getitem py.obind].
  destruct (py.lookup_key "message" items) as [message|] eqn:Hm; [|discriminate].
  cbn [py.obind].
  destruct (py.lookup_key "change_info" items) as [info|] eqn:Hc; [|discriminate].
  cbn [contract.missing_field]. intros [= <-].
  exists response, items. apply Z.eqb_eq in H200. repeat split; assumption.
Qed.

(** An Authentication error of the ladder of [update_dns] comes from a
    403. *)
Lemma update_dns_response_authentication (self : client.JscomApiClient)
    (answer : string + http.Response) (msg : string) :
  contract.on_answer (contract.update_dns_response self) answer
  = py.Raise (py.AuthenticationError msg) ->
  exists response, answer = inr response /\ http.status_code response = 403.
Proof.
  destruct answer as [cause|response]; cbn [contract.on_answer]; [discriminate|].
  unfold contract.update_dns_response, contract.error_from_body. cbv zeta.
  destruct (http.status_code response =? 403) eqn:H403.
  { intros _. exists response. apply Z.eqb_eq in H403. now split. }
  assert (Hparse : forall error,
            match client._parse_error_response self response with
            | py.Ok error_data => py.Raise (error error_data)
            | py.Raise e => @py.Raise models.DnsUpdateResponse e
            end = py.Raise (py.AuthenticationError msg) ->
            exists d, error d = py.AuthenticationError msg).
  { intros error.
    destruct (client._parse_error_response self response) as [d|e] eqn:Hp.
    - intros [= H]. now exists d.
    - apply parse_error_response_raises_TypeError in Hp as [m ->]. discriminate. }
  destruct (http.status_code response =? 400).
  { intros H. apply Hparse in H as [d H]. discriminate. }
  destruct (500 <=? http.status_code response).
  { intros H. apply Hparse in H as [d H]. discriminate. }
  destruct (negb (http.status_code response =? 200)).
  { intros H. apply Hparse in H as [d H]. discriminate. }
  unfold contract.update_dns_body.
  destruct (http.body_json response) as [m|data]; [discriminate|].
  destruct (py.getitem data "message") as [message|e] eqn:Hm; cbn [py.obind].
  - destruct (py.getitem data "change_info") as [info|e] eqn:Hc; cbn [py.obind];
      [discriminate|].
    apply getitem_raises in Hc as [->|[m ->]]; discriminate.
  - apply getitem_raises in Hm as [->|[m ->]]; discriminate.
Qed.

(** The ladder of [get_my_ip] raises no Authentication error. *)
Lemma get_my_ip_response_no_authentication (self : client.JscomApiClient)
    (answer : string + http.Response) (msg : string) :
  contract.on_answer (contract.get_my_ip_response self) answer
  <> py.Raise (py.AuthenticationError msg).
Proof.
  destruct answer as [cause|response]; cbn [contract.on_answer]; [discriminate|].
  unfold contract.get_my_ip_response, contract.error_from_body. cbv zeta.
  assert (Hparse : forall error,
            (forall d, error d <> py.AuthenticationError msg) ->
            match client._parse_error_response self response with
            | py.Ok error_data => py.Raise (error error_data)
            | py.Raise e => @py.Raise models.IpResponse e
            end <> py.Raise (py.AuthenticationError msg)).
  { intros error Herror.
    destruct (client._parse_error_response self response) as [d|e] eqn:Hp.
    - intros [= H]. now apply (Herror d).
    - apply parse_error_response_raises_TypeError in Hp as [m ->]. discriminate. }
  destruct (500 <=? http.status_code response).
  { apply Hparse. discriminate. }
  destruct (negb (http.status_code response =? 200)).
  { apply Hparse. discriminate. }
  unfold contract.get_my_ip_body.
  destruct (http.body_json response) as [m|data]; [discriminate|].
  destruct (py.getitem data "ip") as [ip|e] eqn:Hip; cbn [py.obind];
    [discriminate|].
  apply getitem_raises in Hip as [->|[m ->]]; discriminate.
Qed.

(** X12.  [get_my_ip] never raises an Authentication error, whatever the
    far end answers, and [update_dns] raises one only when the far end
    answered its POST with status 403. *)
Theorem authentication_error_only_on_403
    (self : client.JscomApiClient) (domain : string) (ip : py.value)
    (w : world.World) :
  (forall msg,
     fst (client.get_my_ip self w) <> py.Raise (py.AuthenticationError msg))
  /\ forall msg,
       fst (client.update_dns self domain ip w)
       = py.Raise (py.AuthenticationError msg) ->
       exists response,
         world.network w (contract.post_request self domain ip) = inr response
         /\ http.status_code response = 403.
Proof.
  split; intros msg.
  - rewrite get_my_ip_eq. apply get_my_ip_response_no_authentication.
  - rewrite update_dns_eq. apply update_dns_response_authentication.
Qed.

(** ** The commands *)

(** A falsy value prints as text that holds no closing tag. *)
Lemma falsy_never_closes (v : py.value) :
  py.truthy v = false -> console.closes (py.str v) = false.
Proof.
  destruct v as [|b|z|r|s|l|items]; cbn [py.truthy py.str py.repr].
  - reflexivity.
  - intros ->. reflexivity.
  - intros H. apply negb_false_iff, Z.eqb_eq in H. subst z. reflexivity.
  - intros H. apply negb_false_iff, orb_true_iff in H.
    destruct H as [H|H]; apply String.eqb_eq in H; subst r; reflexivity.
  - destruct s; [reflexivity|discriminate].
  - destruct l; [reflexivity|discriminate].
  - destruct items; [reflexivity|discriminate].
Qed.

(** Every exception of the [try] block of [ip] meets a clause, which
    prints one line on the error console and exits with code 1. *)
Lemma ip_handlers_exit (e : py.exn) (w : world.World) :
  exists h,
    cli.ip_handlers e = Some h
    /\ h w = flow.clause (flow.ip_clause_line e) 1 w.
Proof. destruct e; eexists; (split; [reflexivity|]); apply clause_eq. Qed.

(** What a clause leaves behind. *)
Lemma clause_run (line : console.Line) (code : Z) (w : world.World) :
  let run := flow.clause line code w in
  world.sent (snd run) = world.sent w
  /\ world.closed (snd run) = world.closed w
  /\ world.stdout (snd run) = world.stdout w
  /\ ((fst run = py.Raise (py.Exit code)
       /\ world.stderr (snd run) = world.stderr w ++ [line])
      \/ (exists refused,
            console.refusal (world.rich w) line = Some refused
            /\ fst run = py.Raise (py.MarkupError refused)
            /\ world.stderr (snd run) = world.stderr w)).
Proof.
  unfold flow.clause. cbn [fst snd world.sent world.closed world.stdout world.stderr].
  destruct (console.refusal (world.rich w) line) as [refused|];
    repeat split; [right; exists refused|left]; now repeat split.
Qed.

(** Under the [except] clauses of [ip]: a run that returns is left as it
    is; an exception is answered by one line on the error console and
    exit code 1, or by the refusal of that line. *)
Lemma ip_handlers_run (m : world.M unit) (w : world.World) :
  let body := m w in
  let run := world.try_except m cli.ip_handlers w in
  world.sent (snd run) = world.sent (snd body)
  /\ world.closed (snd run) = world.closed (snd body)
  /\ world.stdout (snd run) = world.stdout (snd body)
  /\ match fst body with
     | py.Ok _ => run = body
     | py.Raise e =>
         (fst run = py.Raise (py.Exit 1)
          /\ world.stderr (snd run)
             = world.stderr (snd body) ++ [flow.ip_clause_line e])
         \/ (exists refused,
               console.refusal (world.rich (snd body)) (flow.ip_clause_line e)
               = Some refused
               /\ fst run = py.Raise (py.MarkupError refused)
               /\ world.stderr (snd run) = world.stderr (snd body))
     end.
Proof.
  cbv zeta. unfold world.try_except.
  destruct (m w) as [[[]|e] w']; cbn [fst snd]; [now repeat split|].
  destruct (ip_handlers_exit e w') as (h & -> & ->).
  apply clause_run.
Qed.

(** The run of [ip], piece by piece. *)
Lemma ip_run (state : cli.State) (environ : gmap string string)
    (json_output quiet : bool) (w : world.World) :
  let run := cli.ip state environ json_output quiet w in
  (world.sent (snd run)
   = world.sent w ++
     match resolver.resolve environ (cli.base_url state) (cli.token state) None with
     | py.Ok c => [contract.get_request c]
     | py.Raise _ => []
     end)
  /\ world.closed (snd run)
     = match resolver.resolve environ (cli.base_url state) (cli.token state) None with
       | py.Ok _ => true
       | py.Raise _ => world.closed w
       end
  /\ ((fst run = py.Ok tt /\ world.stderr (snd run) = world.stderr w
       /\ exists line, world.stdout (snd run) = world.stdout w ++ [line])
      \/ (fst run = py.Raise (py.Exit 1) /\ world.stdout (snd run) = world.stdout w
          /\ exists line, world.stderr (snd run) = world.stderr w ++ [line])
      \/ (exists refused,
            fst run = py.Raise (py.MarkupError refused)
            /\ world.stdout (snd run) = world.stdout w
            /\ world.stderr (snd run) = world.stderr w)).
Proof.
  cbv zeta. unfold cli.ip, resolver.resolve.
  match goal with
  | |- context [world.try_except ?body cli.ip_handlers w] => set (m := body)
  end.
  generalize (ip_handlers_run m w). cbv zeta.
  generalize (world.try_except m cli.ip_handlers w). intros run.
  subst m. unfold client.with_client. run_world.
  destruct (client.__init__ _ _ _) as [c|e]; destruct quiet, json_output;
    world_cases;
    intros (-> & -> & -> & H); rewrite ?app_nil_r;
    (split; [reflexivity|]); (split; [reflexivity|]);
    first
      [ subst run; left; repeat split; eexists; reflexivity
      | destruct H as [(-> & ->)|(refused & _ & -> & ->)];
        right; [left|right]; repeat split; eexists; repeat split ].
Qed.

(** X13.  The [ip] command ends in one of three ways: it returns (exit
    code 0) having printed exactly one thing on the standard console and
    nothing on the error console; or it exits with code 1 having printed
    exactly one line on the error console and nothing on the standard
    console; or it ends on the [MarkupError] of a console that refused a
    line (exit code 1 again), having printed nothing at all.  It never
    exits with code 2. *)
Theorem ip_prints_at_most_one_line
    (state : cli.State) (environ : gmap string string)
    (json_output quiet : bool) (w : world.World) :
  let run := cli.ip state environ json_output quiet w in
  (cli.exit_code (fst run) = 0
   /\ world.stderr (snd run) = world.stderr w
   /\ exists line, world.stdout (snd run) = world.stdout w ++ [line])
  \/ (cli.exit_code (fst run) = 1
      /\ world.stdout (snd run) = world.stdout w
      /\ exists line, world.stderr (snd run) = world.stderr w ++ [line])
  \/ (cli.exit_code (fst run) = 1
      /\ (exists refused, fst run = py.Raise (py.MarkupError refused))
      /\ world.stdout (snd run) = world.stdout w
      /\ world.stderr (snd run) = world.stderr w).
Proof.
  destruct (ip_run state environ json_output quiet w)
    as (_ & _ & [(H & ? & ?)|[(H & ? & ?)|(refused & H & ? & ?)]]);
    [left|right; left|right; right]; cbv zeta; rewrite H; repeat split; eauto.
Qed.

(** X14.  The [ip] command issues at most one request: none when the
    client cannot be constructed, else the one GET, to the base URL that
    is the first non-empty of [--base-url] and the environment variable,
    else the literal, stripped of its trailing slashes; and it issues it
    with the timeout of the environment variable or 30 seconds. *)
Theorem ip_request
    (state : cli.State) (environ : gmap string string)
    (json_output quiet : bool) (w : world.World) :
  let timeout := resolver.timeout_reference environ None in
  world.sent (snd (cli.ip state environ json_output quiet w))
  = world.sent w ++
    if py.float_le_0 timeout then []
    else [ {| http.method := http.GET;
              http.url :=
                py.rstrip "/"
                  (resolver.base_url_reference environ (cli.base_url state))
                +:+ "/v1/ip/my";
              http.headers := ∅;
              http.json := None;
              http.timeout := timeout |} ].
Proof.
  cbv zeta. destruct (ip_run state environ json_output quiet w) as (-> & _).
  rewrite resolve_eq. cbv zeta.
  destruct (py.float_le_0 _); reflexivity.
Qed.



(** The POST with the IP the command goes on with is among its requests
    when the line that announces it is rendered. *)
Lemma requests_hold_the_post (c : client.JscomApiClient) (domain : string)
    (ip_address : option string) (use_current_ip : bool)
    (network : http.Request -> string + http.Response)
    (rich : console.Line -> option string) (target_ip : py.value) :
  flow.target c ip_address use_current_ip network rich = py.Ok target_ip ->
  py.truthy target_ip = true ->
  console.refusal rich (cli.updating_line domain) = None ->
  In (contract.post_request c domain target_ip)
     (command.requests c domain ip_address use_current_ip network rich).
Proof.
  unfold flow.target, command.requests, console.check, console.rendered.
  intros Htarget Htruthy Hupdating. rewrite Hupdating. destruct use_current_ip.
  - destruct (contract.on_answer _ _) as [r|e]; cbn [py.obind] in Htarget;
      [|discriminate].
    destruct (console.refusal rich (cli.current_ip_line (models.ip r)));
      cbn [py.obind] in Htarget; [discriminate|].
    injection Htarget as <-. rewrite Htruthy. right. now left.
  - injection Htarget as <-. now left.
Qed.

(** X16.  Both commands close the session on every path once the client
    is constructed, whether the work succeeded or an error was raised;
    when the client is not constructed, or [dns update] stops at its
    argument check, the session is left as it was. *)
Theorem commands_close_the_session
    (state : cli.State) (environ : gmap string string) (domain : string)
    (ip_address : option string) (use_current_ip json_output quiet : bool)
    (w : world.World) :
  let constructed :=
    match resolver.resolve environ (cli.base_url state) (cli.token state) None with
    | py.Ok _ => true
    | py.Raise _ => false
    end in
  world.closed (snd (cli.ip state environ json_output quiet w))
  = (if constructed then true else world.closed w)
  /\ world.closed
       (snd (cli.dns_update state environ domain ip_address use_current_ip w))
     = (if Bool.eqb (py.truthy_opt ip_address) (negb use_current_ip) && constructed
        then true else world.closed w).
Proof.
  cbv zeta. split.
  - destruct (ip_run state environ json_output quiet w) as (_ & -> & _).
    destruct (resolver.resolve _ _ _ _); reflexivity.
  - destruct (py.truthy_opt ip_address) eqn:Hip; destruct use_current_ip;
      cbn [Bool.eqb negb andb].
    + now destruct (dns_update_both state environ domain _ w Hip)
        as (H & _); unfold cli.dns_update; rewrite Hip.
    + assert (Hpass : py.truthy_opt ip_address = negb false) by exact Hip.
      rewrite (dns_update_proceeds _ _ _ _ _ _ Hpass).
      destruct (dns_update_handlers_code
                  (cli.dns_update_try state environ domain ip_address false) w)
        as (_ & ->).
      destruct (dns_update_try_eq state environ domain _ _ w Hpass) as (_ & Htry).
      destruct (resolver.resolve _ _ _ _); [apply Htry | now rewrite Htry].
    + assert (Hpass : py.truthy_opt ip_address = negb true) by exact Hip.
      rewrite (dns_update_proceeds _ _ _ _ _ _ Hpass).
      destruct (dns_update_handlers_code
                  (cli.dns_update_try state environ domain ip_address true) w)
        as (_ & ->).
      destruct (dns_update_try_eq state environ domain _ _ w Hpass) as (_ & Htry).
      destruct (resolver.resolve _ _ _ _); [apply Htry | now rewrite Htry].
    + unfold cli.dns_update; rewrite Hip. reflexivity.
Qed.



(** The line that shows a falsy fetched IP is never refused. *)
Lemma falsy_current_ip_rendered (rich : console.Line -> option string)
    (ip : py.value) :
  py.truthy ip = false ->
  console.refusal rich (cli.current_ip_line ip) = None.
Proof.
  intros H. unfold console.refusal.
  cbn [cli.current_ip_line console.refusable].
  now rewrite (falsy_never_closes ip H).
Qed.

(** X18.  With [--use-current-ip], a GET answered by a 200 whose [ip] is
    empty, [null], zero or any other falsy value stops the command: no
    POST is issued, the error console gets the line that no IP address is
    available and then, the exit raised inside the [try] block being
    caught by the last [except] clause, an unexpected-error line, and the
    exit code is 1. *)
Theorem dns_update_stops_on_falsy_fetched_ip
    (state : cli.State) (environ : gmap string string) (domain : string)
    (ip_address : option string) (w : world.World)
    (c : client.JscomApiClient) (response : http.Response)
    (items : list (string * py.value)) (ip : py.value) :
  py.truthy_opt ip_address = false ->
  resolver.resolve environ (cli.base_url state) (cli.token state) None = py.Ok c ->
  world.network w (contract.get_request c) = inr response ->
  http.status_code response = 200 ->
  http.body_json response = inr (py.JObj items) ->
  py.lookup_key "ip" items = Some ip ->
  py.truthy ip = false ->
  let run := cli.dns_update state environ domain ip_address true w in
  cli.exit_code (fst run) = 1
  /\ world.sent (snd run) = world.sent w ++ [contract.get_request c]
  /\ world.stderr (snd run)
     = world.stderr w ++
       [console.Text "[red]Error:[/red] No IP address available";
        console.TextExc "[red]Unexpected error:[/red] " (py.Exit 1)].
Proof.
  intros Hip Hc Hnet Hstatus Hbody Hlookup Hfalsy. cbv zeta.
  unfold resolver.resolve in Hc.
  unfold cli.dns_update. rewrite Hip. cbn [andb negb]. run_world.
  unfold cli.dns_update_try, client.with_client. run_world.
  rewrite Hc. run_world. unfold console.check.
  rewrite !refusal_Text. run_world.
  rewrite get_my_ip_eq. run_world. rewrite Hnet. cbn [contract.on_answer].
  unfold contract.get_my_ip_response, contract.get_my_ip_body.
  rewrite Hstatus, Hbody. cbn [Z.leb Z.eqb Z.compare Pos.compare Pos.compare_cont Pos.eqb
                                 negb py.getitem].
  rewrite Hlookup. cbn [py.obind contract.missing_field models.ip].
  run_world. rewrite (falsy_current_ip_rendered _ ip Hfalsy). run_world.
  rewrite Hfalsy. cbn [negb]. run_world.
  rewrite !refusal_Text. run_world.
  cbn [cli.dns_update_handlers py.is_JscomApiError]. run_world.
  unfold console.check.
  change (console.refusal (world.rich w)
            (console.TextExc "[red]Unexpected error:[/red] " (py.Exit 1)))
    with (@None string).
  run_world. repeat split. now rewrite <- app_assoc.
Qed.

(** X18 at a far end that answers the GET with an empty [ip]. *)
Lemma dns_update_stops_on_falsy_fetched_ip_witness :
  let w :=
    scenario.answering
      (scenario.json_response 200 "{...}" (py.JObj [("ip", py.JStr "")])) in
  let c := {| client.base_url := "https://api.test.com";
              client.auth_token := None;
              client.timeout := config.thirty_seconds |} in
  let run := cli.dns_update scenario.no_options ∅ "mc.example.com." None true w in
  cli.exit_code (fst run) = 1
  /\ world.sent (snd run) = world.sent w ++ [contract.get_request c]
  /\ world.stderr (snd run)
     = world.stderr w ++
       [console.Text "[red]Error:[/red] No IP address available";
        console.TextExc "[red]Unexpected error:[/red] " (py.Exit 1)].
Proof.
  apply (dns_update_stops_on_falsy_fetched_ip scenario.no_options ∅
           "mc.example.com." None
           (scenario.answering
              (scenario.json_response 200 "{...}" (py.JObj [("ip", py.JStr "")])))
           {| client.base_url := "https://api.test.com";
              client.auth_token := None;
              client.timeout := config.thirty_seconds |}
           {| http.status_code := 200; http.text := "{...}";
              http.body_json := inr (py.JObj [("ip", py.JStr "")]) |}
           [("ip", py.JStr "")] (py.JStr ""));
    reflexivity.
Defined.

(** A [dns update] whose exit code is not 1 passed its argument check. *)
Lemma dns_update_not_1_passed (state : cli.State) (environ : gmap string string)
    (domain : string) (ip_address : option string) (use_current_ip : bool)
    (w : world.World) :
  cli.exit_code
    (fst (cli.dns_update state environ domain ip_address use_current_ip w)) <> 1 ->
  py.truthy_opt ip_address = negb use_current_ip.
Proof.
  intros H. destruct (py.truthy_opt ip_address) eqn:Hip; destruct use_current_ip;
    try reflexivity; exfalso; apply H.
  - now destruct (dns_update_both state environ domain _ w Hip) as (_ & ? & _).
  - now destruct (dns_update_neither state environ domain _ w Hip) as (_ & ? & _).
Qed.

(** What the [try] block of a [dns update] ended in, for an exit code
    that is not 1: the client was constructed, and the block ended as
    [flow.outcome] says, which is without an error for the code 0 and on
    an Authentication error for any other code. *)
Lemma dns_update_not_1_outcome (state : cli.State) (environ : gmap string string)
    (domain : string) (ip_address : option string) (use_current_ip : bool)
    (w : world.World) :
  let code :=
    cli.exit_code
      (fst (cli.dns_update state environ domain ip_address use_current_ip w)) in
  code <> 1 ->
  py.truthy_opt ip_address = negb use_current_ip
  /\ exists c,
       resolver.resolve environ (cli.base_url state) (cli.token state) None
       = py.Ok c
       /\ match flow.outcome c domain ip_address use_current_ip
                  (world.network w) (world.rich w) with
          | py.Ok _ => code = 0
          | py.Raise (py.AuthenticationError _) => code = 2
          | py.Raise _ => False
          end.
Proof.
  cbv zeta. intros Hcode.
  pose proof (dns_update_not_1_passed _ _ _ _ _ _ Hcode) as Hpass.
  split; [exact Hpass|].
  rewrite dns_update_exit_code_cases in Hcode |- *.
  rewrite Hpass in Hcode |- *.
  replace (negb use_current_ip && use_current_ip) with false in *
    by now destruct use_current_ip.
  replace (negb (negb use_current_ip) && negb use_current_ip) with false in *
    by now destruct use_current_ip.
  destruct (dns_update_try_eq state environ domain _ _ w Hpass) as (_ & Htry).
  destruct (resolver.resolve _ _ _ _) as [c|e] eqn:Hresolve.
  - exists c. split; [reflexivity|].
    destruct Htry as (<- & _).
    destruct (fst (cli.dns_update_try _ _ _ _ _ _)) as [[]|[]];
      try reflexivity; try (now contradiction Hcode).
    destruct (console.rendered _ _); [reflexivity | now contradiction Hcode].
  - exfalso. rewrite Htry in Hcode. cbn [fst] in Hcode.
    rewrite resolve_eq in Hresolve. cbv zeta in Hresolve.
    destruct (py.float_le_0 _); [|discriminate].
    injection Hresolve as <-. now apply Hcode.
Qed.

(** X19.  An exit code 0 of [dns update] means that the update was
    carried out: the client was constructed, the POST with a non-empty
    IP is among the requests issued, and the far end answered it with
    status 200 and an object holding [message] and [change_info]. *)
Theorem dns_update_exit_0_means_updated
    (state : cli.State) (environ : gmap string string) (domain : string)
    (ip_address : option string) (use_current_ip : bool) (w : world.World) :
  let run := cli.dns_update state environ domain ip_address use_current_ip w in
  cli.exit_code (fst run) = 0 ->
  exists c target_ip response items,
    resolver.resolve environ (cli.base_url state) (cli.token state) None = py.Ok c
    /\ py.truthy target_ip = true
    /\ In (contract.post_request c domain target_ip) (world.sent (snd run))
    /\ world.network w (contract.post_request c domain target_ip) = inr response
    /\ http.status_code response = 200
    /\ http.body_json response = inr (py.JObj items)
    /\ is_Some (py.lookup_key "message" items)
    /\ is_Some (py.lookup_key "change_info" items).
Proof.
  cbv zeta. intros Hexit.
  destruct (dns_update_not_1_outcome state environ domain ip_address
              use_current_ip w) as (Hpass & c & Hc & Hout);
    [rewrite Hexit; discriminate|].
  pose proof (dns_update_sent state environ domain _ _ w Hpass) as Hsent.
  rewrite Hc in Hsent. rewrite Hexit in Hout. unfold flow.outcome in Hout.
  destruct (flow.target c ip_address use_current_ip (world.network w)
              (world.rich w)) as [target_ip|e] eqn:Htarget; cbn [py.obind] in Hout;
    [|destruct e; (discriminate || contradiction)].
  destruct (py.truthy target_ip) eqn:Htruthy; [|contradiction].
  unfold console.check in Hout at 1.
  destruct (console.refusal (world.rich w) (cli.updating_line domain))
    eqn:Hupdating; cbn [py.obind] in Hout; [contradiction|].
  destruct (contract.on_answer _ _) as [result|e] eqn:Hanswer;
    cbn [py.obind] in Hout; [|destruct e; (discriminate || contradiction)].
  apply update_dns_response_ok in Hanswer
    as (response & items & Hnet & Hstatus & Hbody & Hm & Hi).
  exists c, target_ip, response, items. split; [exact Hc|].
  split; [exact Htruthy|]. split.
  { rewrite Hsent. apply in_or_app. right.
    now apply requests_hold_the_post. }
  repeat split; try assumption; eexists; eassumption.
Qed.

(** X19 at a far end that accepts the update. *)
Lemma dns_update_exit_0_means_updated_witness :
  let w :=
    scenario.answering
      (scenario.json_response 200 "{...}"
         (py.JObj [("message", py.JStr "DNS record updated");
                   ("change_info", py.JObj [])])) in
  let run :=
    cli.dns_update scenario.no_options ∅ "mc.example.com." (Some "1.2.3.4")
      false w in
  exists c target_ip response items,
    resolver.resolve ∅ (cli.base_url scenario.no_options)
      (cli.token scenario.no_options) None = py.Ok c
    /\ py.truthy target_ip = true
    /\ In (contract.post_request c "mc.example.com." target_ip)
          (world.sent (snd run))
    /\ world.network w (contract.post_request c "mc.example.com." target_ip)
       = inr response
    /\ http.status_code response = 200
    /\ http.body_json response = inr (py.JObj items)
    /\ is_Some (py.lookup_key "message" items)
    /\ is_Some (py.lookup_key "change_info" items).
Proof.
  apply (dns_update_exit_0_means_updated scenario.no_options ∅ "mc.example.com."
           (Some "1.2.3.4") false
           (scenario.answering
              (scenario.json_response 200 "{...}"
                 (py.JObj [("message", py.JStr "DNS record updated");
                           ("change_info", py.JObj [])])))).
  reflexivity.
Defined.

(** An Authentication error at the end of the [with] block comes from a
    POST that was issued and answered with status 403. *)
Lemma outcome_authentication (c : client.JscomApiClient) (domain : string)
    (ip_address : option string) (use_current_ip : bool)
    (network : http.Request -> string + http.Response)
    (rich : console.Line -> option string) (msg : string) :
  flow.outcome c domain ip_address use_current_ip network rich
  = py.Raise (py.AuthenticationError msg) ->
  exists target_ip response,
    flow.target c ip_address use_current_ip network rich = py.Ok target_ip
    /\ py.truthy target_ip = true
    /\ console.refusal rich (cli.updating_line domain) = None
    /\ network (contract.post_request c domain target_ip) = inr response
    /\ http.status_code response = 403.
Proof.
  unfold flow.outcome.
  destruct (flow.target c ip_address use_current_ip network rich)
    as [target_ip|e] eqn:Htarget; cbn [py.obind].
  2:{ intros [= ->]. exfalso. unfold flow.target in Htarget.
      destruct use_current_ip; [|discriminate].
      destruct (contract.on_answer _ _) as [r|e] eqn:Hget; cbn [py.obind] in Htarget.
      - unfold console.check in Htarget.
        destruct (console.refusal _ _); discriminate.
      - injection Htarget as ->.
        now apply get_my_ip_response_no_authentication in Hget. }
  destruct (py.truthy target_ip) eqn:Htruthy; [|discriminate].
  unfold console.check at 1.
  destruct (console.refusal rich (cli.updating_line domain)) eqn:Hupdating;
    cbn [py.obind]; [discriminate|].
  destruct (contract.on_answer _ _) as [result|e] eqn:Hanswer; cbn [py.obind].
  { unfold console.check.
    destruct (console.refusal rich (cli.success_line _)); cbn [py.obind];
      [discriminate|].
    destruct (py.truthy (models.change_info result)); [|discriminate].
    destruct (py.items_of (models.change_info result)) as [items|e] eqn:Hitems;
      cbn [py.obind].
    - destruct (console.refusal rich (cli.change_table items)); discriminate.
    - destruct (models.change_info result); cbn in Hitems; try discriminate;
        injection Hitems as <-; discriminate. }
  intros [= ->].
  apply update_dns_response_authentication in Hanswer as (response & Hnet & Hstatus).
  exists target_ip, response. now repeat split.
Qed.

(** X20.  An exit code 2 of [dns update] means that the POST was issued
    and that the far end answered it with status 403: neither the
    argument check, nor the construction of the client, nor the GET of
    [--use-current-ip], whatever it is answered, gives this code. *)
Theorem dns_update_exit_2_means_403
    (state : cli.State) (environ : gmap string string) (domain : string)
    (ip_address : option string) (use_current_ip : bool) (w : world.World) :
  let run := cli.dns_update state environ domain ip_address use_current_ip w in
  cli.exit_code (fst run) = 2 ->
  exists c target_ip response,
    resolver.resolve environ (cli.base_url state) (cli.token state) None = py.Ok c
    /\ In (contract.post_request c domain target_ip) (world.sent (snd run))
    /\ world.network w (contract.post_request c domain target_ip) = inr response
    /\ http.status_code response = 403.
Proof.
  cbv zeta. intros Hexit.
  destruct (dns_update_not_1_outcome state environ domain ip_address
              use_current_ip w) as (Hpass & c & Hc & Hout);
    [rewrite Hexit; discriminate|].
  pose proof (dns_update_sent state environ domain _ _ w Hpass) as Hsent.
  rewrite Hc in Hsent. rewrite Hexit in Hout.
  destruct (flow.outcome c domain ip_address use_current_ip (world.network w)
              (world.rich w)) as [[]|e] eqn:Houtcome; [discriminate|].
  destruct e; try contradiction.
  apply outcome_authentication in Houtcome
    as (target_ip & response & Htarget & Htruthy & Hupdating & Hnet & Hstatus).
  exists c, target_ip, response. split; [exact Hc|]. split.
  { rewrite Hsent. apply in_or_app. right.
    now apply requests_hold_the_post. }
  now split.
Qed.

(** X20 at the scenario of the specification. *)
Lemma dns_update_exit_2_means_403_witness :
  let w :=
    scenario.answering
      (scenario.json_response 403 "{...}"
         (py.JObj [("error", py.JStr "Forbidden");
                   ("message", py.JStr "Invalid token")])) in
  let run :=
    cli.dns_update scenario.no_options ∅ "mc.example.com." (Some "1.2.3.4")
      false w in
  exists c target_ip response,
    resolver.resolve ∅ (cli.base_url scenario.no_options)
      (cli.token scenario.no_options) None = py.Ok c
    /\ In (contract.post_request c "mc.example.com." target_ip)
          (world.sent (snd run))
    /\ world.network w (contract.post_request c "mc.example.com." target_ip)
       = inr response
    /\ http.status_code response = 403.
Proof.
  apply (dns_update_exit_2_means_403 scenario.no_options ∅ "mc.example.com."
           (Some "1.2.3.4") false
           (scenario.answering
              (scenario.json_response 403 "{...}"
                 (py.JObj [("error", py.JStr "Forbidden");
                           ("message", py.JStr "Invalid token")])))).
  reflexivity.
Defined.

(** ** The handlers behind the API *)

(** X21.  The handler of [/v1/ip/my] on an event that is a dict.  A level
    of [requestContext.http.sourceIp] that is missing gives status 200
    with the placeholder [IP not found] as the IP; with the three levels
    present the IP is the value of [sourceIp], whatever it is; a level
    that is present but is no dict makes the handler raise an
    [AttributeError]. *)
Theorem my_ip_lambda_by_levels (items : list (string * py.value)) :
  let answer ip :=
    py.Ok {| aws.statusCode := 200;
             aws.headers := Some {[ "Content-Type" := "application/json" ]};
             aws.body := py.JObj [("ip", ip)] |} in
  let no_get other :=
    py.Raise (py.AttributeError ("'" +:+ py.type_name other
                                   +:+ "' object has no attribute 'get'")) in
  my_ip_lambda.lambda_handler (py.JObj items)
  = match py.lookup_key "requestContext" items with
    | None => answer (py.JStr "IP not found")
    | Some (py.JObj request_context) =>
        match py.lookup_key "http" request_context with
        | None => answer (py.JStr "IP not found")
        | Some (py.JObj http) =>
            match py.lookup_key "sourceIp" http with
            | None => answer (py.JStr "IP not found")
            | Some source_ip => answer source_ip
            end
        | Some other => no_get other
        end
    | Some other => no_get other
    end.
Proof.
  cbv zeta. unfold my_ip_lambda.lambda_handler. cbn [py.dict_get py.obind].
  destruct (py.lookup_key "requestContext" items) as [[| | | | | |rc]|];
    try reflexivity.
  cbn [py.dict_get py.obind].
  destruct (py.lookup_key "http" rc) as [[| | | | | |http]|]; try reflexivity.
  cbn [py.dict_get py.obind].
  destruct (py.lookup_key "sourceIp" http); reflexivity.
Qed.

Ltac lambda_cases :=
  unfold update_dns_lambda.lambda_handler; cbv zeta;
  repeat
    match goal with
    | |- context [py.obind (py.dict_get ?d ?k ?v) _] =>
        let x := fresh "x" in
        let e := fresh "e" in
        let H := fresh "Hget" in
        destruct (py.dict_get d k v) as [x|e] eqn:H; cbn [py.obind]
    | |- context [if py.differs ?a ?b then _ else _] =>
        let H := fresh "Htoken" in destruct (py.differs a b) eqn:H
    | |- context [match (if py.truthy ?b then _ else _) with _ => _ end] =>
        let H := fresh "Hbody" in destruct (py.truthy b) eqn:H
    | |- context [match update_dns_lambda.json_loads ?l ?b with _ => _ end] =>
        let H := fresh "Hloads" in
        destruct (update_dns_lambda.json_loads l b) eqn:H
    | |- context [if negb (py.truthy ?a) || negb (py.truthy ?b) then _ else _] =>
        let H1 := fresh "Hdomain" in
        let H2 := fresh "Hip" in
        destruct (py.truthy a) eqn:H1; destruct (py.truthy b) eqn:H2;
        cbn [negb orb]
    | |- context [if negb (py.truthy_opt ?z) then _ else _] =>
        let H := fresh "Hzone" in destruct (py.truthy_opt z) eqn:H; cbn [negb]
    | |- context [match ?r ?c with inl _ => _ | inr _ => _ end] =>
        let H := fresh "Hcall" in destruct (r c) eqn:H
    end.

Section UpdateDnsLambda.

Variable loads : string -> option py.value.
Variable environ : gmap string string.
Variable route53 : aws.ChangeCall -> string + py.value.
Variable event : py.value.

(** What the handler of [/v1/dns/update] returns, when it returns. *)
Lemma update_dns_lambda_shape (returned : aws.Response)
    (calls : list aws.ChangeCall) :
  update_dns_lambda.lambda_handler loads environ route53 event
  = py.Ok (returned, calls) ->
  aws.headers returned = None
  /\ exists items,
       aws.body returned = py.JObj items
       /\ ((aws.statusCode returned = 200
            /\ py.lookup_key "message" items = Some (py.JStr "DNS record updated")
            /\ is_Some (py.lookup_key "change_info" items)
            /\ py.lookup_key "error" items = None)
           \/ ((aws.statusCode returned = 400 \/ aws.statusCode returned = 403
                \/ aws.statusCode returned = 500)
               /\ exists error,
                    py.lookup_key "error" items = Some (py.JStr error)
                    /\ (py.lookup_key "message" items = None
                        \/ exists msg,
                             py.lookup_key "message" items = Some (py.JStr msg)))).
Proof.
  lambda_cases; intros [= <- <-] || discriminate;
    (split; [reflexivity|]); eexists; (split; [reflexivity|]); cbn; eauto 10.
Qed.

(** A 403 of the handler is the Unauthorized one, with no call. *)
Lemma update_dns_lambda_unauthorized (returned : aws.Response)
    (calls : list aws.ChangeCall) :
  update_dns_lambda.lambda_handler loads environ route53 event
  = py.Ok (returned, calls) ->
  aws.statusCode returned = 403 ->
  returned
  = update_dns_lambda.respond 403 (py.JObj [("error", py.JStr "Unauthorized")]).
Proof.
  lambda_cases; intros [= <- <-] || discriminate; cbn; (discriminate || reflexivity).
Qed.

End UpdateDnsLambda.

(** X22.  Whatever the event, the environment and Route 53 do, a response
    of the handler of [/v1/dns/update] has status 200, 400, 403 or 500,
    no headers, and a body that is a JSON object: with [message] and
    [change_info] and no [error] on a 200, with a str under [error] on
    the three others. *)
Theorem update_dns_lambda_responses
    (loads : string -> option py.value) (environ : gmap string string)
    (route53 : aws.ChangeCall -> string + py.value) (event : py.value) :
  match update_dns_lambda.lambda_handler loads environ route53 event with
  | py.Raise _ => True
  | py.Ok (returned, _) =>
      aws.headers returned = None
      /\ exists items,
           aws.body returned = py.JObj items
           /\ if aws.statusCode returned =? 200 then
                py.lookup_key "message" items = Some (py.JStr "DNS record updated")
                /\ is_Some (py.lookup_key "change_info" items)
                /\ py.lookup_key "error" items = None
              else
                (aws.statusCode returned = 400 \/ aws.statusCode returned = 403
                 \/ aws.statusCode returned = 500)
                /\ exists error, py.lookup_key "error" items = Some (py.JStr error)
  end.
Proof.
  destruct (update_dns_lambda.lambda_handler loads environ route53 event)
    as [[returned calls]|e] eqn:H; [|exact I].
  destruct (update_dns_lambda_shape _ _ _ _ _ _ H) as (Hh & items & Hb & Hcases).
  split; [exact Hh|]. exists items. split; [exact Hb|].
  destruct Hcases as [(-> & Hm & Hi & He)|(Hs & error & He & _)].
  - cbn. now repeat split.
  - destruct Hs as [->| [->| ->]]; cbn; split; eauto.
Qed.

(** X23.  The handler calls Route 53 at most once, and only after every
    check has passed: the token of the request equals the expected one,
    the body is not empty and parses, the [domain] and the [ip] of the
    parsed payload are truthy, and the hosted zone is configured.  The
    one call upserts an A record with TTL 300 in that zone, whose name is
    the [domain] of the payload and whose value is its [ip], and the
    status is 200 or 500; any other response comes without a call. *)
Theorem update_dns_lambda_calls_route53_once_checked
    (loads : string -> option py.value) (environ : gmap string string)
    (route53 : aws.ChangeCall -> string + py.value) (event : py.value)
    (returned : aws.Response) (calls : list aws.ChangeCall) :
  update_dns_lambda.lambda_handler loads environ route53 event
  = py.Ok (returned, calls) ->
  (calls = [] /\ aws.statusCode returned <> 200)
  \/ exists headers token body data domain new_ip zone,
       py.dict_get event "headers" (py.JObj []) = py.Ok headers
       /\ py.dict_get headers "x-auth-token" py.JNull = py.Ok token
       /\ py.differs token (environ !! "AUTH_TOKEN") = false
       /\ py.dict_get event "body" py.JNull = py.Ok body
       /\ py.truthy body = true
       /\ update_dns_lambda.json_loads loads body = Some data
       /\ py.dict_get data "domain" py.JNull = py.Ok domain
       /\ py.dict_get data "ip" py.JNull = py.Ok new_ip
       /\ calls
          = [ {| aws.HostedZoneId := zone;
                 aws.ChangeBatch :=
                   py.JObj
                     [("Comment", py.JStr "Auto-updated by update_dns_lambda");
                      ("Changes",
                       py.JList
                         [py.JObj
                            [("Action", py.JStr "UPSERT");
                             ("ResourceRecordSet",
                              py.JObj
                                [("Name", domain);
                                 ("Type", py.JStr "A");
                                 ("TTL", py.JInt 300);
                                 ("ResourceRecords",
                                  py.JList [py.JObj [("Value", new_ip)]])])]])]
              |} ]
       /\ py.truthy domain = true
       /\ py.truthy new_ip = true
       /\ environ !! "HOSTED_ZONE_ID" = Some zone
       /\ zone <> ""
       /\ (aws.statusCode returned = 200 \/ aws.statusCode returned = 500).
Proof.
  lambda_cases; intros [= <- <-] || discriminate;
    try (left; split; [reflexivity | discriminate]);
    try match goal with
        | H : py.dict_get (py.JObj []) _ _ = py.Ok ?x,
          H' : py.truthy ?x = true |- _ =>
            cbn in H; injection H as <-; discriminate H'
        end;
    right;
    (destruct (environ !! "HOSTED_ZONE_ID") as [[|a zone]|] eqn:Hz;
     try discriminate);
    do 7 eexists; cbn [default];
    repeat (split; [first [eassumption | reflexivity | discriminate]|]);
    cbn; auto.
Qed.

(** X23 at a request that passes every check. *)
Lemma update_dns_lambda_calls_route53_once_checked_witness :
  let loads : string -> option py.value :=
    fun _ => Some (py.JObj [("domain", py.JStr "mc.example.com.");
                            ("ip", py.JStr "1.2.3.4")]) in
  let environ : gmap string string :=
    {[ "AUTH_TOKEN" := "secret"; "HOSTED_ZONE_ID" := "Z123" ]} in
  let event :=
    py.JObj [("headers", py.JObj [("x-auth-token", py.JStr "secret")]);
             ("body", py.JStr "{...}")] in
  let calls :=
    [ {| aws.HostedZoneId := "Z123";
         aws.ChangeBatch :=
           update_dns_lambda.change_batch (py.JStr "mc.example.com.")
             (py.JStr "1.2.3.4") |} ] in
  let returned :=
    update_dns_lambda.respond 200
      (py.JObj [("message", py.JStr "DNS record updated");
                ("change_info", py.JObj [("Status", py.JStr "PENDING")])]) in
  (calls = [] /\ aws.statusCode returned <> 200)
  \/ exists headers token body data domain new_ip zone,
       py.dict_get event "headers" (py.JObj []) = py.Ok headers
       /\ py.dict_get headers "x-auth-token" py.JNull = py.Ok token
       /\ py.differs token (environ !! "AUTH_TOKEN") = false
       /\ py.dict_get event "body" py.JNull = py.Ok body
       /\ py.truthy body = true
       /\ update_dns_lambda.json_loads loads body = Some data
       /\ py.dict_get data "domain" py.JNull = py.Ok domain
       /\ py.dict_get data "ip" py.JNull = py.Ok new_ip
       /\ calls
          = [ {| aws.HostedZoneId := zone;
                 aws.ChangeBatch :=
                   py.JObj
                     [("Comment", py.JStr "Auto-updated by update_dns_lambda");
                      ("Changes",
                       py.JList
                         [py.JObj
                            [("Action", py.JStr "UPSERT");
                             ("ResourceRecordSet",
                              py.JObj
                                [("Name", domain);
                                 ("Type", py.JStr "A");
                                 ("TTL", py.JInt 300);
                                 ("ResourceRecords",
                                  py.JList [py.JObj [("Value", new_ip)]])])]])]
              |} ]
       /\ py.truthy domain = true
       /\ py.truthy new_ip = true
       /\ environ !! "HOSTED_ZONE_ID" = Some zone
       /\ zone <> ""
       /\ (aws.statusCode returned = 200 \/ aws.statusCode returned = 500).
Proof.
  apply (update_dns_lambda_calls_route53_once_checked
           (fun _ => Some (py.JObj [("domain", py.JStr "mc.example.com.");
                                    ("ip", py.JStr "1.2.3.4")]))
           {[ "AUTH_TOKEN" := "secret"; "HOSTED_ZONE_ID" := "Z123" ]}
           (fun _ => inr (py.JObj [("Status", py.JStr "PENDING")]))
           (py.JObj [("headers", py.JObj [("x-auth-token", py.JStr "secret")]);
                     ("body", py.JStr "{...}")])).
  vm_compute. reflexivity.
Defined.

(** X24.  A response of the handler has status 403 exactly when the
    value under [x-auth-token] differs from the expected token; the
    check comes first, so neither the body nor the hosted zone is looked
    at: the response is the same Unauthorized one and Route 53 is not
    called. *)
Theorem update_dns_lambda_403_iff_token_differs
    (loads : string -> option py.value) (environ : gmap string string)
    (route53 : aws.ChangeCall -> string + py.value) (event : py.value)
    (returned : aws.Response) (calls : list aws.ChangeCall) :
  update_dns_lambda.lambda_handler loads environ route53 event
  = py.Ok (returned, calls) ->
  (aws.statusCode returned = 403
   <-> exists headers token,
         py.dict_get event "headers" (py.JObj []) = py.Ok headers
         /\ py.dict_get headers "x-auth-token" py.JNull = py.Ok token
         /\ py.differs token (environ !! "AUTH_TOKEN") = true)
  /\ (aws.statusCode returned = 403 ->
      calls = []
      /\ returned
         = update_dns_lambda.respond 403
             (py.JObj [("error", py.JStr "Unauthorized")])).
Proof.
  lambda_cases; intros [= <- <-] || discriminate;
    (split; [split|]); cbn [aws.statusCode update_dns_lambda.respond];
    try discriminate; try (intros _; now split);
    try (intros _; do 2 eexists; repeat split; eassumption);
    intros (h & t & Hh & Ht & Hd); congruence.
Qed.

(** X24 at a request with a wrong token. *)
Lemma update_dns_lambda_403_iff_token_differs_witness :
  let environ : gmap string string := {[ "AUTH_TOKEN" := "secret" ]} in
  let event :=
    py.JObj [("headers", py.JObj [("x-auth-token", py.JStr "guess")])] in
  let returned :=
    update_dns_lambda.respond 403 (py.JObj [("error", py.JStr "Unauthorized")]) in
  let calls : list aws.ChangeCall := [] in
  (aws.statusCode returned = 403
   <-> exists headers token,
         py.dict_get event "headers" (py.JObj []) = py.Ok headers
         /\ py.dict_get headers "x-auth-token" py.JNull = py.Ok token
         /\ py.differs token (environ !! "AUTH_TOKEN") = true)
  /\ (aws.statusCode returned = 403 ->
      calls = []
      /\ returned
         = update_dns_lambda.respond 403
             (py.JObj [("error", py.JStr "Unauthorized")])).
Proof.
  apply (update_dns_lambda_403_iff_token_differs
           (fun _ => None) {[ "AUTH_TOKEN" := "secret" ]} (fun _ => inl "unused")
           (py.JObj [("headers", py.JObj [("x-auth-token", py.JStr "guess")])])).
  vm_compute. reflexivity.
Defined.

(** X25.  When [AUTH_TOKEN] is not set in the environment of the
    function, a request that carries no [x-auth-token] header passes the
    token check, [None] being equal to [None]: with a payload that names
    a domain and an IP and with the hosted zone configured, Route 53 is
    called. *)
Theorem update_dns_lambda_without_expected_token
    (loads : string -> option py.value) (environ : gmap string string)
    (route53 : aws.ChangeCall -> string + py.value)
    (text domain ip zone : string) :
  environ !! "AUTH_TOKEN" = None ->
  environ !! "HOSTED_ZONE_ID" = Some zone ->
  text <> "" -> domain <> "" -> ip <> "" -> zone <> "" ->
  loads text = Some (py.JObj [("domain", py.JStr domain); ("ip", py.JStr ip)]) ->
  exists returned,
    update_dns_lambda.lambda_handler loads environ route53
      (py.JObj [("body", py.JStr text)])
    = py.Ok (returned,
             [ {| aws.HostedZoneId := zone;
                  aws.ChangeBatch :=
                    update_dns_lambda.change_batch (py.JStr domain) (py.JStr ip) |} ])
    /\ aws.statusCode returned <> 403.
Proof.
  intros Htoken Hzone Htext Hdomain Hip Hz Hloads.
  unfold update_dns_lambda.lambda_handler. cbv zeta.
  rewrite Htoken, Hzone.
  destruct text as [|t0 text']; [contradiction|].
  destruct domain as [|d0 domain']; [contradiction|].
  destruct ip as [|i0 ip']; [contradiction|].
  destruct zone as [|z0 zone']; [contradiction|].
  cbn. rewrite Hloads. cbn.
  destruct (route53 _); eexists; (split; [reflexivity | discriminate]).
Qed.

(** X25 at a function with the zone alone configured. *)
Lemma update_dns_lambda_without_expected_token_witness :
  exists returned,
    update_dns_lambda.lambda_handler
      (fun _ => Some (py.JObj [("domain", py.JStr "mc.example.com.");
                               ("ip", py.JStr "1.2.3.4")]))
      {[ "HOSTED_ZONE_ID" := "Z123" ]}
      (fun _ => inr (py.JObj []))
      (py.JObj [("body", py.JStr "{...}")])
    = py.Ok (returned,
             [ {| aws.HostedZoneId := "Z123";
                  aws.ChangeBatch :=
                    update_dns_lambda.change_batch (py.JStr "mc.example.com.")
                      (py.JStr "1.2.3.4") |} ])
    /\ aws.statusCode returned <> 403.
Proof.
  apply (update_dns_lambda_without_expected_token
           (fun _ => Some (py.JObj [("domain", py.JStr "mc.example.com.");
                                    ("ip", py.JStr "1.2.3.4")]))
           {[ "HOSTED_ZONE_ID" := "Z123" ]} (fun _ => inr (py.JObj []))
           "{...}" "mc.example.com." "1.2.3.4" "Z123");
    first [reflexivity | discriminate].
Defined.

(** X26.  An authorised request whose body is absent, [None] or empty is
    not parsed: it is taken as an empty payload and answered with status
    400 and the message that [domain] or [ip] is missing, not the one on
    invalid JSON, even when the hosted zone is not configured. *)
Theorem update_dns_lambda_empty_body
    (loads : string -> option py.value) (environ : gmap string string)
    (route53 : aws.ChangeCall -> string + py.value) (event : py.value)
    (headers token body : py.value) :
  py.dict_get event "headers" (py.JObj []) = py.Ok headers ->
  py.dict_get headers "x-auth-token" py.JNull = py.Ok token ->
  py.differs token (environ !! "AUTH_TOKEN") = false ->
  py.dict_get event "body" py.JNull = py.Ok body ->
  py.truthy body = false ->
  update_dns_lambda.lambda_handler loads environ route53 event
  = py.Ok (update_dns_lambda.respond 400
             (py.JObj [("error", py.JStr "Missing 'domain' or 'ip' parameter")]),
           []).
Proof.
  intros Hh Ht Hd Hb Hfalsy. unfold update_dns_lambda.lambda_handler. cbv zeta.
  rewrite Hh. cbn [py.obind]. rewrite Ht. cbn [py.obind]. rewrite Hd, Hb.
  cbn [py.obind]. rewrite Hfalsy. reflexivity.
Qed.

(** X26 at an authorised request with no body. *)
Lemma update_dns_lambda_empty_body_witness :
  update_dns_lambda.lambda_handler (fun _ => None) {[ "AUTH_TOKEN" := "secret" ]}
    (fun _ => inl "unused")
    (py.JObj [("headers", py.JObj [("x-auth-token", py.JStr "secret")])])
  = py.Ok (update_dns_lambda.respond 400
             (py.JObj [("error", py.JStr "Missing 'domain' or 'ip' parameter")]),
           []).
Proof.
  apply (update_dns_lambda_empty_body (fun _ => None)
           {[ "AUTH_TOKEN" := "secret" ]} (fun _ => inl "unused")
           (py.JObj [("headers", py.JObj [("x-auth-token", py.JStr "secret")])])
           (py.JObj [("x-auth-token", py.JStr "secret")]) (py.JStr "secret")
           py.JNull);
    reflexivity.
Defined.

(** ** The client in front of the handlers *)

(** X27.  [update_dns] in front of the handler of [/v1/dns/update]: on a
    response that carries what the handler returned, the client returns
    the result on a 200, and raises the Authentication error with
    [Unauthorized] on a 403, a Validation error on a 400 and a Server
    error on a 500, each with the [error] of the handler, followed by
    its [message] when it sent one.  Nothing else leaves the client. *)
Theorem update_dns_in_front_of_the_handler
    (loads : string -> option py.value) (environ : gmap string string)
    (route53 : aws.ChangeCall -> string + py.value) (event : py.value)
    (returned : aws.Response) (calls : list aws.ChangeCall)
    (self : client.JscomApiClient) (domain : string) (ip : py.value)
    (w : world.World) (response : http.Response) :
  update_dns_lambda.lambda_handler loads environ route53 event
  = py.Ok (returned, calls) ->
  shape.carries response returned ->
  world.network w (contract.post_request self domain ip) = inr response ->
  let raised := fst (client.update_dns self domain ip w) in
  let detail items error :=
    match py.lookup_key "message" items with
    | Some message => error +:+ ": " +:+ py.str message
    | None => error
    end in
  (aws.statusCode returned = 200
   /\ exists items change_info,
        aws.body returned = py.JObj items
        /\ py.lookup_key "change_info" items = Some change_info
        /\ raised = py.Ok {| models.message := py.JStr "DNS record updated";
                             models.change_info := change_info |})
  \/ (aws.statusCode returned = 403
      /\ raised = py.Raise (py.AuthenticationError
                              "Authentication failed: Unauthorized"))
  \/ (aws.statusCode returned = 400
      /\ exists items error,
           aws.body returned = py.JObj items
           /\ py.lookup_key "error" items = Some (py.JStr error)
           /\ raised = py.Raise (py.ValidationError
                                   ("Validation error: " +:+ detail items error)))
  \/ (aws.statusCode returned = 500
      /\ exists items error,
           aws.body returned = py.JObj items
           /\ py.lookup_key "error" items = Some (py.JStr error)
           /\ raised = py.Raise (py.ServerError
                                   ("Server error: " +:+ detail items error))).
Proof.
  intros Hhandler (Hstatus & Hbody) Hnet. cbv zeta.
  rewrite update_dns_eq, Hnet. cbn [fst contract.on_answer].
  unfold contract.update_dns_response, contract.update_dns_body,
    contract.error_from_body. cbv zeta.
  destruct (update_dns_lambda_shape _ _ _ _ _ _ Hhandler)
    as (_ & items & Hitems & Hcases).
  pose proof (update_dns_lambda_unauthorized _ _ _ _ _ _ Hhandler) as H403.
  rewrite Hitems in Hbody.
  rewrite (parse_error_response_object self response items Hbody).
  rewrite Hstatus, Hbody.
  destruct Hcases as [(Hs & Hm & [info Hi] & He)|(Hs & error & He & Hm)].
  - left. split; [exact Hs|]. exists items, info.
    split; [exact Hitems|]. split; [exact Hi|].
    rewrite Hs. cbn. rewrite Hm. cbn. rewrite Hi. reflexivity.
  - destruct Hs as [Hs| [Hs| Hs]].
    + right; right; left. split; [exact Hs|]. exists items, error.
      split; [exact Hitems|]. split; [exact He|]. rewrite Hs, He. cbn.
      destruct Hm as [->|[msg ->]]; reflexivity.
    + right; left. split; [exact Hs|]. specialize (H403 Hs).
      rewrite H403 in Hitems. injection Hitems as <-. rewrite Hs. reflexivity.
    + right; right; right. split; [exact Hs|]. exists items, error.
      split; [exact Hitems|]. split; [exact He|]. rewrite Hs, He. cbn.
      destruct Hm as [->|[msg ->]]; reflexivity.
Qed.

(** X27 at a request with a wrong token. *)
Lemma update_dns_in_front_of_the_handler_witness :
  let returned :=
    update_dns_lambda.respond 403 (py.JObj [("error", py.JStr "Unauthorized")]) in
  let w :=
    scenario.answering
      (scenario.json_response 403 "{...}"
         (py.JObj [("error", py.JStr "Unauthorized")])) in
  let raised :=
    fst (client.update_dns scenario.test_client "mc.example.com."
           (py.JStr "1.2.3.4") w) in
  let detail items error :=
    match py.lookup_key "message" items with
    | Some message => error +:+ ": " +:+ py.str message
    | None => error
    end in
  (aws.statusCode returned = 200
   /\ exists items change_info,
        aws.body returned = py.JObj items
        /\ py.lookup_key "change_info" items = Some change_info
        /\ raised = py.Ok {| models.message := py.JStr "DNS record updated";
                             models.change_info := change_info |})
  \/ (aws.statusCode returned = 403
      /\ raised = py.Raise (py.AuthenticationError
                              "Authentication failed: Unauthorized"))
  \/ (aws.statusCode returned = 400
      /\ exists items error,
           aws.body returned = py.JObj items
           /\ py.lookup_key "error" items = Some (py.JStr error)
           /\ raised = py.Raise (py.ValidationError
                                   ("Validation error: " +:+ detail items error)))
  \/ (aws.statusCode returned = 500
      /\ exists items error,
           aws.body returned = py.JObj items
           /\ py.lookup_key "error" items = Some (py.JStr error)
           /\ raised = py.Raise (py.ServerError
                                   ("Server error: " +:+ detail items error))).
Proof.
  apply (update_dns_in_front_of_the_handler
           (fun _ => None) {[ "AUTH_TOKEN" := "secret" ]} (fun _ => inl "unused")
           (py.JObj [("headers", py.JObj [("x-auth-token", py.JStr "guess")])])
           (update_dns_lambda.respond 403
              (py.JObj [("error", py.JStr "Unauthorized")]))
           [] scenario.test_client "mc.example.com." (py.JStr "1.2.3.4")
           (scenario.answering
              (scenario.json_response 403 "{...}"
                 (py.JObj [("error", py.JStr "Unauthorized")])))
           {| http.status_code := 403; http.text := "{...}";
              http.body_json := inr (py.JObj [("error", py.JStr "Unauthorized")]) |});
    [vm_compute; reflexivity | split; reflexivity | reflexivity].
Defined.

(** X28.  [get_my_ip] in front of the handler of [/v1/ip/my]: on a
    response that carries what the handler returned, the client always
    returns a result, whose IP is the one of the handler's document. *)
Theorem get_my_ip_in_front_of_the_handler
    (event : py.value) (returned : aws.Response)
    (self : client.JscomApiClient) (w : world.World)
    (response : http.Response) :
  my_ip_lambda.lambda_handler event = py.Ok returned ->
  shape.carries response returned ->
  world.network w (contract.get_request self) = inr response ->
  exists ip,
    aws.body returned = py.JObj [("ip", ip)]
    /\ fst (client.get_my_ip self w) = py.Ok {| models.ip := ip |}.
Proof.
  intros Hhandler (Hstatus & Hbody) Hnet.
  unfold my_ip_lambda.lambda_handler in Hhandler.
  destruct (py.dict_get event "requestContext" _) as [rc|]; [|discriminate].
  cbn [py.obind] in Hhandler.
  destruct (py.dict_get rc "http" _) as [http|]; [|discriminate].
  cbn [py.obind] in Hhandler.
  destruct (py.dict_get http "sourceIp" _) as [ip|]; [|discriminate].
  injection Hhandler as <-. cbn in Hstatus, Hbody.
  exists ip. split; [reflexivity|].
  rewrite get_my_ip_eq, Hnet. cbn [fst contract.on_answer].
  unfold contract.get_my_ip_response, contract.get_my_ip_body.
  rewrite Hstatus, Hbody. reflexivity.
Qed.

(** X28 at an event of the gateway. *)
Lemma get_my_ip_in_front_of_the_handler_witness :
  exists ip,
    aws.body {| aws.statusCode := 200;
                aws.headers := Some {[ "Content-Type" := "application/json" ]};
                aws.body := py.JObj [("ip", py.JStr "203.0.113.42")] |}
    = py.JObj [("ip", ip)]
    /\ fst (client.get_my_ip scenario.test_client
              (scenario.answering
                 (scenario.json_response 200 "{...}"
                    (py.JObj [("ip", py.JStr "203.0.113.42")]))))
       = py.Ok {| models.ip := ip |}.
Proof.
  apply (get_my_ip_in_front_of_the_handler
           (py.JObj [("requestContext",
                      py.JObj [("http",
                                py.JObj [("sourceIp", py.JStr "203.0.113.42")])])])
           {| aws.statusCode := 200;
              aws.headers := Some {[ "Content-Type" := "application/json" ]};
              aws.body := py.JObj [("ip", py.JStr "203.0.113.42")] |}
           scenario.test_client
           (scenario.answering
              (scenario.json_response 200 "{...}"
                 (py.JObj [("ip", py.JStr "203.0.113.42")])))
           {| http.status_code := 200; http.text := "{...}";
              http.body_json := inr (py.JObj [("ip", py.JStr "203.0.113.42")]) |});
    [reflexivity | split; reflexivity | reflexivity].
Defined.


